(** * easylist_monitor: a shallow embedding of [scripts/easylist-monitor.js]

    The script polls two remote filter lists, decides for each whether it
    changed since the last run, and writes the new content together with a
    hash record and a metadata record.  This file embeds the script in Rocq
    and proves properties of it.

    Conventions of the embedding:
    - a JavaScript string is the list of its UTF-16 code units, so that
      [length] is JavaScript's [.length];
    - a [Date] is [option Z]: [Some t] is the time value [t] in milliseconds
      since the epoch, [None] is an Invalid Date (time value NaN);
    - [null] and [undefined] are [None];
    - the two JSON state documents are the typed maps the script itself
      writes; [JSON.stringify] followed by [JSON.parse] is the identity on
      them;
    - what the host provides (the clock, the network, [Date] parsing of
      free-form text, whether a file can be written) is a record [Host];
    - console output and I/O calls are recorded, in order, in a trace; a
      write that fails leaves the file as it was;
    - inside GitHub Actions, [require('@actions/core')] and the [setOutput]
      of that module work or fail as a whole, by the environment of the run:
      when they fail, the first of these calls throws and no output is
      set. *)

From Stdlib Require Import ZArith List Ascii String Lia DecimalString.
From stdpp Require Import base option list gmap.

Local Open Scope Z_scope.

(** ** JavaScript strings *)

Module JsString.

Abbreviation jsstring := (list Z) (only parsing).

(** An ASCII literal as a JavaScript string. *)
Definition js (s : string) : jsstring :=
  map (fun a => Z.of_N (N_of_ascii a)) (list_ascii_of_string s).

(** [ToBoolean] on a value that is a string, [null] or [undefined]. *)
Definition truthy (v : option jsstring) : bool :=
  match v with
  | Some (_ :: _) => true
  | _ => false
  end.

(** [a || b] on such values. *)
Definition or_else (v : option jsstring) (d : jsstring) : jsstring :=
  match v with
  | Some (c :: s) => c :: s
  | _ => d
  end.

(** Decimal rendering of a non-negative integer, as in a template literal. *)
Definition decimal (n : nat) : jsstring :=
  js (NilZero.string_of_uint (Nat.to_uint n)).

(** [Array.prototype.join]. *)
Fixpoint join (sep : jsstring) (parts : list jsstring) : jsstring :=
  match parts with
  | [] => []
  | [p] => p
  | p :: rest => p ++ sep ++ join sep rest
  end.

(** The regular expression line terminators: LF, CR, LS and PS. *)
Definition line_terminator (c : Z) : bool :=
  (c =? 10) || (c =? 13) || (c =? 8232) || (c =? 8233).

(** The maximal runs of characters other than line terminators. *)
Fixpoint lines (s : jsstring) : list jsstring :=
  match s with
  | [] => [[]]
  | c :: rest =>
      if line_terminator c then [] :: lines rest
      else match lines rest with
           | l :: ls => (c :: l) :: ls
           | [] => [[c]]
           end
  end.

Fixpoint strip_prefix (p s : jsstring) : option jsstring :=
  match p, s with
  | [], _ => Some s
  | a :: p', b :: s' => if a =? b then strip_prefix p' s' else None
  | _ :: _, [] => None
  end.

Fixpoint first_capture (p : jsstring) (ls : list jsstring) : option jsstring :=
  match ls with
  | [] => None
  | l :: rest =>
      match strip_prefix p l with
      | Some (c :: v) => Some (c :: v)
      | _ => first_capture p rest
      end
  end.

(** [content.match(/^<p>(.+)$/m)], reduced to its capture group: [^] holds at
    the start of a line, [.+] takes one or more characters that are not line
    terminators and [$] holds at the end of a line, so the leftmost match is
    on the first line that starts with [p] and goes on for at least one more
    character, and the group is the rest of that line.  [None] is the [null]
    of a failed match. *)
Definition match_line (p : string) (content : jsstring) : option jsstring :=
  first_capture (js p) (lines content).

(** The UTF-8 encoding of a string, as [fs.writeFile] and [Hash.update] apply
    it: a surrogate pair is one four-byte sequence, a lone surrogate is
    written as U+FFFD. *)
Definition high_surrogate (c : Z) : bool := (55296 <=? c) && (c <=? 56319).
Definition low_surrogate (c : Z) : bool := (56320 <=? c) && (c <=? 57343).

Definition utf8_code_point (c : Z) : list Z :=
  if c <? 128 then [c]
  else if c <? 2048 then [192 + c / 64; 128 + c mod 64]
  else if c <? 65536 then [224 + c / 4096; 128 + (c / 64) mod 64; 128 + c mod 64]
  else [240 + c / 262144; 128 + (c / 4096) mod 64; 128 + (c / 64) mod 64;
        128 + c mod 64].

Fixpoint utf8 (s : jsstring) : list Z :=
  match s with
  | [] => []
  | c :: rest =>
      if high_surrogate c then
        match rest with
        | d :: rest' =>
            if low_surrogate d
            then utf8_code_point (65536 + (c - 55296) * 1024 + (d - 56320))
                   ++ utf8 rest'
            else utf8_code_point 65533 ++ utf8 rest
        | [] => utf8_code_point 65533
        end
      else if low_surrogate c then utf8_code_point 65533 ++ utf8 rest
      else utf8_code_point c ++ utf8 rest
  end.

End JsString.

Export JsString.

(** ** SHA-256 (FIPS 180-4), for [crypto.createHash('sha256')] *)

Module Sha256.

Definition w32 (x : Z) : Z := x mod 4294967296.
Definition add32 (x y : Z) : Z := w32 (x + y).
Definition not32 (x : Z) : Z := Z.lxor x 4294967295.
Definition rotr (n x : Z) : Z :=
  Z.lor (Z.shiftr x n) (w32 (Z.shiftl x (32 - n))).

Definition Ch (x y z : Z) : Z := Z.lxor (Z.land x y) (Z.land (not32 x) z).
Definition Maj (x y z : Z) : Z :=
  Z.lxor (Z.lxor (Z.land x y) (Z.land x z)) (Z.land y z).
Definition Sigma0 (x : Z) : Z := Z.lxor (Z.lxor (rotr 2 x) (rotr 13 x)) (rotr 22 x).
Definition Sigma1 (x : Z) : Z := Z.lxor (Z.lxor (rotr 6 x) (rotr 11 x)) (rotr 25 x).
Definition sigma0 (x : Z) : Z := Z.lxor (Z.lxor (rotr 7 x) (rotr 18 x)) (Z.shiftr x 3).
Definition sigma1 (x : Z) : Z := Z.lxor (Z.lxor (rotr 17 x) (rotr 19 x)) (Z.shiftr x 10).

Definition K : list Z :=
  [1116352408; 1899447441; 3049323471; 3921009573; 961987163; 1508970993;
   2453635748; 2870763221; 3624381080; 310598401; 607225278; 1426881987;
   1925078388; 2162078206; 2614888103; 3248222580; 3835390401; 4022224774;
   264347078; 604807628; 770255983; 1249150122; 1555081692; 1996064986;
   2554220882; 2821834349; 2952996808; 3210313671; 3336571891; 3584528711;
   113926993; 338241895; 666307205; 773529912; 1294757372; 1396182291;
   1695183700; 1986661051; 2177026350; 2456956037; 2730485921; 2820302411;
   3259730800; 3345764771; 3516065817; 3600352804; 4094571909; 275423344;
   430227734; 506948616; 659060556; 883997877; 958139571; 1322822218;
   1537002063; 1747873779; 1955562222; 2024104815; 2227730452; 2361852424;
   2428436474; 2756734187; 3204031479; 3329325298].

(** The eight working variables, and the chaining value. *)
Record regs := Regs { ra : Z; rb : Z; rc : Z; rd : Z; re : Z; rf : Z; rg : Z; rh : Z }.

Definition H0 : regs :=
  Regs 1779033703 3144134277 1013904242 2773480762
       1359893119 2600822924 528734635 1541459225.

(** The padded message: the bytes, a 1 bit, zeros up to 56 modulo 64, and
    the bit length on eight bytes. *)
Definition be_bytes (n : nat) (x : Z) : list Z :=
  map (fun i => (x / 256 ^ Z.of_nat i) mod 256) (rev (seq 0 n)).

Definition pad (msg : list Z) : list Z :=
  let len := Z.of_nat (length msg) in
  msg ++ [128] ++ repeat 0 (Z.to_nat ((55 - len) mod 64)) ++ be_bytes 8 (8 * len).

Fixpoint be_words (n : nat) (bytes : list Z) : list Z :=
  match n, bytes with
  | S n', a :: b :: c :: d :: rest =>
      (((a * 256 + b) * 256 + c) * 256 + d) :: be_words n' rest
  | _, _ => []
  end.

(** The message schedule, kept newest first: the head is [W(t-1)]. *)
Fixpoint schedule (n : nat) (w : list Z) : list Z :=
  match n with
  | O => w
  | S n' =>
      let x := add32 (add32 (sigma1 (nth 1 w 0)) (nth 6 w 0))
                     (add32 (sigma0 (nth 14 w 0)) (nth 15 w 0)) in
      schedule n' (x :: w)
  end.

Definition round (r : regs) (kw : Z * Z) : regs :=
  let t1 := add32 (add32 (add32 (rh r) (Sigma1 (re r))) (Ch (re r) (rf r) (rg r)))
                  (add32 (fst kw) (snd kw)) in
  let t2 := add32 (Sigma0 (ra r)) (Maj (ra r) (rb r) (rc r)) in
  Regs (add32 t1 t2) (ra r) (rb r) (rc r) (add32 (rd r) t1) (re r) (rf r) (rg r).

Definition compress (h : regs) (block : list Z) : regs :=
  let w := rev (schedule 48 (rev (be_words 16 block))) in
  let r := fold_left round (combine K w) h in
  Regs (add32 (ra h) (ra r)) (add32 (rb h) (rb r)) (add32 (rc h) (rc r))
       (add32 (rd h) (rd r)) (add32 (re h) (re r)) (add32 (rf h) (rf r))
       (add32 (rg h) (rg r)) (add32 (rh h) (rh r)).

Fixpoint blocks (n : nat) (h : regs) (bytes : list Z) : regs :=
  match n with
  | O => h
  | S n' => blocks n' (compress h (firstn 64 bytes)) (skipn 64 bytes)
  end.

Definition digest (msg : list Z) : regs :=
  let p := pad msg in blocks (length p / 64)%nat H0 p.

(** [digest('hex')]: lower-case hexadecimal, eight digits a word. *)
Definition hex_digit (d : Z) : Z := if d <? 10 then 48 + d else 87 + d.
Definition hex_word (x : Z) : list Z :=
  [hex_digit ((x / 268435456) mod 16); hex_digit ((x / 16777216) mod 16);
   hex_digit ((x / 1048576) mod 16); hex_digit ((x / 65536) mod 16);
   hex_digit ((x / 4096) mod 16); hex_digit ((x / 256) mod 16);
   hex_digit ((x / 16) mod 16); hex_digit (x mod 16)].

Definition hex (r : regs) : jsstring :=
  hex_word (ra r) ++ hex_word (rb r) ++ hex_word (rc r) ++ hex_word (rd r) ++
  hex_word (re r) ++ hex_word (rf r) ++ hex_word (rg r) ++ hex_word (rh r).

Definition sha256_hex (s : jsstring) : jsstring := hex (digest (utf8 s)).

End Sha256.

(** ** Dates *)

Module JsDate.

(** A [Date] object; [None] is an Invalid Date. *)
Definition Date := option Z.

(** [a > b] on two dates: both are converted to their time values, and a
    comparison with NaN is false. *)
Definition date_gt (a b : Date) : bool :=
  match a, b with
  | Some x, Some y => y <? x
  | _, _ => false
  end.

(** [a - b] on two dates, NaN when either is invalid. *)
Definition date_sub (a b : Date) : option Z :=
  match a, b with
  | Some x, Some y => Some (x - y)
  | _, _ => None
  end.

(** Fixed-width decimal digits, most significant first. *)
Fixpoint digits (w : nat) (x : Z) : jsstring :=
  match w with
  | O => []
  | S w' => digits w' (x / 10) ++ [48 + x mod 10]
  end.

(** Year, month and day of a day number counted from 1970-01-01, in the
    proleptic Gregorian calendar. *)
Definition civil (days : Z) : Z * Z * Z :=
  let z := days + 719468 in
  let era := z / 146097 in
  let doe := z mod 146097 in
  let yoe := (doe - doe / 1460 + doe / 36524 - doe / 146096) / 365 in
  let doy := doe - (365 * yoe + yoe / 4 - yoe / 100) in
  let mp := (5 * doy + 2) / 153 in
  let d := doy - (153 * mp + 2) / 5 + 1 in
  let m := if mp <? 10 then mp + 3 else mp - 9 in
  let y := yoe + era * 400 + (if m <=? 2 then 1 else 0) in
  (y, m, d).

(** [Date.prototype.toISOString] on a valid time value. *)
Definition iso_string (t : Z) : jsstring :=
  let '(y, m, d) := civil (t / 86400000) in
  let ms := t mod 86400000 in
  let year :=
    if (0 <=? y) && (y <=? 9999) then digits 4 y
    else (if y <? 0 then [45] else [43]) ++ digits 6 (Z.abs y) in
  year ++ [45] ++ digits 2 m ++ [45] ++ digits 2 d ++ [84] ++
  digits 2 (ms / 3600000) ++ [58] ++ digits 2 ((ms / 60000) mod 60) ++ [58] ++
  digits 2 ((ms / 1000) mod 60) ++ [46] ++ digits 3 (ms mod 1000) ++ [90].

End JsDate.

Export JsDate.

(** ** The monitor *)

Module Monitor.

Import Sha256.

(** *** Data *)

(** [EASYLIST_URLS], in the order of [Object.entries]. *)
Definition EASYLIST_URLS : list (jsstring * jsstring) :=
  [(js "easylist.txt", js "https://easylist.to/easylist/easylist.txt");
   (js "easyprivacy.txt", js "https://easylist.to/easylist/easyprivacy.txt")].

(** An entry of [metadata.json]. *)
Record Metadata := mkMetadata {
  md_lastModified : option jsstring;
  md_etag : option jsstring;
  md_version : option jsstring;
  md_lastChecked : option jsstring;
  md_size : nat
}.

(** [{ ...m, lastChecked: iso }]. *)
Definition with_lastChecked (m : Metadata) (iso : jsstring) : Metadata :=
  mkMetadata (md_lastModified m) (md_etag m) (md_version m) (Some iso) (md_size m).

(** The headers object built by [fetchList]. *)
Record Headers := mkHeaders {
  hd_lastModified : option jsstring;
  hd_etag : option jsstring;
  hd_contentLength : option jsstring;
  hd_cacheControl : option jsstring
}.

(** The result of [extractVersion]. *)
Record VersionInfo := mkVersionInfo {
  vi_version : option jsstring;
  vi_lastModified : option jsstring;
  vi_expires : option jsstring
}.

(** An element of [updatedLists].  [ev_ageHours] holds the milliseconds
    from the effective last-modified time to the clock, of which the script
    stores the quotient by 3600000 rendered by [toFixed(1)]. *)
Record UpdateEvent := mkUpdateEvent {
  ev_filename : jsstring;
  ev_url : jsstring;
  ev_hash : jsstring;
  ev_version : option jsstring;
  ev_lastModified : jsstring;
  ev_serverLastModified : option jsstring;
  ev_etag : option jsstring;
  ev_size : nat;
  ev_changeReason : jsstring;
  ev_expires : option jsstring;
  ev_ageHours : option Z
}.

(** The content of [update-summary.json]. *)
Record Summary := mkSummary {
  sm_updated : nat;
  sm_timestamp : jsstring;
  sm_lists : list UpdateEvent
}.

(** The value [checkForUpdates] returns. *)
Record CheckResult := mkCheckResult {
  hasUpdates : bool;
  res_updatedLists : list UpdateEvent;
  res_summary : option Summary
}.

(** The files the script touches, all under [__dirname]. *)
Inductive Path :=
| ListFile (filename : jsstring)
| HashesFile
| MetadataFile
| SummaryFile.

(** A state document is [None] when its file is missing or does not parse. *)
Record Disk := mkDisk {
  hashes_json : option (gmap jsstring jsstring);
  metadata_json : option (gmap jsstring Metadata);
  list_files : gmap jsstring jsstring;
  summary_json : option Summary
}.

(** What [await fetch(url)] and [await response.text()] give: a rejection,
    or a response with its [ok] flag, status line, header lookup and body
    text. *)
Inductive FetchOutcome :=
| Rejected (message : jsstring)
| Response (ok : bool) (status : Z) (statusText : jsstring)
           (get : jsstring -> option jsstring) (text : jsstring).

(** The exceptions the script can meet. *)
Inductive JsError :=
| HttpError (status : Z) (statusText : jsstring)
| FetchRejected (message : jsstring)
| InvalidTimeValue
| WriteFailed (p : Path)
| ActionsCoreFailed.

(** Console lines, one constructor a call site, with the values that are
    interpolated. *)
Inductive LogLine :=
| LogListsDirExists
| LogNoHashesFile
| LogFailedToFetch (url : jsstring) (error : JsError)
| LogChecking (n : nat)
| LogFetching (filename : jsstring)
| LogThrottled (filename : jsstring) (sinceCheck : option Z)
| LogUpdated (filename reason : jsstring)
| LogVersion (version : jsstring)
| LogLastModified (iso : jsstring)
| LogServerLastModified (header : jsstring)
| LogETag (etag : jsstring)
| LogFileAge (age : option Z)
| LogUpToDate (filename : jsstring) (age : option (option Z))
| LogErrorProcessing (filename : jsstring) (error : JsError)
| LogUpdatedCount (n : nat)
| LogAllUpToDate
| LogSuggestedMessage (message : jsstring)
| LogScriptFailed (error : JsError).

Inductive Event :=
| Log (line : LogLine)
| Mkdir
| Fetch (url : jsstring)
| WriteFile (p : Path)
| Sleep (ms : Z)
| SetOutput (name value : jsstring).

#[global] Instance Path_eq_dec : EqDecision Path.
Proof. solve_decision. Defined.
#[global] Instance JsError_eq_dec : EqDecision JsError.
Proof. solve_decision. Defined.
#[global] Instance LogLine_eq_dec : EqDecision LogLine.
Proof. solve_decision. Defined.
#[global] Instance Event_eq_dec : EqDecision Event.
Proof. solve_decision. Defined.

(** The host: [clock n] is the value of the [n]-th [new Date()] of the run,
    [parse_date s] is [new Date(s)], and [writable p] tells whether
    [fs.writeFile] on [p] succeeds.  [actions_core_fails] tells whether
    [require('@actions/core')] or the [setOutput] of that module throws:
    this is a matter of the environment of the run (the module is installed,
    the file named by [GITHUB_OUTPUT] exists), so it is the first of these
    calls that throws, before any output is set, or none. *)
Record Host := mkHost {
  clock : nat -> Z;
  parse_date : jsstring -> Date;
  fetch : jsstring -> FetchOutcome;
  writable : Path -> bool;
  mkdir_fails : bool;
  GITHUB_ACTIONS : bool;
  actions_core_fails : bool
}.

(** The state of a run: the world ([disk], [ticks], [trace]) and the local
    variables of [checkForUpdates] that its loop mutates. *)
Record State := mkState {
  disk : Disk;
  ticks : nat;
  trace : list Event;
  newHashes : gmap jsstring jsstring;
  newMetadata : gmap jsstring Metadata;
  updatedLists : list UpdateEvent
}.

Definition boot (d : Disk) : State := mkState d O [] ∅ ∅ [].

(** *** A state and exception monad *)

Inductive Outcome (A : Type) :=
| Returned (a : A)
| Thrown (e : JsError).
Arguments Returned {A} a.
Arguments Thrown {A} e.

Definition M (A : Type) : Type := State -> Outcome A * State.

#[global] Instance M_ret : MRet M := fun A a s => (Returned a, s).
#[global] Instance M_bind : MBind M := fun A B f m s =>
  match m s with
  | (Returned a, s') => f a s'
  | (Thrown e, s') => (Thrown e, s')
  end.

Definition throw {A} (e : JsError) : M A := fun s => (Thrown e, s).

Definition try_catch {A} (body : M A) (handler : JsError -> M A) : M A := fun s =>
  match body s with
  | (Returned a, s') => (Returned a, s')
  | (Thrown e, s') => handler e s'
  end.

Definition emit (e : Event) : M unit := fun s =>
  (Returned tt,
   mkState (disk s) (ticks s) (trace s ++ [e]) (newHashes s) (newMetadata s)
           (updatedLists s)).

Definition console (l : LogLine) : M unit := emit (Log l).

(** [new Date()]. *)
Definition new_Date (h : Host) : M Z := fun s =>
  (Returned (clock h (ticks s)),
   mkState (disk s) (S (ticks s)) (trace s) (newHashes s) (newMetadata s)
           (updatedLists s)).

Definition read_disk : M Disk := fun s => (Returned (disk s), s).

Definition set_disk (d : Disk) : M unit := fun s =>
  (Returned tt,
   mkState d (ticks s) (trace s) (newHashes s) (newMetadata s) (updatedLists s)).

Definition get_newHashes : M (gmap jsstring jsstring) := fun s =>
  (Returned (newHashes s), s).
Definition get_newMetadata : M (gmap jsstring Metadata) := fun s =>
  (Returned (newMetadata s), s).
Definition get_updatedLists : M (list UpdateEvent) := fun s =>
  (Returned (updatedLists s), s).

Definition set_locals (hs : gmap jsstring jsstring) (ms : gmap jsstring Metadata)
    (ul : list UpdateEvent) : M unit := fun s =>
  (Returned tt, mkState (disk s) (ticks s) (trace s) hs ms ul).

(** [fs.writeFile]: the call is traced, then it stores or throws. *)
Definition writeFile (h : Host) (p : Path) (store : Disk -> Disk) : M unit :=
  emit (WriteFile p);;
  if writable h p then d ← read_disk; set_disk (store d)
  else throw (WriteFailed p).

(** [toISOString], which throws a RangeError on an Invalid Date. *)
Definition toISOString (d : Date) : M jsstring :=
  match d with
  | Some t => mret (iso_string t)
  | None => throw InvalidTimeValue
  end.

Fixpoint for_each {A} (l : list A) (body : A -> M unit) : M unit :=
  match l with
  | [] => mret tt
  | x :: rest => body x;; for_each rest body
  end.

(** *** The methods of [EasyListMonitor] *)

Section Methods.

Variable h : Host.

(** [init]: a failure of [mkdir] is caught and logged. *)
Definition init : M unit :=
  emit Mkdir;;
  if mkdir_fails h then console LogListsDirExists else mret tt.

Definition loadHashes : M (gmap jsstring jsstring) :=
  d ← read_disk;
  match hashes_json d with
  | Some hashes => mret hashes
  | None => console LogNoHashesFile;; mret ∅
  end.

Definition saveHashes (hashes : gmap jsstring jsstring) : M unit :=
  writeFile h HashesFile (fun d =>
    mkDisk (Some hashes) (metadata_json d) (list_files d) (summary_json d)).

Definition loadMetadata : M (gmap jsstring Metadata) :=
  d ← read_disk;
  mret (default ∅ (metadata_json d)).

Definition saveMetadata (metadata : gmap jsstring Metadata) : M unit :=
  writeFile h MetadataFile (fun d =>
    mkDisk (hashes_json d) (Some metadata) (list_files d) (summary_json d)).

Definition calculateHash (content : jsstring) : jsstring := sha256_hex content.

Definition fetchList (url : jsstring) : M (jsstring * Headers) :=
  try_catch
    (emit (Fetch url);;
     match fetch h url with
     | Rejected message => throw (FetchRejected message)
     | Response ok status statusText get text =>
         if ok then
           mret (text,
                 mkHeaders (get (js "last-modified")) (get (js "etag"))
                           (get (js "content-length")) (get (js "cache-control")))
         else throw (HttpError status statusText)
     end)
    (fun error => console (LogFailedToFetch url error);; throw error).

Definition extractVersion (content : jsstring) : VersionInfo :=
  mkVersionInfo (match_line "! Version: " content)
                (match_line "! Last modified: " content)
                (match_line "! Expires: " content).

(** [serverTime] and [contentTime] are [null] or a [Date]; a [Date], valid
    or not, is truthy. *)
Definition parseLastModified (lastModifiedHeader : option jsstring)
    (listContent : jsstring) : M Date :=
  let serverTime : option Date :=
    match lastModifiedHeader with
    | Some (c :: s) => Some (parse_date h (c :: s))
    | _ => None
    end in
  let contentTime : option Date :=
    match match_line "! Last modified: " listContent with
    | Some v => Some (parse_date h v)
    | None => None
    end in
  match serverTime, contentTime with
  | Some st, Some ct => mret (if date_gt st ct then st else ct)
  | Some st, None => mret st
  | None, Some ct => mret ct
  | None, None => t ← new_Date h; mret (Some t)
  end.

(** [ageInHours > checkInterval], for a whole number of hours: the quotient
    of the age in milliseconds by 3600000 is above it exactly when the age is
    above that many milliseconds, and NaN is above nothing. *)
Definition isFileStale (lastModified : Date) (checkInterval : Z) : M bool :=
  now ← new_Date h;
  mret match date_sub (Some now) lastModified with
       | Some age => checkInterval * 3600000 <? age
       | None => false
       end.

(** [changeReason += (changeReason ? ' and ' : '') + fragment]. *)
Definition add_reason (changeReason fragment : jsstring) : jsstring :=
  changeReason ++ (if truthy (Some changeReason) then js " and " else []) ++ fragment.

(** The three change detection methods of [checkForUpdates], which give
    [hasChanged] and [changeReason]. *)
Definition detectChange (oldHash : option jsstring) (newHash : jsstring)
    (oldMetadata : option Metadata) (lastModified : Date)
    (etag : option jsstring) : bool * jsstring :=
  let r1 : bool * jsstring :=
    if bool_decide (oldHash = Some newHash) then (false, [])
    else (true, js "content hash changed") in
  let r2 : bool * jsstring :=
    match oldMetadata with
    | Some om =>
        match md_lastModified om with
        | Some (c :: s) =>
            if date_gt lastModified (parse_date h (c :: s))
            then (true, add_reason (snd r1) (js "timestamp newer"))
            else r1
        | _ => r1
        end
    | None => r1
    end in
  match etag, oldMetadata with
  | Some (c :: s), Some om =>
      match md_etag om with
      | Some (c' :: s') =>
          if bool_decide (c :: s = c' :: s') then r2
          else (true, add_reason (snd r2) (js "ETag changed"))
      | _ => r2
      end
  | _, _ => r2
  end.

(** [minutesSinceCheck < limit], on the milliseconds [since] that the script
    divides by 60000: the quotient of an integer by 60000 is below the
    integer [limit] exactly when the integer is below [limit * 60000], and
    NaN is below nothing. *)
Definition minutes_lt (since : option Z) (limit : Z) : bool :=
  match since with
  | Some ms => ms <? limit * 60000
  | None => false
  end.

(** The branch of a detected change. *)
Definition recordUpdate (filename url content newHash : jsstring)
    (headers : Headers) (versionInfo : VersionInfo) (lastModified : Date)
    (changeReason : jsstring) : M unit :=
  console (LogUpdated filename (or_else (Some changeReason) (js "first time")));;
  console (LogVersion (or_else (vi_version versionInfo) (js "N/A")));;
  iso ← toISOString lastModified;
  console (LogLastModified iso);;
  console (LogServerLastModified (or_else (hd_lastModified headers) (js "N/A")));;
  console (LogETag (or_else (hd_etag headers) (js "N/A")));;
  t ← new_Date h;
  console (LogFileAge (date_sub (Some t) lastModified));;
  writeFile h (ListFile filename) (fun d =>
    mkDisk (hashes_json d) (metadata_json d)
           (<[filename := content]> (list_files d)) (summary_json d));;
  iso ← toISOString lastModified;
  t ← new_Date h;
  hashes ← get_newHashes;
  metadata ← get_newMetadata;
  updated ← get_updatedLists;
  set_locals hashes metadata
    (updated ++ [mkUpdateEvent filename url newHash (vi_version versionInfo) iso
                   (hd_lastModified headers) (hd_etag headers) (length content)
                   changeReason (vi_expires versionInfo)
                   (date_sub (Some t) lastModified)]);;
  hashes ← get_newHashes;
  metadata ← get_newMetadata;
  updated ← get_updatedLists;
  set_locals (<[filename := newHash]> hashes) metadata updated;;
  iso ← toISOString lastModified;
  t ← new_Date h;
  hashes ← get_newHashes;
  metadata ← get_newMetadata;
  updated ← get_updatedLists;
  set_locals hashes
    (<[filename := mkMetadata (Some iso) (hd_etag headers)
                     (vi_version versionInfo) (Some (iso_string t))
                     (length content)]> metadata)
    updated.

(** The branch of no change. *)
Definition recordCheck (filename : jsstring) (oldMetadata : option Metadata)
    : M unit :=
  ageHours ←
    match oldMetadata with
    | Some om =>
        match md_lastModified om with
        | Some (c :: s) =>
            t ← new_Date h;
            mret (Some (date_sub (Some t) (parse_date h (c :: s))))
        | _ => mret None
        end
    | None => mret None
    end;
  console (LogUpToDate filename ageHours);;
  match oldMetadata with
  | Some om =>
      t ← new_Date h;
      hashes ← get_newHashes;
      metadata ← get_newMetadata;
      updated ← get_updatedLists;
      set_locals hashes (<[filename := with_lastChecked om (iso_string t)]> metadata)
                 updated
  | None => mret tt
  end.

(** The body of the loop from the call of [fetchList] on. *)
Definition fetchAndCompare (currentHashes : gmap jsstring jsstring)
    (oldMetadata : option Metadata) (filename url : jsstring) : M unit :=
  '(content, headers) ← fetchList url;
  let newHash := calculateHash content in
  let versionInfo := extractVersion content in
  lastModified ← parseLastModified (hd_lastModified headers) content;
  let oldHash := currentHashes !! filename in
  let '(hasChanged, changeReason) :=
    detectChange oldHash newHash oldMetadata lastModified (hd_etag headers) in
  (if hasChanged || negb (truthy oldHash)
   then recordUpdate filename url content newHash headers versionInfo
                     lastModified changeReason
   else recordCheck filename oldMetadata);;
  emit (Sleep 1000).

(** One iteration of the loop: the [try] block with its [continue], and the
    [catch] that logs. *)
Definition checkOne (currentHashes : gmap jsstring jsstring)
    (currentMetadata : gmap jsstring Metadata) (entry : jsstring * jsstring)
    : M unit :=
  let filename := fst entry in
  let url := snd entry in
  try_catch
    (console (LogFetching filename);;
     let oldMetadata := currentMetadata !! filename in
     match oldMetadata with
     | Some (mkMetadata _ _ _ (Some (c :: s)) _) =>
         let lastChecked := parse_date h (c :: s) in
         t ← new_Date h;
         let sinceCheck := date_sub (Some t) lastChecked in
         if minutes_lt sinceCheck 90
         then console (LogThrottled filename sinceCheck)
         else fetchAndCompare currentHashes oldMetadata filename url
     | _ => fetchAndCompare currentHashes oldMetadata filename url
     end)
    (fun error => console (LogErrorProcessing filename error)).

(** The end of [checkForUpdates], after the loop. *)
Definition saveAndReport : M CheckResult :=
  updated ← get_updatedLists;
  if (0 <? length updated)%nat then
    hashes ← get_newHashes;
    saveHashes hashes;;
    metadata ← get_newMetadata;
    saveMetadata metadata;;
    console (LogUpdatedCount (length updated));;
    t ← new_Date h;
    let summary := mkSummary (length updated) (iso_string t) updated in
    writeFile h SummaryFile (fun d =>
      mkDisk (hashes_json d) (metadata_json d) (list_files d) (Some summary));;
    mret (mkCheckResult true updated (Some summary))
  else
    console LogAllUpToDate;;
    metadata ← get_newMetadata;
    saveMetadata metadata;;
    mret (mkCheckResult false [] None).

Definition checkForUpdates : M CheckResult :=
  init;;
  currentHashes ← loadHashes;
  currentMetadata ← loadMetadata;
  set_locals currentHashes currentMetadata [];;
  console (LogChecking (length EASYLIST_URLS));;
  for_each EASYLIST_URLS (checkOne currentHashes currentMetadata);;
  saveAndReport.

Definition generateCommitMessage (updated : list UpdateEvent) : jsstring :=
  match updated with
  | [list] =>
      js "Update " ++ ev_filename list ++
      (if truthy (ev_version list)
       then js " to v" ++ default [] (ev_version list) else [])
  | _ =>
      js "Update " ++ decimal (length updated) ++ js " EasyList files" ++ [10; 10] ++
      join [10]
        (map (fun list =>
                js "- " ++ ev_filename list ++
                (if truthy (ev_version list)
                 then js " (v" ++ default [] (ev_version list) ++ js ")" else []))
             updated)
  end.

(** [const core = require('@actions/core')], with the calls of [setOutput]
    that follow it as far as they can throw. *)
Definition require_actions_core : M unit :=
  if actions_core_fails h then throw ActionsCoreFailed else mret tt.

(** [main], which gives the exit code of the process: the [try] block ends
    in [process.exit(0)], the [catch] in [process.exit(1)]. *)
Definition main : M Z :=
  try_catch
    (result ← checkForUpdates;
     if hasUpdates result then
       let commitMessage := generateCommitMessage (res_updatedLists result) in
       (if GITHUB_ACTIONS h then
          require_actions_core;;
          emit (SetOutput (js "has_updates") (js "true"));;
          emit (SetOutput (js "commit_message") commitMessage);;
          emit (SetOutput (js "updated_count")
                          (decimal (length (res_updatedLists result))))
        else mret tt);;
       console (LogSuggestedMessage commitMessage);;
       mret 0
     else
       (if GITHUB_ACTIONS h then
          require_actions_core;;
          emit (SetOutput (js "has_updates") (js "false"));;
          emit (SetOutput (js "commit_message") []);;
          emit (SetOutput (js "updated_count") (js "0"))
        else mret tt);;
       mret 0)
    (fun error => console (LogScriptFailed error);; mret 1).

End Methods.

End Monitor.

(** ** Sample hosts and disks

    Concrete data on which the theorems below are run.  The dates are those
    V8 gives; a string outside the table is taken not to parse. *)

Module Sample.

Import Monitor.

Definition easylist_txt : jsstring := js "easylist.txt".
Definition easylist_url : jsstring := js "https://easylist.to/easylist/easylist.txt".
Definition easyprivacy_txt : jsstring := js "easyprivacy.txt".
Definition easyprivacy_url : jsstring :=
  js "https://easylist.to/easylist/easyprivacy.txt".

(** 2026-11-03T04:10:00.000Z. *)
Definition T0 : Z := 1793679000000.

Definition dates : list (jsstring * Z) :=
  [(js "Tue, 03 Nov 2026 03:00:00 GMT", 1793674800000);
   (js "03 Nov 2026 05:00 UTC", 1793682000000);
   (js "2026-11-03T03:00:00.000Z", 1793674800000);
   (js "2026-11-03T05:00:00.000Z", 1793682000000);
   (js "2026-11-02T12:00:00.000Z", 1793620800000)].

Fixpoint assoc {A} (table : list (jsstring * A)) (key : jsstring) : option A :=
  match table with
  | [] => None
  | (k, v) :: rest => if bool_decide (k = key) then Some v else assoc rest key
  end.

(** A list of lines, each ended by a line feed. *)
Definition text_of (ls : list jsstring) : jsstring :=
  concat (map (fun l => l ++ [10]) ls).

Definition easylist_body : jsstring :=
  text_of [js "[Adblock Plus 2.0]"; js "! Version: 202611030410";
           js "! Last modified: 03 Nov 2026 05:00 UTC"; js "! Expires: 4 days";
           js "||ads.example^"].

Definition easylist_headers : jsstring -> option jsstring :=
  assoc [(js "last-modified", js "Tue, 03 Nov 2026 03:00:00 GMT");
         (js "etag", js "W/abc")].

(** A host with a frozen clock on which every write succeeds and
    [@actions/core] works, and which serves [responses] and rejects every
    other request. *)
Definition host_serving (responses : list (jsstring * FetchOutcome)) : Host :=
  mkHost (fun _ => T0) (assoc dates)
         (fun url => default (Rejected (js "fetch failed")) (assoc responses url))
         (fun _ => true) false true false.

(** [easylist.txt] is served, the request for [easyprivacy.txt] fails. *)
Definition host : Host :=
  host_serving [(easylist_url, Response true 200 (js "OK") easylist_headers easylist_body)].

Definition empty_disk : Disk := mkDisk None None ∅ None.

(** The state documents after a run at 03:00 that stored [easylist_body]. *)
Definition easylist_metadata (lastChecked : string) : Metadata :=
  mkMetadata (Some (js "2026-11-03T05:00:00.000Z")) (Some (js "W/abc"))
             (Some (js "202611030410")) (Some (js lastChecked)) 115.

Definition disk_checked_at (lastChecked : string) : Disk :=
  mkDisk (Some {[ easylist_txt := Sha256.sha256_hex easylist_body ]})
         (Some {[ easylist_txt := easylist_metadata lastChecked ]})
         {[ easylist_txt := easylist_body ]} None.

(** A body whose [Last modified] line does not parse, under a valid header. *)
Definition undated_body : jsstring := text_of [js "! Last modified: soon"].

Definition undated_host : Host :=
  host_serving [(easylist_url, Response true 200 (js "OK") easylist_headers undated_body)].

(** A body of one character outside ASCII, U+00E9. *)
Definition accented_body : jsstring := [233].

Definition accented_host : Host :=
  host_serving [(easylist_url, Response true 200 (js "OK") (fun _ => None) accented_body)].

(** The state documents after a run at noon of the day before that stored
    [accented_body], a list that carries no date, served without headers. *)
Definition accented_disk : Disk :=
  mkDisk (Some {[ easylist_txt := Sha256.sha256_hex accented_body ]})
         (Some {[ easylist_txt :=
                    mkMetadata (Some (js "2026-11-02T12:00:00.000Z")) None None
                               (Some (js "2026-11-02T12:00:00.000Z")) 1 ]})
         {[ easylist_txt := accented_body ]} None.

(** A host like [host] on which no list file can be written. *)
Definition readonly_lists_host : Host :=
  mkHost (fun _ => T0) (assoc dates) (fetch host)
         (fun p => match p with ListFile _ => false | _ => true end) false true false.

(** A host like [host] on which [metadata.json] cannot be written. *)
Definition metadata_readonly_host : Host :=
  mkHost (fun _ => T0) (assoc dates) (fetch host)
         (fun p => match p with MetadataFile => false | _ => true end) false true false.

(** The host of a second run, an hour after [T0], whose [Date] also reads
    the ISO form of [T0]. *)
Definition later_host : Host :=
  mkHost (fun _ => T0 + 3600000)
         (assoc ((js "2026-11-03T04:10:00.000Z", T0) :: dates))
         (fetch host) (fun _ => true) false true false.

(** A host like [host], inside GitHub Actions, on which [@actions/core]
    cannot be loaded. *)
Definition coreless_host : Host :=
  mkHost (fun _ => T0) (assoc dates) (fetch host) (fun _ => true) false true true.

End Sample.

(** ** Vocabulary of the proofs *)

Import Monitor Sha256.

(** [say evs s] is [s] after the events [evs], [advance k s] is [s] after
    [k] readings of the clock. *)

Definition say (evs : list Event) (s : State) : State :=
  mkState (disk s) (ticks s) (trace s ++ evs) (newHashes s) (newMetadata s) (updatedLists s).
Definition advance (k : nat) (s : State) : State :=
  mkState (disk s) (k + ticks s) (trace s) (newHashes s) (newMetadata s) (updatedLists s).

(** The exception [fetchList] throws on an outcome of [fetch], if any. *)
Definition fetch_error (o : FetchOutcome) : option JsError :=
  match o with
  | Rejected message => Some (FetchRejected message)
  | Response false status statusText _ _ => Some (HttpError status statusText)
  | Response true _ _ _ _ => None
  end.

(** The headers object [fetchList] builds from a response. *)
Definition headers_of (get : jsstring -> option jsstring) : Headers :=
  mkHeaders (get (js "last-modified")) (get (js "etag"))
            (get (js "content-length")) (get (js "cache-control")).

(** The I/O an iteration for [filename] and [url] may do: it fetches no
    other URL and writes no file but its own list. *)
Definition local_event (filename url : jsstring) (e : Event) : Prop :=
  match e with
  | Fetch u => u = url
  | WriteFile p => p = ListFile filename
  | _ => True
  end.

(** What one iteration of the loop does to the local maps and to the disk. *)
Inductive Effect (h : Host) (currentMetadata : gmap jsstring Metadata)
    (filename url : jsstring) (s s' : State) : Prop :=
| Quiet :
    disk s' = disk s -> newHashes s' = newHashes s ->
    newMetadata s' = newMetadata s -> updatedLists s' = updatedLists s ->
    Effect h currentMetadata filename url s s'
| Checked (om : Metadata) (n : nat) :
    currentMetadata !! filename = Some om ->
    (ticks s <= n < ticks s')%nat ->
    disk s' = disk s -> newHashes s' = newHashes s ->
    newMetadata s' =
      <[filename := with_lastChecked om (iso_string (clock h n))]> (newMetadata s) ->
    updatedLists s' = updatedLists s ->
    Effect h currentMetadata filename url s s'
| Updated (status : Z) (statusText : jsstring) (get : jsstring -> option jsstring)
          (content : jsstring) (ev : UpdateEvent) (md : Metadata) :
    fetch h url = Response true status statusText get content ->
    ev_filename ev = filename -> ev_url ev = url ->
    ev_hash ev = calculateHash content ->
    ev_size ev = length content -> md_size md = length content ->
    list_files (disk s') = <[filename := content]> (list_files (disk s)) ->
    newHashes s' = <[filename := calculateHash content]> (newHashes s) ->
    newMetadata s' = <[filename := md]> (newMetadata s) ->
    updatedLists s' = updatedLists s ++ [ev] ->
    Effect h currentMetadata filename url s s'.

(** What every iteration leaves alone. *)
Definition Local (filename url : jsstring) (s s' : State) : Prop :=
  (exists evs, trace s' = trace s ++ evs /\ Forall (local_event filename url) evs) /\
  hashes_json (disk s') = hashes_json (disk s) /\
  metadata_json (disk s') = metadata_json (disk s) /\
  summary_json (disk s') = summary_json (disk s) /\
  (ticks s <= ticks s')%nat.


(** What the whole loop over [l] leaves alone. *)
Definition loop_event (l : list (jsstring * jsstring)) (e : Event) : Prop :=
  match e with
  | Fetch u => u ∈ map snd l
  | WriteFile p => exists filename, p = ListFile filename /\ filename ∈ map fst l
  | _ => True
  end.

Definition Loop (l : list (jsstring * jsstring)) (s s' : State) : Prop :=
  (exists evs, trace s' = trace s ++ evs /\ Forall (loop_event l) evs) /\
  hashes_json (disk s') = hashes_json (disk s) /\
  metadata_json (disk s') = metadata_json (disk s) /\
  summary_json (disk s') = summary_json (disk s) /\
  (exists new,
     updatedLists s' = updatedLists s ++ new /\
     Forall (fun ev => ev_filename ev ∈ map fst l) new /\
     forall g, g ∉ map ev_filename new -> newHashes s' !! g = newHashes s !! g) /\
  (forall g, g ∉ map fst l ->
     newHashes s' !! g = newHashes s !! g /\ newMetadata s' !! g = newMetadata s !! g).

(** The state in which the loop of [checkForUpdates] starts on disk [d]. *)
Definition loaded (h : Host) (d : Disk) : State :=
  mkState d O
    (Mkdir :: (if mkdir_fails h then [Log LogListsDirExists] else []) ++
     match hashes_json d with Some _ => [] | None => [Log LogNoHashesFile] end ++
     [Log (LogChecking (length EASYLIST_URLS))])
    (default ∅ (hashes_json d)) (default ∅ (metadata_json d)) [].

(** What the end of [checkForUpdates] does from state [s]. *)
Definition Saved (h : Host) (s : State) (o : Outcome CheckResult) (s' : State) : Prop :=
  newHashes s' = newHashes s /\ newMetadata s' = newMetadata s /\
  updatedLists s' = updatedLists s /\ list_files (disk s') = list_files (disk s) /\
  (exists evs,
     trace s' = trace s ++ evs /\ (forall u, Fetch u ∉ evs) /\
     (WriteFile HashesFile ∈ evs <-> updatedLists s <> []) /\
     (forall r, o = Returned r -> WriteFile MetadataFile ∈ evs)) /\
  (hashes_json (disk s') = hashes_json (disk s) \/
   updatedLists s <> [] /\ hashes_json (disk s') = Some (newHashes s)) /\
  (metadata_json (disk s') = metadata_json (disk s) \/
   metadata_json (disk s') = Some (newMetadata s)) /\
  match o with
  | Returned r =>
      hasUpdates r = bool_decide (updatedLists s <> []) /\
      res_updatedLists r = updatedLists s /\
      metadata_json (disk s') = Some (newMetadata s) /\
      (if hasUpdates r then hashes_json (disk s') = Some (newHashes s)
       else hashes_json (disk s') = hashes_json (disk s))
  | Thrown e =>
      exists p, e = WriteFailed p /\ writable h p = false /\
                (p = HashesFile \/ p = MetadataFile \/ p = SummaryFile)
  end.

(** *** Observations on a run, and the ways of an iteration *)

(** The URLs requested in a run of events, in order. *)
Definition fetched (evs : list Event) : list jsstring :=
  omap (fun e => match e with Fetch u => Some u | _ => None end) evs.

(** The values given to an output of the workflow in a run of events. *)
Definition outputs (name : jsstring) (evs : list Event) : list jsstring :=
  omap (fun e => match e with
                 | SetOutput n v => if bool_decide (n = name) then Some v else None
                 | _ => None
                 end) evs.

(** The waits of a run of events, in milliseconds. *)
Definition sleeps (evs : list Event) : list Z :=
  omap (fun e => match e with Sleep ms => Some ms | _ => None end) evs.

(** The lines that announce a detected change, and those that follow them
    when the effective time is a valid date. *)
Definition detection_lines (filename changeReason : jsstring)
    (versionInfo : VersionInfo) : list Event :=
  [Log (LogUpdated filename (or_else (Some changeReason) (js "first time")));
   Log (LogVersion (or_else (vi_version versionInfo) (js "N/A")))].

Definition record_lines (headers : Headers) (lastModified : Z) (age : option Z)
    : list Event :=
  [Log (LogLastModified (iso_string lastModified));
   Log (LogServerLastModified (or_else (hd_lastModified headers) (js "N/A")));
   Log (LogETag (or_else (hd_etag headers) (js "N/A")));
   Log (LogFileAge age)].

(** The test that makes an iteration [continue] before it fetches: the
    entry of [filename] has a truthy [lastChecked] and the clock, read once,
    is less than ninety minutes after it. *)
Definition throttled (h : Host) (currentMetadata : gmap jsstring Metadata)
    (filename : jsstring) (s : State) : bool :=
  match currentMetadata !! filename with
  | Some om =>
      match md_lastChecked om with
      | Some (c :: lc) =>
          minutes_lt (date_sub (Some (clock h (ticks s))) (parse_date h (c :: lc))) 90
      | _ => false
      end
  | None => false
  end.

(** The readings of the clock before the fetch: one if [lastChecked] is
    looked at. *)
Definition early_readings (currentMetadata : gmap jsstring Metadata)
    (filename : jsstring) : nat :=
  match currentMetadata !! filename with
  | Some om => if truthy (md_lastChecked om) then 1 else 0
  | None => 0
  end.

(** The five ways an iteration of the loop can go, with what each leaves
    behind and the events it adds to the trace.  [lm] is the effective time,
    computed after the fetch. *)
Inductive Step (h : Host) (currentHashes : gmap jsstring jsstring)
    (currentMetadata : gmap jsstring Metadata) (filename url : jsstring)
    (s s' : State) : Prop :=
| Skipped (since : option Z) :
    throttled h currentMetadata filename s = true ->
    s' = say [Log (LogFetching filename); Log (LogThrottled filename since)]
             (advance 1 s) ->
    Step h currentHashes currentMetadata filename url s s'
| FetchFailed (e : JsError) :
    throttled h currentMetadata filename s = false ->
    fetch_error (fetch h url) = Some e ->
    s' = say [Log (LogFetching filename); Fetch url; Log (LogFailedToFetch url e);
              Log (LogErrorProcessing filename e)]
             (advance (early_readings currentMetadata filename) s) ->
    Step h currentHashes currentMetadata filename url s s'
| NotPersisted (status : Z) (statusText : jsstring) (get : jsstring -> option jsstring)
      (content : jsstring) (sx : State) (lm : Date) (e : JsError) (evs : list Event) :
    throttled h currentMetadata filename s = false ->
    fetch h url = Response true status statusText get content ->
    ticks sx = (early_readings currentMetadata filename + ticks s)%nat ->
    fst (parseLastModified h (get (js "last-modified")) content sx) = Returned lm ->
    fst (detectChange h (currentHashes !! filename) (calculateHash content)
           (currentMetadata !! filename) lm (get (js "etag")))
      || negb (truthy (currentHashes !! filename)) = true ->
    (lm = None /\ e = InvalidTimeValue \/
     is_Some lm /\ writable h (ListFile filename) = false /\
     e = WriteFailed (ListFile filename)) ->
    disk s' = disk s -> newHashes s' = newHashes s ->
    newMetadata s' = newMetadata s -> updatedLists s' = updatedLists s ->
    trace s' = trace s ++ evs -> fetched evs = [url] ->
    (forall name, outputs name evs = []) -> sleeps evs = [] ->
    (exists age,
       evs = [Log (LogFetching filename); Fetch url] ++
             detection_lines filename
               (snd (detectChange h (currentHashes !! filename) (calculateHash content)
                       (currentMetadata !! filename) lm (get (js "etag"))))
               (extractVersion content) ++
             match lm with
             | Some t => record_lines (headers_of get) t age ++
                         [WriteFile (ListFile filename)]
             | None => []
             end ++
             [Log (LogErrorProcessing filename e)]) ->
    Log (LogErrorProcessing filename e) ∈ evs ->
    (ticks s <= ticks s')%nat ->
    Step h currentHashes currentMetadata filename url s s'
| UpToDate (status : Z) (statusText : jsstring) (get : jsstring -> option jsstring)
      (content : jsstring) (sx : State) (lm : Date) (evs : list Event) :
    throttled h currentMetadata filename s = false ->
    fetch h url = Response true status statusText get content ->
    ticks sx = (early_readings currentMetadata filename + ticks s)%nat ->
    fst (parseLastModified h (get (js "last-modified")) content sx) = Returned lm ->
    fst (detectChange h (currentHashes !! filename) (calculateHash content)
           (currentMetadata !! filename) lm (get (js "etag")))
      || negb (truthy (currentHashes !! filename)) = false ->
    disk s' = disk s -> newHashes s' = newHashes s ->
    (match currentMetadata !! filename with
     | Some om =>
         exists n, (ticks s <= n < ticks s')%nat /\
           newMetadata s' =
             <[filename := with_lastChecked om (iso_string (clock h n))]> (newMetadata s)
     | None => newMetadata s' = newMetadata s
     end) ->
    updatedLists s' = updatedLists s ->
    trace s' = trace s ++ evs -> fetched evs = [url] ->
    (forall name, outputs name evs = []) -> sleeps evs = [1000] ->
    (exists age,
       evs = [Log (LogFetching filename); Fetch url; Log (LogUpToDate filename age);
              Sleep 1000]) ->
    (ticks s <= ticks s')%nat ->
    Step h currentHashes currentMetadata filename url s s'
| Recorded (status : Z) (statusText : jsstring) (get : jsstring -> option jsstring)
      (content : jsstring) (sx : State) (t : Z) (n : nat) (age : option Z)
      (evs : list Event) :
    throttled h currentMetadata filename s = false ->
    fetch h url = Response true status statusText get content ->
    ticks sx = (early_readings currentMetadata filename + ticks s)%nat ->
    fst (parseLastModified h (get (js "last-modified")) content sx) = Returned (Some t) ->
    fst (detectChange h (currentHashes !! filename) (calculateHash content)
           (currentMetadata !! filename) (Some t) (get (js "etag")))
      || negb (truthy (currentHashes !! filename)) = true ->
    writable h (ListFile filename) = true ->
    (ticks s <= n < ticks s')%nat ->
    disk s' = mkDisk (hashes_json (disk s)) (metadata_json (disk s))
                     (<[filename := content]> (list_files (disk s)))
                     (summary_json (disk s)) ->
    newHashes s' = <[filename := calculateHash content]> (newHashes s) ->
    newMetadata s' =
      <[filename := mkMetadata (Some (iso_string t)) (get (js "etag"))
                      (vi_version (extractVersion content))
                      (Some (iso_string (clock h n))) (length content)]>
        (newMetadata s) ->
    updatedLists s' =
      updatedLists s ++
      [mkUpdateEvent filename url (calculateHash content)
         (vi_version (extractVersion content)) (iso_string t)
         (get (js "last-modified")) (get (js "etag")) (length content)
         (snd (detectChange h (currentHashes !! filename) (calculateHash content)
                 (currentMetadata !! filename) (Some t) (get (js "etag"))))
         (vi_expires (extractVersion content)) age] ->
    trace s' = trace s ++ evs -> fetched evs = [url] ->
    (forall name, outputs name evs = []) -> sleeps evs = [1000] ->
    (exists age0,
       evs = [Log (LogFetching filename); Fetch url] ++
             detection_lines filename
               (snd (detectChange h (currentHashes !! filename) (calculateHash content)
                       (currentMetadata !! filename) (Some t) (get (js "etag"))))
               (extractVersion content) ++
             record_lines (headers_of get) t age0 ++
             [WriteFile (ListFile filename); Sleep 1000]) ->
    Step h currentHashes currentMetadata filename url s s'.

(** What an update event stands for in state [s']: the hash map and the
    metadata map hold, for its file name, the hash, the dates, the ETag, the
    version and the size of the content that the list file holds. *)
Definition Recorded_in (h : Host) (s' : State) (ev : UpdateEvent) : Prop :=
  newHashes s' !! ev_filename ev = Some (ev_hash ev) /\
  exists content md,
    list_files (disk s') !! ev_filename ev = Some content /\
    ev_hash ev = calculateHash content /\ ev_size ev = length content /\
    newMetadata s' !! ev_filename ev = Some md /\
    md_lastModified md = Some (ev_lastModified ev) /\
    md_etag md = ev_etag ev /\ md_version md = ev_version ev /\
    md_size md = length content /\
    exists n, (n < ticks s')%nat /\ md_lastChecked md = Some (iso_string (clock h n)).

(** What the loop over [l] keeps, beyond [Loop]: it asks for each URL at
    most once and in the order of [l], and sets no output; it records each
    file name at most once and in that order, and what it records is what it
    stored; it changes no list file but those of the updates. *)
Definition Tour (h : Host) (l : list (jsstring * jsstring)) (s s' : State) : Prop :=
  (exists evs, trace s' = trace s ++ evs /\ sublist (fetched evs) (map snd l) /\
               forall name, outputs name evs = []) /\
  (exists new,
     updatedLists s' = updatedLists s ++ new /\
     sublist (map ev_filename new) (map fst l) /\
     (NoDup (map fst l) -> Forall (Recorded_in h s') new)) /\
  (forall g, g ∉ map fst l ->
     list_files (disk s') !! g = list_files (disk s) !! g) /\
  (forall g, g ∉ map ev_filename (drop (length (updatedLists s)) (updatedLists s')) ->
     list_files (disk s') !! g = list_files (disk s) !! g) /\
  (ticks s <= ticks s')%nat.


(** An event that neither writes a list file nor announces a detected
    change. *)
Definition silent (e : Event) : Prop :=
  match e with
  | WriteFile (ListFile _) => False
  | Log (LogUpdated _ _) => False
  | _ => True
  end.

(** How the events [evs] of a part of a run account for the updates [new]
    it recorded: the recorded file names are those of the list files that
    were written with success; a list file is written only after its change
    was announced; and an announced change is recorded, unless the iteration
    ended in the [catch] on an Invalid Date or on the failed write of the
    list file. *)
Definition Accounted (h : Host) (evs : list Event) (new : list UpdateEvent) : Prop :=
  (forall g, g ∈ map ev_filename new <->
             WriteFile (ListFile g) ∈ evs /\ writable h (ListFile g) = true) /\
  (forall g, WriteFile (ListFile g) ∈ evs ->
             exists reason, Log (LogUpdated g reason) ∈ evs) /\
  (forall g reason, Log (LogUpdated g reason) ∈ evs ->
     g ∈ map ev_filename new \/
     Log (LogErrorProcessing g InvalidTimeValue) ∈ evs \/
     writable h (ListFile g) = false /\
     Log (LogErrorProcessing g (WriteFailed (ListFile g))) ∈ evs).

(** ** Running the methods *)

(** [run] evaluates the monad on a state given by its fields, [simpl_state]
    reduces the projections of a state. *)
Ltac run :=
  cbv beta iota zeta delta
    [toISOString writeFile mbind M_bind mret M_ret throw try_catch console emit new_Date
     read_disk set_disk get_newHashes get_newMetadata get_updatedLists set_locals
     say advance disk ticks trace newHashes newMetadata updatedLists
     hashes_json metadata_json list_files summary_json fst snd].

Ltac simpl_state :=
  cbn [say advance disk ticks trace newHashes newMetadata updatedLists
       hashes_json metadata_json list_files summary_json fst snd] in *.

Ltac local_events :=
  repeat first
    [ assumption
    | apply Forall_nil_2
    | apply Forall_cons_2; [exact I || reflexivity |]
    | apply Forall_app_2 ].

Ltac saved_goal :=
  first
    [ done | by left | by right
    | eexists; split; [reflexivity|];
      first [ by (split; [assumption | auto])
            | repeat split; intros;
              rewrite ?elem_of_cons, ?elem_of_nil in *;
              first [ by intuition (discriminate || congruence) | by auto 10 ] ] ].

Section Runs.
Variable h : Host.

Lemma fetchList_ok url s status statusText get text :
  fetch h url = Response true status statusText get text ->
  fetchList h url s = (Returned (text, headers_of get), say [Fetch url] s).
Proof. intros E. destruct s as [d n tr hs ms ul]. unfold fetchList. run. by rewrite E. Qed.

Lemma fetchList_failed url s e :
  fetch_error (fetch h url) = Some e ->
  fetchList h url s = (Thrown e, say [Fetch url; Log (LogFailedToFetch url e)] s).
Proof.
  intros E. destruct s as [d n tr hs ms ul]. unfold fetchList. run.
  destruct (fetch h url) as [m|[] st stt get text]; cbn in *; simplify_eq;
    by rewrite <- app_assoc.
Qed.

Lemma parseLastModified_run hdr content s :
  exists lm k, parseLastModified h hdr content s = (Returned lm, advance k s) /\ (k <= 1)%nat.
Proof.
  unfold parseLastModified. destruct s as [d n tr hs ms ul].
  destruct hdr as [[|c r]|]; destruct (match_line _ content); run;
    try (by eexists _, 0%nat; split; [reflexivity | lia]).
  all: by eexists _, 1%nat; split; [reflexivity | lia].
Qed.

Lemma recordUpdate_invalid filename url content newHash headers vi changeReason s :
  recordUpdate h filename url content newHash headers vi None changeReason s =
  (Thrown InvalidTimeValue,
   say [Log (LogUpdated filename (or_else (Some changeReason) (js "first time")));
        Log (LogVersion (or_else (vi_version vi) (js "N/A")))] s).
Proof. destruct s as [d n tr hs ms ul]. unfold recordUpdate. run. by rewrite <- app_assoc. Qed.

Lemma recordUpdate_unwritable filename url content newHash headers vi lm changeReason s :
  writable h (ListFile filename) = false ->
  exists evs,
  recordUpdate h filename url content newHash headers vi (Some lm) changeReason s =
  (Thrown (WriteFailed (ListFile filename)), say evs (advance 1 s)) /\
  Forall (local_event filename url) evs.
Proof.
  intros W. destruct s as [d n tr hs ms ul]. unfold recordUpdate. run. rewrite W. run.
  eexists. split.
  - rewrite <- !app_assoc. cbn [app]. reflexivity.
  - repeat constructor.
Qed.

Lemma recordUpdate_ok filename url content newHash headers vi lm changeReason s :
  writable h (ListFile filename) = true ->
  exists evs,
  recordUpdate h filename url content newHash headers vi (Some lm) changeReason s =
  (Returned tt,
   mkState (mkDisk (hashes_json (disk s)) (metadata_json (disk s))
                   (<[filename := content]> (list_files (disk s))) (summary_json (disk s)))
           (3 + ticks s) (trace s ++ evs)
           (<[filename := newHash]> (newHashes s))
           (<[filename := mkMetadata (Some (iso_string lm)) (hd_etag headers) (vi_version vi)
                            (Some (iso_string (clock h (2 + ticks s)))) (length content)]>
              (newMetadata s))
           (updatedLists s ++
            [mkUpdateEvent filename url newHash (vi_version vi) (iso_string lm)
               (hd_lastModified headers) (hd_etag headers) (length content) changeReason
               (vi_expires vi) (date_sub (Some (clock h (1 + ticks s))) (Some lm))])) /\
  Forall (local_event filename url) evs.
Proof.
  intros W. destruct s as [d n tr hs ms ul]. unfold recordUpdate. run. rewrite W. run.
  eexists. split.
  - rewrite <- !app_assoc. cbn [app]. reflexivity.
  - repeat constructor.
Qed.


Lemma recordCheck_none filename s :
  recordCheck h filename None s = (Returned tt, say [Log (LogUpToDate filename None)] s).
Proof. destruct s as [d n tr hs ms ul]. unfold recordCheck. run. reflexivity. Qed.

Lemma recordCheck_some filename om s :
  exists k age,
  recordCheck h filename (Some om) s =
  (Returned tt,
   mkState (disk s) (S (k + ticks s)) (trace s ++ [Log (LogUpToDate filename age)])
           (newHashes s)
           (<[filename := with_lastChecked om (iso_string (clock h (k + ticks s)))]>
              (newMetadata s))
           (updatedLists s)) /\ (k <= 1)%nat.
Proof.
  destruct s as [d n tr hs ms ul]. unfold recordCheck.
  destruct (md_lastModified om) as [[|c r]|]; run.
  1,3: by eexists 0%nat, _; split; [reflexivity | lia].
  by eexists 1%nat, _; split; [reflexivity | lia].
Qed.

Variable currentHashes : gmap jsstring jsstring.
Variable currentMetadata : gmap jsstring Metadata.


Lemma Local_intro filename url s s' evs :
  trace s' = trace s ++ evs -> Forall (local_event filename url) evs ->
  hashes_json (disk s') = hashes_json (disk s) ->
  metadata_json (disk s') = metadata_json (disk s) ->
  summary_json (disk s') = summary_json (disk s) ->
  (ticks s <= ticks s')%nat ->
  Local filename url s s'.
Proof. intros. split; [by exists evs | done]. Qed.

Ltac local_intro :=
  eapply Local_intro; simpl_state;
  [ first [ eassumption
          | rewrite <- ?app_assoc; reflexivity
          | match goal with
            | T : trace _ = _ |- _ => rewrite T, <- ?app_assoc; reflexivity
            end ]
  | local_events | try congruence .. | lia ].

Lemma fetchAndCompare_effect filename url s :
  exists o s',
    fetchAndCompare h currentHashes (currentMetadata !! filename) filename url s = (o, s') /\
    Local filename url s s' /\
    match o with
    | Returned _ => Effect h currentMetadata filename url s s'
    | Thrown _ => Effect h currentMetadata filename url s s' /\ updatedLists s' = updatedLists s
    end.
Proof.
  unfold fetchAndCompare.
  destruct (fetch h url) as [m|[] st stt get text] eqn:F.
  2: {
    unfold mbind at 1, M_bind at 1. rewrite (fetchList_ok _ _ _ _ _ _ F).
    destruct (parseLastModified_run (hd_lastModified (headers_of get)) text (say [Fetch url] s))
      as (lm & k & P & Hk).
    unfold mbind at 1, M_bind at 1. rewrite P.
    destruct (detectChange _ _ _ _ _ _) as [hasChanged changeReason].
    destruct (hasChanged || negb (truthy (currentHashes !! filename))).
    - destruct lm as [lm|].
      + destruct (writable h (ListFile filename)) eqn:W.
        * edestruct recordUpdate_ok as (evs & R & Hevs); [exact W|].
          unfold mbind at 1, M_bind at 1. rewrite R. unfold emit.
          eexists _, _. split; [reflexivity|]. split.
          { local_intro. }
          eapply Updated; simpl_state; try reflexivity; eauto.
        * edestruct recordUpdate_unwritable as (evs & R & Hevs); [exact W|].
          unfold mbind at 1, M_bind at 1. rewrite R.
          eexists _, _. split; [reflexivity|]. split.
          { local_intro. }
          split; [by apply Quiet | done].
      + unfold mbind at 1, M_bind at 1. rewrite recordUpdate_invalid.
        eexists _, _. split; [reflexivity|]. split.
        { local_intro. }
        split; [by apply Quiet | done].
    - destruct (currentMetadata !! filename) as [om|] eqn:Hm.
      + destruct (recordCheck_some filename om (advance k (say [Fetch url] s)))
          as (k' & age & R & Hk').
        unfold mbind at 1, M_bind at 1. rewrite R. unfold emit.
        eexists _, _. split; [reflexivity|]. split.
        { local_intro. }
        eapply (Checked _ _ _ _ _ _ om (k' + (k + ticks s))); simpl_state; eauto. lia.
      + unfold mbind at 1, M_bind at 1. rewrite recordCheck_none. unfold emit.
        eexists _, _. split; [reflexivity|]. split.
        { local_intro. }
        by apply Quiet.
  }
  all: unfold mbind at 1, M_bind at 1; erewrite fetchList_failed by (rewrite F; reflexivity);
    eexists _, _; (split; [reflexivity|]); split;
    [ local_intro | split; [by apply Quiet | done] ].
Qed.

Lemma checkOne_effect filename url s :
  exists s', checkOne h currentHashes currentMetadata (filename, url) s = (Returned tt, s') /\
    Local filename url s s' /\ Effect h currentMetadata filename url s s'.
Proof.
  assert (Go : forall k, exists s',
    try_catch
      (fun s1 => fetchAndCompare h currentHashes (currentMetadata !! filename) filename url
                   (advance k (say [Log (LogFetching filename)] s1)))
      (fun error => console (LogErrorProcessing filename error)) s = (Returned tt, s') /\
    Local filename url s s' /\ Effect h currentMetadata filename url s s').
  { intros k.
    destruct (fetchAndCompare_effect filename url
                (advance k (say [Log (LogFetching filename)] s)))
      as (o & s1 & R & (((evs & T & Hevs) & L1 & L2 & L3 & L4) & E)).
    unfold try_catch. rewrite R. simpl_state. destruct o as [[]|e].
    - eexists. split; [reflexivity|]. split.
      + rewrite <- app_assoc in T. local_intro.
      + destruct E; [by apply Quiet | eapply Checked; simpl_state; eauto; lia
                    | eapply Updated; simpl_state; try reflexivity; eauto].
    - unfold console, emit. eexists. split; [reflexivity|]. destruct E as [E U]. split.
      + rewrite <- app_assoc in T. local_intro.
      + destruct E; simpl_state;
          [by apply Quiet | eapply Checked; simpl_state; eauto; lia |].
        exfalso. match goal with H : updatedLists _ = _ ++ [_] |- _ => rewrite U in H;
          apply (f_equal length) in H; rewrite length_app in H; cbn in H; lia end. }
  unfold checkOne. cbn [fst snd].
  destruct (currentMetadata !! filename) as [[lm et ve [[|c lc]|] sz]|] eqn:Hm.
  1,3,4: destruct (Go 0%nat) as (s' & R & HL & HE); exists s'; split; [|done];
    rewrite <- R; destruct s; reflexivity.
  destruct (minutes_lt (date_sub (Some (clock h (ticks s))) (parse_date h (c :: lc))) 90) eqn:T.
  - destruct s as [d n tr hs ms ul]. run. simpl_state. rewrite T. run.
    eexists. split; [reflexivity|]. split.
    + local_intro.
    + by apply Quiet.
  - destruct (Go 1%nat) as (s' & R & HL & HE); exists s'; split; [|done].
    rewrite <- R. destruct s as [d n tr hs ms ul]. run. simpl_state. rewrite T. reflexivity.
Qed.

Lemma for_each_checkOne l s :
  exists s', for_each l (checkOne h currentHashes currentMetadata) s = (Returned tt, s') /\
             Loop l s s'.
Proof.
  revert s. induction l as [|[filename url] l IH]; intros s.
  - exists s. split; [reflexivity|]. repeat split; try done.
    + exists []. by rewrite app_nil_r.
    + exists []. by rewrite app_nil_r.
  - destruct (checkOne_effect filename url s) as (s1 & R1 & L1 & E1).
    destruct (IH s1) as (s2 & R2 & L2).
    exists s2. split.
    { cbn [for_each]. unfold mbind, M_bind. by rewrite R1. }
    destruct L1 as ((evs1 & T1 & F1) & H1 & M1 & S1 & _).
    destruct L2 as ((evs2 & T2 & F2) & H2 & M2 & S2 & (new & U2 & N2 & K2) & O2).
    assert (Hn : forall g, g ∉ map fst ((filename, url) :: l) ->
                 g <> filename /\ g ∉ map fst l).
    { intros g Hg. cbn in Hg. rewrite not_elem_of_cons in Hg. done. }
    repeat split; try congruence.
    + exists (evs1 ++ evs2). rewrite T2, T1, app_assoc. split; [done|].
      apply Forall_app_2.
      * eapply Forall_impl; [exact F1|]. intros [] He; cbn in *; try done.
        -- subst. apply elem_of_cons. by left.
        -- exists filename. split; [done | apply elem_of_cons; by left].
      * eapply Forall_impl; [exact F2|]. intros [] He; cbn in *; try done.
        -- apply elem_of_cons. by right.
        -- destruct He as (f & -> & Hf). exists f. split; [done|].
           apply elem_of_cons. by right.
    + destruct E1 as [D Hh Hm Hu | om n _ _ D Hh Hm Hu
                     | st stt get content ev md _ Hf _ _ _ _ _ Hh Hm Hu].
      * exists new. rewrite U2, Hu. split; [done|]. split.
        { eapply Forall_impl; [exact N2|]. intros ev He. cbn. apply elem_of_cons. by right. }
        intros g Hg. rewrite (K2 g Hg). by rewrite Hh.
      * exists new. rewrite U2, Hu. split; [done|]. split.
        { eapply Forall_impl; [exact N2|]. intros ev He. cbn. apply elem_of_cons. by right. }
        intros g Hg. rewrite (K2 g Hg). by rewrite Hh.
      * exists (ev :: new). rewrite U2, Hu, <- app_assoc. split; [done|]. split.
        { constructor; [rewrite Hf; cbn; apply elem_of_cons; by left|].
          eapply Forall_impl; [exact N2|]. intros ev' He. cbn. apply elem_of_cons. by right. }
        intros g Hg. cbn in Hg. rewrite not_elem_of_cons in Hg. destruct Hg as [Hg1 Hg2].
        rewrite (K2 g Hg2), Hh. rewrite Hf in Hg1. by rewrite lookup_insert_ne.
    + destruct (Hn g H) as [Hg1 Hg2]. destruct (O2 g Hg2) as [-> _].
      destruct E1 as [D Hh Hm Hu | om n _ _ D Hh Hm Hu
                     | st stt get content ev md _ Hf _ _ _ _ _ Hh Hm Hu];
        rewrite Hh; try done. by rewrite lookup_insert_ne.
    + destruct (Hn g H) as [Hg1 Hg2]. destruct (O2 g Hg2) as [_ ->].
      destruct E1 as [D Hh Hm Hu | om n _ _ D Hh Hm Hu
                     | st stt get content ev md _ Hf _ _ _ _ _ Hh Hm Hu];
        rewrite Hm; try done; by rewrite lookup_insert_ne.
Qed.

Lemma for_each_app {A} (l1 l2 : list A) (body : A -> M unit) s :
  for_each (l1 ++ l2) body s =
  match for_each l1 body s with
  | (Returned _, s1) => for_each l2 body s1
  | (Thrown e, s1) => (Thrown e, s1)
  end.
Proof.
  revert s. induction l1 as [|x l1 IH]; intros s; [reflexivity|].
  cbn [for_each app]. unfold mbind, M_bind.
  destruct (body x s) as [[[]|e] s1]; [apply IH | reflexivity].
Qed.


Lemma saveAndReport_saved s :
  exists o s', saveAndReport h s = (o, s') /\ Saved h s o s'.
Proof.
  destruct s as [[hj mj lf sj] n tr hs ms ul]. unfold saveAndReport, saveHashes, saveMetadata.
  destruct ul as [|ev ul]; run; cbn [length Nat.ltb Nat.leb]; run.
  - destruct (writable h MetadataFile) eqn:W; run;
      (eexists _, _; split; [reflexivity|]); unfold Saved; simpl_state;
      rewrite <- ?app_assoc; cbn [app]; repeat split; saved_goal.
  - destruct (writable h HashesFile) eqn:W1; run;
      [destruct (writable h MetadataFile) eqn:W2; run;
       [destruct (writable h SummaryFile) eqn:W3; run|]|];
      (eexists _, _; split; [reflexivity|]); unfold Saved; simpl_state;
      rewrite <- ?app_assoc; cbn [app]; repeat split; saved_goal.
Qed.

End Runs.

Lemma checkForUpdates_run h d :
  exists s1,
    Loop EASYLIST_URLS (loaded h d) s1 /\
    for_each EASYLIST_URLS
      (checkOne h (default ∅ (hashes_json d)) (default ∅ (metadata_json d)))
      (loaded h d) = (Returned tt, s1) /\
    checkForUpdates h (boot d) = saveAndReport h s1.
Proof.
  destruct (for_each_checkOne h (default ∅ (hashes_json d)) (default ∅ (metadata_json d))
              EASYLIST_URLS (loaded h d)) as (s1 & R & L).
  exists s1. split; [done|]. split; [done|].
  transitivity
    ((for_each EASYLIST_URLS
        (checkOne h (default ∅ (hashes_json d)) (default ∅ (metadata_json d)));;
      saveAndReport h) (loaded h d)).
  - unfold checkForUpdates, init, loadHashes, loadMetadata, boot, loaded.
    destruct d as [[hs|] ms lf sm]; destruct (mkdir_fails h); reflexivity.
  - unfold mbind, M_bind. by rewrite R.
Qed.

(** ** Checks of the embedding against known values *)

Example sha256_empty :
  sha256_hex [] = js "e3b0c44298fc1c149afbf4c8996fb92427ae41e4649b934ca495991b7852b855".
Proof. vm_compute. reflexivity. Qed.

Example sha256_abc :
  sha256_hex (js "abc")
  = js "ba7816bf8f01cfea414140de5dae2223b00361a396177a9cb410ff61f20015ad".
Proof. vm_compute. reflexivity. Qed.

Example sha256_two_blocks :
  sha256_hex (js "abcdbcdecdefdefgefghfghighijhijkijkljklmklmnlmnomnopnopq")
  = js "248d6a61d20638b8e5c026930c3e6039a33ce45964ff2167f6ecedd419db06c1".
Proof. vm_compute. reflexivity. Qed.

Example sha256_e_acute :
  sha256_hex [233] = js "4a99557e4033c3539de2eb65472017cad5f9557f7a0625a09f1c3f6e2ba69c4c".
Proof. vm_compute. reflexivity. Qed.

Example utf8_pair_and_lone_surrogate :
  utf8 [55357; 56832; 55357] = [240; 159; 152; 128; 239; 191; 189].
Proof. reflexivity. Qed.

Example iso_string_epoch : iso_string 0 = js "1970-01-01T00:00:00.000Z".
Proof. vm_compute. reflexivity. Qed.

Example iso_string_before_epoch : iso_string (-1) = js "1969-12-31T23:59:59.999Z".
Proof. vm_compute. reflexivity. Qed.

Example iso_string_leap_day : iso_string 951782400123 = js "2000-02-29T00:00:00.123Z".
Proof. vm_compute. reflexivity. Qed.

Example iso_string_T0 : iso_string Sample.T0 = js "2026-11-03T04:10:00.000Z".
Proof. vm_compute. reflexivity. Qed.

Example iso_string_last_day : iso_string 8640000000000000 = js "+275760-09-13T00:00:00.000Z".
Proof. vm_compute. reflexivity. Qed.

Example match_line_first_nonempty :
  match_line "! Version: "
    (js "[Adblock Plus 2.0]" ++ [13; 10] ++ js "! Version: " ++ [13; 10] ++
     js "! Version: 12" ++ [13; 10] ++ js "! Version: 13")
  = Some (js "12").
Proof. vm_compute. reflexivity. Qed.

Example match_line_not_at_line_start :
  match_line "! Version: " (js "x! Version: 12") = None.
Proof. vm_compute. reflexivity. Qed.

Example extractVersion_sample :
  extractVersion Sample.easylist_body
  = mkVersionInfo (Some (js "202611030410")) (Some (js "03 Nov 2026 05:00 UTC"))
                  (Some (js "4 days")).
Proof. vm_compute. reflexivity. Qed.

(** ** Iterations and cycles *)

Section detectChange_facts.
Variable h : Host.

Lemma add_reason_nonempty r fragment :
  r <> [] -> add_reason r fragment = r ++ js " and " ++ fragment.
Proof. destruct r; [done|reflexivity]. Qed.

Lemma detectChange_absent_hash newHash oldMetadata lastModified etag :
  exists rest,
    detectChange h None newHash oldMetadata lastModified etag =
    (true, js "content hash changed" ++ rest).
Proof.
  unfold detectChange. rewrite bool_decide_eq_false_2 by discriminate.
  cbn [snd].
  destruct oldMetadata as [[[[|c s]|] [[|c' s']|] ve lc sz]|]; cbn [md_lastModified md_etag];
    destruct etag as [[|c'' s'']|];
    repeat first
      [ match goal with
        | |- context [if date_gt ?a ?b then _ else _] => destruct (date_gt a b)
        | |- context [if bool_decide ?P then _ else _] => destruct (bool_decide P)
        end
      | progress cbn [snd] ];
    rewrite ?add_reason_nonempty by discriminate;
    rewrite <- ?app_assoc;
    try (by eexists); by exists [].
Qed.

End detectChange_facts.

(** The digest is sixty-four hexadecimal digits, whatever the content. *)
Lemma calculateHash_length content : length (calculateHash content) = 64%nat.
Proof. unfold calculateHash, sha256_hex, hex, hex_word. by rewrite !length_app. Qed.

Lemma calculateHash_truthy content : truthy (Some (calculateHash content)) = true.
Proof.
  pose proof (calculateHash_length content) as L.
  destruct (calculateHash content); [discriminate L | reflexivity].
Qed.

(** The effective time on dates that parse: the later of the two, the one
    there is, or the clock. *)
Lemma parseLastModified_valid (h : Host) (header : option jsstring) (content : jsstring)
    (s : State) :
  (forall v, header = Some v -> v <> [] -> is_Some (parse_date h v)) ->
  (forall v, match_line "! Last modified: " content = Some v -> is_Some (parse_date h v)) ->
  fst (parseLastModified h header content s) =
  Returned
    (match (if truthy header then header else None),
           match_line "! Last modified: " content with
     | Some hv, Some cv =>
         match parse_date h hv, parse_date h cv with
         | Some th, Some tc => Some (Z.max th tc)
         | _, _ => None
         end
     | Some hv, None => parse_date h hv
     | None, Some cv => parse_date h cv
     | None, None => Some (clock h (ticks s))
     end).
Proof.
  intros Hh Hc. unfold parseLastModified.
  destruct header as [[|c hv]|]; cbn [truthy];
    destruct (match_line "! Last modified: " content) as [cv|]; try reflexivity.
  destruct (Hh (c :: hv) eq_refl ltac:(discriminate)) as [th ->].
  destruct (Hc cv eq_refl) as [tc ->].
  cbn [date_gt mret M_ret fst]. f_equal.
  destruct (Z.ltb_spec tc th); f_equal; lia.
Qed.

Lemma utf8_ascii_length (content : jsstring) :
  Forall (fun c => c < 128) content -> length (utf8 content) = length content.
Proof.
  induction 1 as [|c content Hc _ IH]; [reflexivity|].
  cbn [utf8]. unfold high_surrogate, low_surrogate, utf8_code_point.
  destruct (Z.leb_spec 55296 c); [lia|]. destruct (Z.leb_spec 56320 c); [lia|].
  cbn [andb]. destruct (Z.ltb_spec c 128); [|lia]. cbn [app length]. by rewrite IH.
Qed.

Section step_facts.
Variable h : Host.
Variable currentHashes : gmap jsstring jsstring.
Variable currentMetadata : gmap jsstring Metadata.

(** An iteration that finds a check less than ninety minutes old. *)
Lemma checkOne_throttled filename url om lc t s :
  currentMetadata !! filename = Some om ->
  md_lastChecked om = Some lc -> lc <> [] ->
  parse_date h lc = Some t ->
  clock h (ticks s) - t < 90 * 60000 ->
  checkOne h currentHashes currentMetadata (filename, url) s =
  (Returned tt,
   say [Log (LogFetching filename);
        Log (LogThrottled filename (Some (clock h (ticks s) - t)))] (advance 1 s)).
Proof.
  intros Hm Hlc Hne Hp Hlt. unfold checkOne. cbn [fst snd]. rewrite Hm.
  destruct om as [lm et ve lc' sz]. cbn in Hlc. subst lc'.
  destruct lc as [|c lc]; [done|]. rewrite Hp.
  destruct s as [d n tr hs ms ul]. run. simpl_state.
  cbn [date_sub minutes_lt]. destruct (Z.ltb_spec (clock h n - t) (90 * 60000)); [|lia].
  run. by rewrite <- app_assoc.
Qed.

(** The loop around an iteration that is throttled at every reading of the
    clock. *)
Lemma for_each_throttled pre post filename url om lc t s :
  filename ∉ map fst (pre ++ post) -> url ∉ map snd (pre ++ post) ->
  currentMetadata !! filename = Some om ->
  md_lastChecked om = Some lc -> lc <> [] ->
  parse_date h lc = Some t ->
  (forall n, clock h n - t < 90 * 60000) ->
  exists s',
    for_each (pre ++ (filename, url) :: post)
      (checkOne h currentHashes currentMetadata) s = (Returned tt, s') /\
    Loop (pre ++ (filename, url) :: post) s s' /\
    (exists evs, trace s' = trace s ++ evs /\ Fetch url ∉ evs) /\
    newHashes s' !! filename = newHashes s !! filename /\
    newMetadata s' !! filename = newMetadata s !! filename.
Proof.
  intros Hf Hu Hm Hlc Hne Hp Hlt.
  rewrite fmap_app, not_elem_of_app in Hf, Hu.
  destruct Hf as [Hf1 Hf2], Hu as [Hu1 Hu2].
  destruct (for_each_checkOne h currentHashes currentMetadata pre s)
    as (s1 & R1 & ((evs1 & T1 & F1) & _ & _ & _ & _ & O1)).
  pose proof (checkOne_throttled filename url om lc t s1 Hm Hlc Hne Hp (Hlt _)) as R2.
  set (s2 := say _ (advance 1 s1)) in R2.
  destruct (for_each_checkOne h currentHashes currentMetadata post s2)
    as (s3 & R3 & ((evs3 & T3 & F3) & _ & _ & _ & _ & O3)).
  destruct (for_each_checkOne h currentHashes currentMetadata
              (pre ++ (filename, url) :: post) s) as (s' & R & L).
  assert (s' = s3) as ->.
  { rewrite for_each_app, R1 in R. cbn [for_each] in R. unfold mbind, M_bind in R.
    rewrite R2, R3 in R. congruence. }
  exists s3. split; [done|]. split; [done|].
  destruct (O1 _ Hf1) as [A1 B1]. destruct (O3 _ Hf2) as [A3 B3]. repeat split.
  - eexists. split.
    + rewrite T3. subst s2. simpl_state. rewrite T1, <- !app_assoc. reflexivity.
    + rewrite !not_elem_of_app. repeat split.
      * intros Hin. eapply Forall_forall in F1; [|exact Hin]. by apply Hu1.
      * rewrite !not_elem_of_cons. repeat split; try discriminate. apply not_elem_of_nil.
      * intros Hin. eapply Forall_forall in F3; [|exact Hin]. by apply Hu2.
  - rewrite A3. subst s2. simpl_state. exact A1.
  - rewrite B3. subst s2. simpl_state. exact B1.
Qed.

Lemma fetchAndCompare_failed oldMetadata filename url e s :
  fetch_error (fetch h url) = Some e ->
  fetchAndCompare h currentHashes oldMetadata filename url s =
  (Thrown e, say [Fetch url; Log (LogFailedToFetch url e)] s).
Proof.
  intros F. unfold fetchAndCompare. unfold mbind at 1, M_bind at 1.
  by rewrite (fetchList_failed h url s e F).
Qed.

(** An iteration whose fetch fails: it is throttled before the fetch, or
    the failure is logged twice and caught. *)
Lemma checkOne_fetch_failed filename url e s :
  fetch_error (fetch h url) = Some e ->
  exists k evs,
    checkOne h currentHashes currentMetadata (filename, url) s
      = (Returned tt, say evs (advance k s)) /\
    (Fetch url ∉ evs \/
     evs = [Log (LogFetching filename); Fetch url; Log (LogFailedToFetch url e);
            Log (LogErrorProcessing filename e)]).
Proof.
  intros F. destruct s as [d n tr hs ms ul]. unfold checkOne. cbn [fst snd].
  assert (Go : forall k,
    try_catch
      (fun s1 => fetchAndCompare h currentHashes (currentMetadata !! filename) filename url
                   (advance k (say [Log (LogFetching filename)] s1)))
      (fun error => console (LogErrorProcessing filename error))
      (mkState d n tr hs ms ul) =
    (Returned tt,
     say [Log (LogFetching filename); Fetch url; Log (LogFailedToFetch url e);
          Log (LogErrorProcessing filename e)]
       (advance k (mkState d n tr hs ms ul)))).
  { intros k. unfold try_catch. rewrite (fetchAndCompare_failed _ _ _ e _ F).
    run. by rewrite <- !app_assoc. }
  destruct (currentMetadata !! filename) as [[lm et ve [[|c lc]|] sz]|] eqn:Hm.
  1,3,4: exists 0%nat; eexists; split; [|by right]; rewrite <- (Go 0%nat); reflexivity.
  destruct (minutes_lt (date_sub (Some (clock h n)) (parse_date h (c :: lc))) 90) eqn:T.
  - exists 1%nat. eexists. split.
    + run. simpl_state. rewrite T. run. rewrite <- !app_assoc. reflexivity.
    + left. cbn [app]. rewrite !not_elem_of_cons.
      repeat split; try discriminate. apply not_elem_of_nil.
  - exists 1%nat. eexists. split; [|by right]. rewrite <- (Go 1%nat).
    run. simpl_state. by rewrite T.
Qed.

End step_facts.

(** A cycle is the loop from the loaded state followed by the saving. *)
Lemma checkForUpdates_cycle h d :
  exists s1 o s',
    checkForUpdates h (boot d) = (o, s') /\
    for_each EASYLIST_URLS
      (checkOne h (default ∅ (hashes_json d)) (default ∅ (metadata_json d)))
      (loaded h d) = (Returned tt, s1) /\
    Loop EASYLIST_URLS (loaded h d) s1 /\
    Saved h s1 o s'.
Proof.
  destruct (checkForUpdates_run h d) as (s1 & L & R & E).
  destruct (saveAndReport_saved h s1) as (o & s' & R' & S).
  exists s1, o, s'. by rewrite E.
Qed.

Lemma loaded_trace_no_fetch h d url : Fetch url ∉ trace (loaded h d).
Proof.
  unfold loaded. cbn [trace].
  destruct (mkdir_fails h), (hashes_json d); cbn [app];
    rewrite ?not_elem_of_cons; repeat split; try discriminate; apply not_elem_of_nil.
Qed.

Lemma EASYLIST_URLS_split filename url :
  (filename, url) ∈ EASYLIST_URLS ->
  exists pre post,
    EASYLIST_URLS = pre ++ (filename, url) :: post /\
    (filename ∉ map fst (pre ++ post)) /\ (url ∉ map snd (pre ++ post)).
Proof.
  unfold EASYLIST_URLS. rewrite !elem_of_cons, elem_of_nil.
  intros [E | [E | []]]; injection E as -> ->.
  - exists [], [(js "easyprivacy.txt", js "https://easylist.to/easylist/easyprivacy.txt")].
    split; [reflexivity|]. split; compute_done.
  - exists [(js "easylist.txt", js "https://easylist.to/easylist/easylist.txt")], [].
    split; [reflexivity|]. split; compute_done.
Qed.

(** ** The ways of an iteration and of a cycle *)

Section Steps.
Variable h : Host.
Variable currentHashes : gmap jsstring jsstring.
Variable currentMetadata : gmap jsstring Metadata.

Lemma recordUpdate_unwritable_quiet filename url content newHash headers vi lm reason s :
  writable h (ListFile filename) = false ->
  exists age,
    recordUpdate h filename url content newHash headers vi (Some lm) reason s =
    (Thrown (WriteFailed (ListFile filename)),
     say (detection_lines filename reason vi ++ record_lines headers lm age ++
          [WriteFile (ListFile filename)]) (advance 1 s)).
Proof.
  intros W. destruct s as [d n tr hs ms ul]. unfold recordUpdate. run. rewrite W. run.
  eexists. rewrite <- !app_assoc. cbn [app]. reflexivity.
Qed.

Lemma recordUpdate_ok_quiet filename url content newHash headers vi lm reason s :
  writable h (ListFile filename) = true ->
  exists age0 age,
    recordUpdate h filename url content newHash headers vi (Some lm) reason s =
    (Returned tt,
     mkState (mkDisk (hashes_json (disk s)) (metadata_json (disk s))
                     (<[filename := content]> (list_files (disk s)))
                     (summary_json (disk s)))
             (3 + ticks s)
             (trace s ++ detection_lines filename reason vi ++
              record_lines headers lm age0 ++ [WriteFile (ListFile filename)])
             (<[filename := newHash]> (newHashes s))
             (<[filename := mkMetadata (Some (iso_string lm)) (hd_etag headers)
                              (vi_version vi)
                              (Some (iso_string (clock h (2 + ticks s))))
                              (length content)]> (newMetadata s))
             (updatedLists s ++
              [mkUpdateEvent filename url newHash (vi_version vi) (iso_string lm)
                 (hd_lastModified headers) (hd_etag headers) (length content) reason
                 (vi_expires vi) age])).
Proof.
  intros W. destruct s as [d n tr hs ms ul]. unfold recordUpdate. run. rewrite W. run.
  eexists _, _. rewrite <- !app_assoc. cbn [app]. reflexivity.
Qed.

Lemma outputs_app name evs evs' :
  outputs name (evs ++ evs') = outputs name evs ++ outputs name evs'.
Proof. apply omap_app. Qed.

Lemma checkOne_enter filename url s :
  checkOne h currentHashes currentMetadata (filename, url) s =
  if throttled h currentMetadata filename s
  then (Returned tt,
        say [Log (LogFetching filename);
             Log (LogThrottled filename
                    (date_sub (Some (clock h (ticks s)))
                       (match currentMetadata !! filename with
                        | Some om => parse_date h (default [] (md_lastChecked om))
                        | None => None
                        end)))] (advance 1 s))
  else try_catch
         (fetchAndCompare h currentHashes (currentMetadata !! filename) filename url)
         (fun error => console (LogErrorProcessing filename error))
         (say [Log (LogFetching filename)]
              (advance (early_readings currentMetadata filename) s)).
Proof.
  destruct s as [d n tr hs ms ul].
  unfold checkOne, throttled, early_readings. cbn [fst snd ticks].
  destruct (currentMetadata !! filename) as [[lm et ve [[|c lc]|] sz]|];
    cbn [md_lastChecked truthy default from_option id]; try reflexivity.
  run. simpl_state.
  destruct (minutes_lt _ 90); run; [by rewrite <- app_assoc | reflexivity].
Qed.

Lemma fetched_app evs evs' : fetched (evs ++ evs') = fetched evs ++ fetched evs'.
Proof. apply omap_app. Qed.

Ltac step_goal :=
  first [ lia
        | reflexivity
        | by (intros; reflexivity)
        | by rewrite <- !app_assoc
        | by eexists
        | by exists None
        | by left
        | by (right; eauto)
        | by (rewrite !elem_of_app, !elem_of_cons; auto 10)
        | (eexists; split; [|reflexivity]; lia) ].

Lemma checkOne_step filename url s :
  exists s',
    checkOne h currentHashes currentMetadata (filename, url) s = (Returned tt, s') /\
    Step h currentHashes currentMetadata filename url s s'.
Proof.
  rewrite checkOne_enter.
  destruct (throttled h currentMetadata filename s) eqn:T.
  { eexists. split; [reflexivity|]. by eapply Skipped. }
  set (k0 := early_readings currentMetadata filename).
  set (s0 := say [Log (LogFetching filename)] (advance k0 s)).
  unfold try_catch, fetchAndCompare.
  destruct (fetch h url) as [m|[] st stt get text] eqn:F.
  2: {
    unfold mbind at 1, M_bind at 1. rewrite (fetchList_ok h url s0 _ _ _ _ F).
    cbn [headers_of hd_lastModified hd_etag].
    destruct (parseLastModified_run h (get (js "last-modified")) text (say [Fetch url] s0))
      as (lm & k & P & Hk).
    unfold mbind at 1, M_bind at 1. rewrite P.
    assert (Px : fst (parseLastModified h (get (js "last-modified")) text
                        (say [Fetch url] s0)) = Returned lm) by (by rewrite P).
    assert (Tx : ticks (say [Fetch url] s0) = (k0 + ticks s)%nat) by reflexivity.
    destruct (detectChange h (currentHashes !! filename) (calculateHash text)
                (currentMetadata !! filename) lm (get (js "etag")))
      as [hasChanged changeReason] eqn:D.
    destruct (hasChanged || negb (truthy (currentHashes !! filename))) eqn:B.
    - destruct lm as [t|].
      + destruct (writable h (ListFile filename)) eqn:W.
        * edestruct recordUpdate_ok_quiet as (age0 & age & R); [exact W|].
          unfold mbind at 1, M_bind at 1. rewrite R. unfold emit.
          eexists. split; [reflexivity|].
          eapply (Recorded _ _ _ _ _ _ _ st stt get text (say [Fetch url] s0) t
                    (2 + (k + (k0 + ticks s)))%nat age
                    ([Log (LogFetching filename); Fetch url] ++
                     detection_lines filename changeReason (extractVersion text) ++
                     record_lines (headers_of get) t age0 ++
                     [WriteFile (ListFile filename); Sleep 1000]));
            try rewrite D; try assumption; subst s0; simpl_state;
            cbn [headers_of hd_lastModified hd_etag]; step_goal.
        * edestruct recordUpdate_unwritable_quiet as (age & R); [exact W|].
          unfold mbind at 1, M_bind at 1. rewrite R. unfold console, emit.
          eexists. split; [reflexivity|].
          eapply (NotPersisted _ _ _ _ _ _ _ st stt get text (say [Fetch url] s0) (Some t)
                    (WriteFailed (ListFile filename))
                    ([Log (LogFetching filename); Fetch url] ++
                     detection_lines filename changeReason (extractVersion text) ++
                     (record_lines (headers_of get) t age ++
                      [WriteFile (ListFile filename)]) ++
                     [Log (LogErrorProcessing filename (WriteFailed (ListFile filename)))]));
            try rewrite D; try assumption; subst s0; simpl_state; step_goal.
      + unfold mbind at 1, M_bind at 1. rewrite recordUpdate_invalid. unfold console, emit.
        eexists. split; [reflexivity|].
        eapply (NotPersisted _ _ _ _ _ _ _ st stt get text (say [Fetch url] s0) None
                  InvalidTimeValue
                  ([Log (LogFetching filename); Fetch url] ++
                   detection_lines filename changeReason (extractVersion text) ++
                   [] ++ [Log (LogErrorProcessing filename InvalidTimeValue)]));
          try rewrite D; try assumption; subst s0; simpl_state; step_goal.
    - destruct (currentMetadata !! filename) as [om|] eqn:Hm.
      + destruct (recordCheck_some h filename om (advance k (say [Fetch url] s0)))
          as (k' & age & R & Hk').
        unfold mbind at 1, M_bind at 1. rewrite R. unfold emit.
        eexists. split; [reflexivity|].
        eapply (UpToDate _ _ _ _ _ _ _ st stt get text (say [Fetch url] s0) lm
                  [Log (LogFetching filename); Fetch url; Log (LogUpToDate filename age);
                   Sleep 1000]);
          try assumption; rewrite ?Hm; try rewrite D; try assumption;
          subst s0; simpl_state; step_goal.
      + unfold mbind at 1, M_bind at 1. rewrite recordCheck_none. unfold emit.
        eexists. split; [reflexivity|].
        eapply (UpToDate _ _ _ _ _ _ _ st stt get text (say [Fetch url] s0) lm
                  [Log (LogFetching filename); Fetch url; Log (LogUpToDate filename None);
                   Sleep 1000]);
          try assumption; rewrite ?Hm; try rewrite D; try assumption;
          subst s0; simpl_state; step_goal.
  }
  all: unfold mbind at 1, M_bind at 1;
    erewrite fetchList_failed by (rewrite F; reflexivity);
    unfold console, emit; (eexists; split; [reflexivity|]);
    eapply FetchFailed; [exact T | by rewrite F |];
    subst s0 k0; unfold say, advance; cbn [trace disk ticks newHashes newMetadata updatedLists];
    by rewrite <- !app_assoc.
Qed.

End Steps.

Section Tours.
Variable h : Host.
Variable currentHashes : gmap jsstring jsstring.
Variable currentMetadata : gmap jsstring Metadata.

Lemma Step_trace filename url s s' :
  Step h currentHashes currentMetadata filename url s s' ->
  exists evs, trace s' = trace s ++ evs /\
              (forall name, outputs name evs = []) /\
              (fetched evs = [] /\ throttled h currentMetadata filename s = true \/
               fetched evs = [url] /\ throttled h currentMetadata filename s = false).
Proof.
  intros [since T -> | e T F ->
         | st stt get content sx lm e evs T _ _ _ _ _ _ _ _ _ Tr Fe Ou _ _ _ _
         | st stt get content sx lm evs T _ _ _ _ _ _ _ _ Tr Fe Ou _ _ _
         | st stt get content sx t n age evs T _ _ _ _ _ _ _ _ _ _ Tr Fe Ou _ _].
  - eexists. split; [reflexivity|]. split; [done | by left].
  - eexists. split; [reflexivity|]. split; [done | by right].
  - exists evs. split; [done|]. split; [done | by right].
  - exists evs. split; [done|]. split; [done | by right].
  - exists evs. split; [done|]. split; [done | by right].
Qed.

Lemma Step_updates filename url s s' :
  Step h currentHashes currentMetadata filename url s s' ->
  updatedLists s' = updatedLists s /\ newHashes s' = newHashes s /\ disk s' = disk s \/
  exists ev content,
    updatedLists s' = updatedLists s ++ [ev] /\ ev_filename ev = filename /\
    Recorded_in h s' ev /\
    writable h (ListFile filename) = true /\
    fetch_error (fetch h url) = None /\
    list_files (disk s') = <[filename := content]> (list_files (disk s)).
Proof.
  intros [since T -> | e T F ->
         | st stt get content sx lm e evs _ _ _ _ _ _ D H _ U _ _ _ _ _ _ _
         | st stt get content sx lm evs _ _ _ _ _ D H _ U _ _ _ _ _ _
         | st stt get content sx t n age evs _ F _ _ _ W Hn D H M U _ _ _ _ _];
    [by left .. |].
  right. eexists _, content. split; [exact U|]. split; [reflexivity|].
  split; [| by rewrite D, F].
  unfold Recorded_in. cbn [ev_filename ev_hash ev_size ev_lastModified ev_etag ev_version].
  rewrite H, M, D. cbn [list_files]. rewrite !lookup_insert_eq.
  split; [reflexivity|]. eexists _, _. do 8 (split; [reflexivity|]).
  exists n. split; [lia | reflexivity].
Qed.

Lemma for_each_tour l s :
  exists s',
    for_each l (checkOne h currentHashes currentMetadata) s = (Returned tt, s') /\
    Loop l s s' /\ Tour h l s s'.
Proof.
  revert s. induction l as [|[filename url] l IH]; intros s.
  - exists s. split; [reflexivity|].
    destruct (for_each_checkOne h currentHashes currentMetadata [] s) as (s' & R & L).
    injection R as <-. split; [exact L|].
    split; [|split; [|split; [|split]]]; try done.
    + exists []. rewrite app_nil_r. split; [done|]. split; [constructor | done].
    + exists []. rewrite app_nil_r. split; [done|]. split; constructor.
  - destruct (for_each_checkOne h currentHashes currentMetadata ((filename, url) :: l) s)
      as (s2' & R' & L').
    destruct (checkOne_step h currentHashes currentMetadata filename url s)
      as (s1 & R1 & St).
    destruct (IH s1) as (s2 & R2 & L2 & T2).
    assert (s2' = s2) as ->.
    { cbn [for_each] in R'. unfold mbind, M_bind in R'. rewrite R1, R2 in R'. congruence. }
    exists s2. split; [exact R'|]. split; [exact L'|].
    destruct T2 as ((evs2 & Tr2 & Fe2 & Ou2) & (new2 & U2 & N2 & Rec2) & Fr2 & Fu2 & Ti2).
    assert (Ti1 : (ticks s <= ticks s1)%nat).
    { destruct St as [since T -> | e T F ->
                     | ? ? ? ? ? ? ? ? _ _ _ _ _ _ _ _ _ _ _ _ _ _ _ _ Hn
                     | ? ? ? ? ? ? ? _ _ _ _ _ _ _ _ _ _ _ _ _ _ Hn
                     | ? ? ? ? ? ? ? ? ? _ _ _ _ _ _ Hn _ _ _ _ _ _ _ _ _];
        simpl_state; lia. }
    destruct (Step_trace _ _ _ _ St) as (evs1 & Tr1 & Ou1 & Fe1).
    destruct L2 as (_ & _ & _ & _ & _ & O2).
    assert (Keep : forall g, g <> filename ->
              list_files (disk s1) !! g = list_files (disk s) !! g).
    { intros g Hg. destruct (Step_updates _ _ _ _ St)
        as [(_ & _ & ->) | (ev & content & _ & _ & _ & _ & _ & ->)]; [done|].
      by rewrite lookup_insert_ne. }
    split; [|split; [|split; [|split]]]; [| | | |lia].
    + exists (evs1 ++ evs2). rewrite Tr2, Tr1, app_assoc. split; [done|]. split.
      * rewrite fetched_app. cbn [map snd].
        destruct Fe1 as [[-> _] | [-> _]]; [by apply sublist_cons | by apply sublist_skip].
      * intros name. by rewrite outputs_app, Ou1, Ou2.
    + destruct (Step_updates _ _ _ _ St)
        as [(U1 & _ & _) | (ev & content & U1 & Hf & Rec1 & _ & _ & _)].
      * exists new2. rewrite U2, U1. split; [done|]. split.
        { cbn [map fst]. by apply sublist_cons. }
        intros ND. apply NoDup_cons in ND as [_ ND]. by apply Rec2.
      * exists (ev :: new2). rewrite U2, U1, <- app_assoc. split; [done|]. split.
        { cbn [map fst]. rewrite Hf. by apply sublist_skip. }
        intros ND. apply NoDup_cons in ND as [Hnotin ND]. constructor; [|by apply Rec2].
        destruct Rec1 as (Hh & content' & md & Hl & Hc & Hs & Hm & H1 & H2 & H3 & H4 &
                          n & Hn & Hlc).
        unfold Recorded_in. rewrite Hf in *. destruct (O2 filename Hnotin) as [Oh Om].
        split; [by rewrite Oh|]. exists content', md.
        rewrite (Fr2 filename Hnotin), Om. do 8 (split; [done|]).
        exists n. split; [lia | done].
    + intros g Hg. cbn [map fst] in Hg. apply not_elem_of_cons in Hg as [Hg1 Hg2].
      rewrite (Fr2 g Hg2). by apply Keep.
    + intros g Hg.
      destruct (Step_updates _ _ _ _ St)
        as [(U1 & _ & D1) | (ev & content & U1 & Hf & _ & _ & _ & Hl)].
      * rewrite U2, U1, drop_app_length in Hg.
        rewrite Fu2; [by rewrite D1|]. by rewrite U2, drop_app_length.
      * rewrite U2, U1, <- app_assoc, drop_app_length in Hg. cbn [app map] in Hg.
        apply not_elem_of_cons in Hg as [Hg1 Hg2].
        rewrite Fu2; [|by rewrite U2, drop_app_length].
        rewrite Hl. rewrite lookup_insert_ne; [done | congruence].
Qed.

End Tours.

Lemma saveAndReport_run h s :
  saveAndReport h s =
  match updatedLists s with
  | [] =>
      if writable h MetadataFile then
        (Returned (mkCheckResult false [] None),
         mkState (mkDisk (hashes_json (disk s)) (Some (newMetadata s))
                         (list_files (disk s)) (summary_json (disk s)))
                 (ticks s) (trace s ++ [Log LogAllUpToDate; WriteFile MetadataFile])
                 (newHashes s) (newMetadata s) (updatedLists s))
      else (Thrown (WriteFailed MetadataFile),
            say [Log LogAllUpToDate; WriteFile MetadataFile] s)
  | _ :: _ =>
      if writable h HashesFile then
        if writable h MetadataFile then
          let summary := mkSummary (length (updatedLists s))
                           (iso_string (clock h (ticks s))) (updatedLists s) in
          if writable h SummaryFile then
            (Returned (mkCheckResult true (updatedLists s) (Some summary)),
             mkState (mkDisk (Some (newHashes s)) (Some (newMetadata s))
                             (list_files (disk s)) (Some summary))
                     (S (ticks s))
                     (trace s ++ [WriteFile HashesFile; WriteFile MetadataFile;
                                  Log (LogUpdatedCount (length (updatedLists s)));
                                  WriteFile SummaryFile])
                     (newHashes s) (newMetadata s) (updatedLists s))
          else
            (Thrown (WriteFailed SummaryFile),
             mkState (mkDisk (Some (newHashes s)) (Some (newMetadata s))
                             (list_files (disk s)) (summary_json (disk s)))
                     (S (ticks s))
                     (trace s ++ [WriteFile HashesFile; WriteFile MetadataFile;
                                  Log (LogUpdatedCount (length (updatedLists s)));
                                  WriteFile SummaryFile])
                     (newHashes s) (newMetadata s) (updatedLists s))
        else
          (Thrown (WriteFailed MetadataFile),
           mkState (mkDisk (Some (newHashes s)) (metadata_json (disk s))
                           (list_files (disk s)) (summary_json (disk s)))
                   (ticks s) (trace s ++ [WriteFile HashesFile; WriteFile MetadataFile])
                   (newHashes s) (newMetadata s) (updatedLists s))
      else (Thrown (WriteFailed HashesFile), say [WriteFile HashesFile] s)
  end.
Proof.
  destruct s as [[hj mj lf sj] n tr hs ms ul]. unfold saveAndReport, saveHashes, saveMetadata.
  destruct ul as [|ev ul]; run; cbn [length Nat.ltb Nat.leb]; run.
  - destruct (writable h MetadataFile); run; by rewrite <- ?app_assoc.
  - destruct (writable h HashesFile); run; [|reflexivity].
    destruct (writable h MetadataFile); run; [|by rewrite <- ?app_assoc].
    destruct (writable h SummaryFile); run; by rewrite <- ?app_assoc.
Qed.

(** A cycle is the tour of the tracked lists from the loaded state, then the
    saving. *)
Lemma checkForUpdates_tour h d :
  exists s1,
    for_each EASYLIST_URLS
      (checkOne h (default ∅ (hashes_json d)) (default ∅ (metadata_json d)))
      (loaded h d) = (Returned tt, s1) /\
    Loop EASYLIST_URLS (loaded h d) s1 /\
    Tour h EASYLIST_URLS (loaded h d) s1 /\
    checkForUpdates h (boot d) = saveAndReport h s1.
Proof.
  destruct (checkForUpdates_run h d) as (s1 & _ & R & E).
  destruct (for_each_tour h (default ∅ (hashes_json d)) (default ∅ (metadata_json d))
              EASYLIST_URLS (loaded h d)) as (s1' & R' & L & T).
  rewrite R in R'. injection R' as <-. by exists s1.
Qed.

Lemma main_unfold h d :
  main h (boot d) =
  match checkForUpdates h (boot d) with
  | (Returned r, s) =>
      if GITHUB_ACTIONS h && actions_core_fails h
      then (Returned 1, say [Log (LogScriptFailed ActionsCoreFailed)] s)
      else
        (Returned 0,
         say (if hasUpdates r then
                (if GITHUB_ACTIONS h then
                   [SetOutput (js "has_updates") (js "true");
                    SetOutput (js "commit_message")
                              (generateCommitMessage (res_updatedLists r));
                    SetOutput (js "updated_count")
                              (decimal (length (res_updatedLists r)))]
                 else []) ++
                [Log (LogSuggestedMessage (generateCommitMessage (res_updatedLists r)))]
              else
                if GITHUB_ACTIONS h then
                  [SetOutput (js "has_updates") (js "false");
                   SetOutput (js "commit_message") [];
                   SetOutput (js "updated_count") (js "0")]
                else []) s)
  | (Thrown e, s) => (Returned 1, say [Log (LogScriptFailed e)] s)
  end.
Proof.
  unfold main, try_catch, require_actions_core. unfold mbind at 1, M_bind at 1.
  destruct (checkForUpdates h (boot d)) as [[r|e] s]; [|reflexivity].
  destruct s as [d' n tr hs ms ul].
  destruct (hasUpdates r); destruct (GITHUB_ACTIONS h); destruct (actions_core_fails h);
    cbn [andb]; run; rewrite <- ?app_assoc; cbn [app]; rewrite ?app_nil_r; reflexivity.
Qed.

(** *** The account of the updates in the trace *)

Lemma silent_no_write evs g : Forall silent evs -> WriteFile (ListFile g) ∉ evs.
Proof. intros F Hin. eapply Forall_forall in F; [|exact Hin]. exact F. Qed.

Lemma silent_no_detection evs g reason :
  Forall silent evs -> Log (LogUpdated g reason) ∉ evs.
Proof. intros F Hin. eapply Forall_forall in F; [|exact Hin]. exact F. Qed.

Lemma Accounted_silent h evs : Forall silent evs -> Accounted h evs [].
Proof.
  intros F. split; [|split].
  - intros g. cbn [map]. rewrite elem_of_nil. split; [done|].
    intros [Hin _]. by apply silent_no_write in Hin.
  - intros g Hin. by apply silent_no_write in Hin.
  - intros g reason Hin. by apply silent_no_detection in Hin.
Qed.

Lemma Accounted_app h evs1 new1 evs2 new2 :
  Accounted h evs1 new1 -> Accounted h evs2 new2 ->
  Accounted h (evs1 ++ evs2) (new1 ++ new2).
Proof.
  intros (A1 & B1 & C1) (A2 & B2 & C2). split; [|split].
  - intros g. rewrite fmap_app, !elem_of_app, A1, A2. tauto.
  - intros g. rewrite elem_of_app. intros [Hin | Hin].
    + destruct (B1 g Hin) as [reason Hr]. exists reason. rewrite elem_of_app. by left.
    + destruct (B2 g Hin) as [reason Hr]. exists reason. rewrite elem_of_app. by right.
  - intros g reason. rewrite fmap_app, !elem_of_app. intros [Hin | Hin].
    + destruct (C1 g reason Hin) as [H | [H | [W H]]]; auto.
    + destruct (C2 g reason Hin) as [H | [H | [W H]]]; auto.
Qed.

Lemma Accounted_frame h pre evs post new :
  Forall silent pre -> Forall silent post -> Accounted h evs new ->
  Accounted h (pre ++ evs ++ post) new.
Proof.
  intros Fpre Fpost A.
  pose proof (Accounted_app h _ _ _ _ (Accounted_silent h pre Fpre)
                (Accounted_app h _ _ _ _ A (Accounted_silent h post Fpost))) as R.
  cbn [app] in R. by rewrite app_nil_r in R.
Qed.

Section Accounts.
Variable h : Host.
Variable currentHashes : gmap jsstring jsstring.
Variable currentMetadata : gmap jsstring Metadata.

Ltac members :=
  unfold detection_lines, record_lines; cbn [app];
  rewrite ?elem_of_app, ?elem_of_cons, ?elem_of_nil.

Ltac members_in H :=
  unfold detection_lines, record_lines in H; cbn [app] in H;
  rewrite ?elem_of_app, ?elem_of_cons, ?elem_of_nil in H.

Ltac pick := repeat first [ reflexivity | left; reflexivity | right ].

Ltac same_file H :=
  members_in H; intuition (discriminate || congruence).

Lemma Step_accounted filename url s s' :
  Step h currentHashes currentMetadata filename url s s' ->
  exists evs new,
    trace s' = trace s ++ evs /\ updatedLists s' = updatedLists s ++ new /\
    Accounted h evs new.
Proof.
  intros [since T -> | e T Fe ->
    | st stt get content sx lm e evs T F Tx Px B Ca D H M U Tr Fev Ou Sl Ex In Ti
    | st stt get content sx lm evs T F Tx Px B D H M U Tr Fev Ou Sl Ex Ti
    | st stt get content sx t n age evs T F Tx Px B W Hn D H M U Tr Fev Ou Sl Ex].
  - eexists _, []. split; [reflexivity|]. split; [by rewrite app_nil_r|].
    apply Accounted_silent. by repeat constructor.
  - eexists _, []. split; [reflexivity|]. split; [by rewrite app_nil_r|].
    apply Accounted_silent. by repeat constructor.
  - exists evs, []. split; [exact Tr|]. split; [by rewrite U, app_nil_r|].
    destruct Ex as (age & ->).
    assert (Same : forall g,
              WriteFile (ListFile g) ∈
                [Log (LogFetching filename); Fetch url] ++
                detection_lines filename
                  (snd (detectChange h (currentHashes !! filename) (calculateHash content)
                          (currentMetadata !! filename) lm (get (js "etag"))))
                  (extractVersion content) ++
                match lm with
                | Some t => record_lines (headers_of get) t age ++
                            [WriteFile (ListFile filename)]
                | None => []
                end ++ [Log (LogErrorProcessing filename e)] ->
              g = filename /\ is_Some lm).
    { intros g Hin. destruct lm as [t|]; same_file Hin. }
    split; [|split].
    + intros g. cbn [map]. rewrite elem_of_nil. split; [done|]. intros [Hin Hw].
      destruct (Same g Hin) as [-> [t ->]].
      destruct Ca as [[[=] _] | (_ & W & _)]. congruence.
    + intros g Hin. destruct (Same g Hin) as [-> _]. eexists.
      members. pick.
    + intros g reason Hin. right.
      assert (g = filename) as -> by (destruct lm as [t|]; same_file Hin).
      destruct Ca as [[-> ->] | ((t & ->) & W & ->)];
        [left | right; split; [exact W|]]; members; pick.
  - exists evs, []. split; [exact Tr|]. split; [by rewrite U, app_nil_r|].
    destruct Ex as (age & ->). apply Accounted_silent. by repeat constructor.
  - eexists evs, [_]. split; [exact Tr|]. split; [exact U|].
    destruct Ex as (age0 & ->). unfold Accounted. cbn [map ev_filename]. split; [|split].
    + intros g. split.
      * rewrite elem_of_cons, elem_of_nil. intros [-> | []].
        split; [members; pick | exact W].
      * intros [Hin _]. apply elem_of_cons. left. same_file Hin.
    + intros g Hin. eexists.
      assert (g = filename) as -> by same_file Hin.
      members. pick.
    + intros g reason Hin. left.
      assert (g = filename) as -> by same_file Hin.
      apply elem_of_cons. by left.
Qed.

Lemma for_each_accounted l s :
  exists s' evs new,
    for_each l (checkOne h currentHashes currentMetadata) s = (Returned tt, s') /\
    trace s' = trace s ++ evs /\ updatedLists s' = updatedLists s ++ new /\
    Accounted h evs new.
Proof.
  revert s. induction l as [|[filename url] l IH]; intros s.
  - exists s, [], []. split; [reflexivity|]. rewrite !app_nil_r.
    split; [done|]. split; [done|]. by apply Accounted_silent.
  - destruct (checkOne_step h currentHashes currentMetadata filename url s)
      as (s1 & R1 & St).
    destruct (Step_accounted _ _ _ _ St) as (evs1 & new1 & T1 & U1 & A1).
    destruct (IH s1) as (s2 & evs2 & new2 & R2 & T2 & U2 & A2).
    exists s2, (evs1 ++ evs2), (new1 ++ new2). split.
    { cbn [for_each]. unfold mbind, M_bind. by rewrite R1. }
    split; [by rewrite T2, T1, app_assoc|]. split; [by rewrite U2, U1, app_assoc|].
    by apply Accounted_app.
Qed.

End Accounts.

(** *** Throttling and recording, from the inputs of an iteration *)

Lemma throttled_spec (h : Host) (currentMetadata : gmap jsstring Metadata)
    (filename : jsstring) (s : State) :
  throttled h currentMetadata filename s = true <->
  exists om c lc t,
    currentMetadata !! filename = Some om /\ md_lastChecked om = Some (c :: lc) /\
    parse_date h (c :: lc) = Some t /\ clock h (ticks s) - t < 90 * 60000.
Proof.
  unfold throttled. split.
  - destruct (currentMetadata !! filename) as [om|]; [|done].
    destruct (md_lastChecked om) as [[|c lc]|] eqn:E; [done| |done].
    destruct (parse_date h (c :: lc)) as [t|] eqn:P; [|done].
    cbn [date_sub minutes_lt]. intros Hlt%Z.ltb_lt. by exists om, c, lc, t.
  - intros (om & c & lc & t & -> & -> & -> & Hlt). cbn [date_sub minutes_lt].
    by apply Z.ltb_lt.
Qed.

Lemma not_throttled (h : Host) (currentMetadata : gmap jsstring Metadata)
    (filename : jsstring) (s : State) :
  (forall om c lc t,
     currentMetadata !! filename = Some om -> md_lastChecked om = Some (c :: lc) ->
     parse_date h (c :: lc) = Some t -> 90 * 60000 <= clock h (ticks s) - t) ->
  throttled h currentMetadata filename s = false.
Proof.
  intros Hold. destruct (throttled h currentMetadata filename s) eqn:T; [|done].
  apply throttled_spec in T as (om & c & lc & t & Hm & Hlc & Hp & Hlt).
  specialize (Hold om c lc t Hm Hlc Hp). lia.
Qed.

Lemma detectChange_hash_differs (h : Host) (oldHash : option jsstring) (newHash : jsstring)
    (oldMetadata : option Metadata) (lastModified : Date) (etag : option jsstring) :
  oldHash <> Some newHash ->
  exists rest,
    detectChange h oldHash newHash oldMetadata lastModified etag =
    (true, js "content hash changed" ++ rest).
Proof.
  intros Hne. unfold detectChange. rewrite bool_decide_eq_false_2 by assumption.
  cbn [snd].
  destruct oldMetadata as [[[[|c s]|] [[|c' s']|] ve lc sz]|]; cbn [md_lastModified md_etag];
    destruct etag as [[|c'' s'']|];
    repeat first
      [ match goal with
        | |- context [if date_gt ?a ?b then _ else _] => destruct (date_gt a b)
        | |- context [if bool_decide ?P then _ else _] => destruct (bool_decide P)
        end
      | progress cbn [snd] ];
    rewrite ?add_reason_nonempty by discriminate;
    rewrite <- ?app_assoc;
    try (by eexists); by exists [].
Qed.

(** The effective time of a body whose [Last modified] line parses. *)
Lemma parseLastModified_dated (h : Host) (header : option jsstring)
    (content v : jsstring) (tc : Z) (s : State) :
  match_line "! Last modified: " content = Some v -> parse_date h v = Some tc ->
  exists t, tc <= t /\ fst (parseLastModified h header content s) = Returned (Some t).
Proof.
  intros L P. unfold parseLastModified. rewrite L, P.
  destruct header as [[|c hv]|]; try (exists tc; split; [lia | reflexivity]).
  destruct (parse_date h (c :: hv)) as [th|]; cbn [date_gt];
    [|exists tc; split; [lia | reflexivity]].
  destruct (Z.ltb_spec tc th); [exists th | exists tc]; (split; [lia | reflexivity]).
Qed.

Lemma EASYLIST_URLS_NoDup : NoDup (map fst EASYLIST_URLS) /\ NoDup (map snd EASYLIST_URLS).
Proof. split; apply (bool_decide_unpack _); vm_compute; exact I. Qed.

Section Records.
Variable h : Host.
Variable currentHashes : gmap jsstring jsstring.
Variable currentMetadata : gmap jsstring Metadata.

Lemma checkOne_records filename url status statusText get content v tc s :
  throttled h currentMetadata filename s = false ->
  fetch h url = Response true status statusText get content ->
  currentHashes !! filename <> Some (calculateHash content) ->
  match_line "! Last modified: " content = Some v -> parse_date h v = Some tc ->
  writable h (ListFile filename) = true ->
  exists s' ev,
    checkOne h currentHashes currentMetadata (filename, url) s = (Returned tt, s') /\
    updatedLists s' = updatedLists s ++ [ev] /\ ev_filename ev = filename /\
    newHashes s' = <[filename := calculateHash content]> (newHashes s).
Proof.
  intros T0 F Hh L P W.
  destruct (checkOne_step h currentHashes currentMetadata filename url s) as (s' & R & St).
  destruct St as [since T -> | e T Fe ->
    | st stt get' content' sx lm e evs T F' Tx Px B Ca D H M U Tr Fev Ou Sl Ex In Ti
    | st stt get' content' sx lm evs T F' Tx Px B D H M U Tr Fev Ou Sl Ex Ti
    | st stt get' content' sx t n age evs T F' Tx Px B W' Hn D H M U Tr Fev Ou Sl Ex].
  - congruence.
  - by rewrite F in Fe.
  - rewrite F in F'. injection F' as <- <- <- <-.
    destruct (parseLastModified_dated h (get (js "last-modified")) content v tc sx L P)
      as (t & _ & Pt).
    rewrite Pt in Px. injection Px as <-.
    destruct Ca as [[[=] _] | (_ & W' & _)]. congruence.
  - rewrite F in F'. injection F' as <- <- <- <-.
    destruct (detectChange_hash_differs h _ _ (currentMetadata !! filename) lm
                (get (js "etag")) Hh) as (rest & E).
    by rewrite E in B.
  - rewrite F in F'. injection F' as <- <- <- <-.
    eexists s', _. split; [exact R|]. split; [exact U|]. split; [reflexivity | exact H].
Qed.

Lemma for_each_records l filename url status statusText get content v tc s :
  (filename, url) ∈ l -> NoDup (map fst l) ->
  (forall om c lc t n,
     currentMetadata !! filename = Some om -> md_lastChecked om = Some (c :: lc) ->
     parse_date h (c :: lc) = Some t -> 90 * 60000 <= clock h n - t) ->
  fetch h url = Response true status statusText get content ->
  currentHashes !! filename <> Some (calculateHash content) ->
  match_line "! Last modified: " content = Some v -> parse_date h v = Some tc ->
  writable h (ListFile filename) = true ->
  exists s' new,
    for_each l (checkOne h currentHashes currentMetadata) s = (Returned tt, s') /\
    updatedLists s' = updatedLists s ++ new /\ filename ∈ map ev_filename new /\
    newHashes s' !! filename = Some (calculateHash content).
Proof.
  intros Hin ND Hold F Hh L P W. revert s.
  induction l as [|[filename' url'] l IH]; intros s; [by apply elem_of_nil in Hin|].
  apply NoDup_cons in ND as [Hnotin ND]. cbn [for_each]. unfold mbind, M_bind.
  apply elem_of_cons in Hin as [[= <- <-] | Hin].
  - destruct (checkOne_records filename url status statusText get content v tc s)
      as (s1 & ev & R1 & U1 & Hf & H1); try assumption.
    { apply not_throttled. intros om c lc t. by apply Hold. }
    rewrite R1.
    destruct (for_each_tour h currentHashes currentMetadata l s1)
      as (s2 & R2 & (_ & _ & _ & _ & _ & O2) & (_ & (new2 & U2 & _) & _)).
    exists s2, (ev :: new2). split; [exact R2|]. split; [by rewrite U2, U1, <- app_assoc|].
    split; [cbn [map]; rewrite Hf; apply elem_of_cons; by left|].
    destruct (O2 filename Hnotin) as [-> _]. rewrite H1. apply lookup_insert_eq.
  - destruct (checkOne_step h currentHashes currentMetadata filename' url' s)
      as (s1 & R1 & St).
    rewrite R1.
    destruct (Step_updates _ _ _ _ _ _ _ St) as [(U1 & _) | (ev & _ & U1 & _)];
      destruct (IH Hin ND s1) as (s2 & new & R2 & U2 & Hnew & H2).
    + exists s2, new. split; [exact R2|]. split; [by rewrite U2, U1|]. done.
    + exists s2, (ev :: new). split; [exact R2|].
      split; [by rewrite U2, U1, <- app_assoc|].
      split; [cbn [map]; apply elem_of_cons; by right | done].
Qed.

End Records.

(** A cycle with the account of its updates. *)
Lemma checkForUpdates_accounted h d :
  exists s1 evs,
    for_each EASYLIST_URLS
      (checkOne h (default ∅ (hashes_json d)) (default ∅ (metadata_json d)))
      (loaded h d) = (Returned tt, s1) /\
    trace s1 = trace (loaded h d) ++ evs /\
    Forall (loop_event EASYLIST_URLS) evs /\
    Accounted h evs (updatedLists s1) /\
    checkForUpdates h (boot d) = saveAndReport h s1.
Proof.
  destruct (checkForUpdates_tour h d) as (s1 & R & ((evs' & T' & Fl) & _) & _ & E).
  destruct (for_each_accounted h (default ∅ (hashes_json d)) (default ∅ (metadata_json d))
              EASYLIST_URLS (loaded h d)) as (s1' & evs & new & R' & T & U & A).
  rewrite R in R'. injection R' as <-.
  cbn [loaded updatedLists app] in U. rewrite <- U in A.
  rewrite T in T'. apply app_inv_head in T' as ->.
  by exists s1, evs'.
Qed.

Lemma loaded_silent h d : Forall silent (trace (loaded h d)).
Proof.
  unfold loaded. cbn [trace].
  destruct (mkdir_fails h), (hashes_json d); by repeat constructor.
Qed.

(** When the stored hash is the new hash and neither the second nor the
    third method fires, the detection gives no change. *)
Lemma detectChange_quiet (h : Host) (oldHash : option jsstring)
    (content : jsstring) (oldMetadata : option Metadata) (lastModified : Date)
    (etag : option jsstring) :
  oldHash = Some (calculateHash content) ->
  (forall om stored t t', oldMetadata = Some om -> md_lastModified om = Some stored ->
     parse_date h stored = Some t -> lastModified = Some t' -> t' <= t) ->
  (forall om e e', oldMetadata = Some om -> md_etag om = Some e -> etag = Some e' ->
     e <> [] -> e' <> [] -> e' = e) ->
  detectChange h oldHash (calculateHash content) oldMetadata lastModified etag
    = (false, []).
Proof.
  intros -> Htime Hetag.
  unfold detectChange. rewrite bool_decide_eq_true_2 by reflexivity.
  destruct oldMetadata as [om|]; [|by destruct etag as [[|]|]].
  assert (T : match md_lastModified om with
              | Some (c :: s) =>
                  if date_gt lastModified (parse_date h (c :: s))
                  then (true, add_reason (snd (false, @nil Z)) (js "timestamp newer"))
                  else (false, [])
              | _ => (false, [])
              end = (false, @nil Z)).
  { destruct (md_lastModified om) as [[|c s]|] eqn:Hs; try reflexivity.
    destruct lastModified as [t'|]; [|reflexivity].
    destruct (parse_date h (c :: s)) as [t|] eqn:Hp; [|reflexivity].
    cbn [date_gt]. specialize (Htime om (c :: s) t t' eq_refl Hs Hp eq_refl).
    destruct (Z.ltb_spec t t'); [lia | reflexivity]. }
  rewrite T.
  destruct etag as [[|c s]|]; try reflexivity.
  destruct (md_etag om) as [[|c' s']|] eqn:He; try reflexivity.
  rewrite (Hetag om (c' :: s') (c :: s) eq_refl He eq_refl) by discriminate.
  by rewrite bool_decide_eq_true_2.
Qed.

(** ** Properties of the specification *)

Import Sample.

(** C1. With no stored hash the hash comparison itself fires, so the reason
    always begins with "content hash changed" and the fallback "first time"
    is never what is logged or recorded; on the first run of the sample host
    the update is recorded with reason "content hash changed". *)
Theorem absent_hash_reason_is_not_first_time :
  (forall h newHash oldMetadata lastModified etag,
     exists rest,
       detectChange h None newHash oldMetadata lastModified etag =
         (true, js "content hash changed" ++ rest) /\
       or_else (Some (js "content hash changed" ++ rest)) (js "first time") <>
         js "first time") /\
  (let s' := snd (checkForUpdates host (boot empty_disk)) in
   hashes_json empty_disk = None /\
   map ev_changeReason (updatedLists s') = [js "content hash changed"] /\
   Log (LogUpdated easylist_txt (js "content hash changed")) ∈ trace s' /\
   Log (LogUpdated easylist_txt (js "first time")) ∉ trace s').
Proof.
  split.
  - intros. destruct (detectChange_absent_hash h newHash oldMetadata lastModified etag)
      as [rest E].
    exists rest. split; [exact E | discriminate].
  - cbv zeta. split; [reflexivity|]. split; [vm_compute; reflexivity|].
    split; compute_done.
Qed.

(** C2. An iteration that is due and fetches a content whose hash is the
    stored one reports it unchanged when the two other signals are unchanged
    or have nothing to compare with: the stored entry has no timestamp, or
    the response carries a timestamp, in a header or in its body, and none
    that it carries is after the stored one; the stored entry or the response
    has no ETag, or the two are equal.  The iteration then logs the list as up
    to date and waits; the disk, the hash map and the list of updates are as
    before, and the metadata entry, if there is one, only gets a new
    [lastChecked]. *)
Theorem same_content_is_reported_unchanged (h : Host)
    (currentHashes : gmap jsstring jsstring) (currentMetadata : gmap jsstring Metadata)
    (filename url : jsstring) (status : Z) (statusText : jsstring)
    (get : jsstring -> option jsstring) (content : jsstring) (s : State) :
  (forall om c lc t,
     currentMetadata !! filename = Some om -> md_lastChecked om = Some (c :: lc) ->
     parse_date h (c :: lc) = Some t -> 90 * 60000 <= clock h (ticks s) - t) ->
  fetch h url = Response true status statusText get content ->
  currentHashes !! filename = Some (calculateHash content) ->
  (forall om stored t0,
     currentMetadata !! filename = Some om -> md_lastModified om = Some stored ->
     parse_date h stored = Some t0 ->
     (truthy (get (js "last-modified")) = true \/
      is_Some (match_line "! Last modified: " content)) /\
     (forall hv th, get (js "last-modified") = Some hv -> parse_date h hv = Some th ->
                    th <= t0) /\
     (forall v tc, match_line "! Last modified: " content = Some v ->
                   parse_date h v = Some tc -> tc <= t0)) ->
  (forall om e e',
     currentMetadata !! filename = Some om -> md_etag om = Some e ->
     get (js "etag") = Some e' -> e <> [] -> e' <> [] -> e' = e) ->
  exists s' age,
    checkOne h currentHashes currentMetadata (filename, url) s = (Returned tt, s') /\
    trace s' = trace s ++ [Log (LogFetching filename); Fetch url;
                           Log (LogUpToDate filename age); Sleep 1000] /\
    disk s' = disk s /\ newHashes s' = newHashes s /\ updatedLists s' = updatedLists s /\
    match currentMetadata !! filename with
    | Some om =>
        exists n, newMetadata s' =
                    <[filename := with_lastChecked om (iso_string (clock h n))]>
                      (newMetadata s)
    | None => newMetadata s' = newMetadata s
    end.
Proof.
  intros Hold F Hh Htime Hetag.
  destruct (checkOne_step h currentHashes currentMetadata filename url s) as (s' & R & St).
  assert (Quiet : forall sx lm,
            fst (parseLastModified h (get (js "last-modified")) content sx) = Returned lm ->
            detectChange h (currentHashes !! filename) (calculateHash content)
              (currentMetadata !! filename) lm (get (js "etag")) = (false, [])).
  { intros sx lm Px. apply detectChange_quiet; [exact Hh | | ].
    - intros om stored t0 t' Hm Hs Hp ->.
      destruct (Htime om stored t0 Hm Hs Hp) as (Some_ts & Hhd & Hln).
      unfold parseLastModified in Px.
      destruct (get (js "last-modified")) as [[|c hv]|] eqn:G;
        destruct (match_line "! Last modified: " content) as [v|] eqn:L;
        cbn [truthy] in Some_ts;
        cbv beta iota zeta delta [mret M_ret mbind M_bind new_Date fst] in Px.
      + injection Px as Px. by apply (Hln v t').
      + destruct Some_ts as [[=] | [? [=]]].
      + destruct (parse_date h (c :: hv)) as [th|] eqn:Ph,
                 (parse_date h v) as [tc|] eqn:Pc; cbn [date_gt] in Px;
          try destruct (tc <? th); simplify_eq;
          first [ eapply Hhd; [reflexivity | eassumption]
                | eapply Hln; [reflexivity | eassumption] ].
      + injection Px as Px. by apply (Hhd (c :: hv) t').
      + injection Px as Px. by apply (Hln v t').
      + destruct Some_ts as [[=] | [? [=]]].
    - intros om e e' Hm He He'. by apply (Hetag om). }
  destruct St as [since T -> | e T Fe ->
    | st stt get' content' sx lm e evs T F' Tx Px B Ca D H M U Tr Fev Ou Sl Ex In Ti
    | st stt get' content' sx lm evs T F' Tx Px B D H M U Tr Fev Ou Sl Ex Ti
    | st stt get' content' sx t n age evs T F' Tx Px B W' Hn D H M U Tr Fev Ou Sl Ex].
  - by rewrite (not_throttled h currentMetadata filename s Hold) in T.
  - by rewrite F in Fe.
  - rewrite F in F'. injection F' as <- <- <- <-.
    rewrite (Quiet sx lm Px), Hh in B. cbn [fst orb] in B.
    by rewrite calculateHash_truthy in B.
  - rewrite F in F'. injection F' as <- <- <- <-.
    destruct Ex as (age & ->). exists s', age. split; [exact R|].
    do 4 (split; [done|]).
    destruct (currentMetadata !! filename) as [om|]; [|done].
    destruct M as (n & _ & M). by exists n.
  - rewrite F in F'. injection F' as <- <- <- <-.
    rewrite (Quiet sx (Some t) Px), Hh in B. cbn [fst orb] in B.
    by rewrite calculateHash_truthy in B.
Qed.

Lemma same_content_is_reported_unchanged_witness :
  let d := disk_checked_at "2026-11-02T12:00:00.000Z" in
  let om := easylist_metadata "2026-11-02T12:00:00.000Z" in
  let s := loaded host d in
  exists s' age,
    checkOne host {[ easylist_txt := calculateHash easylist_body ]} {[ easylist_txt := om ]}
      (easylist_txt, easylist_url) s = (Returned tt, s') /\
    trace s' = trace s ++ [Log (LogFetching easylist_txt); Fetch easylist_url;
                           Log (LogUpToDate easylist_txt age); Sleep 1000] /\
    disk s' = disk s /\ newHashes s' = newHashes s /\ updatedLists s' = updatedLists s /\
    match ({[ easylist_txt := om ]} : gmap jsstring Metadata) !! easylist_txt with
    | Some om =>
        exists n, newMetadata s' =
                    <[easylist_txt := with_lastChecked om (iso_string (clock host n))]>
                      (newMetadata s)
    | None => newMetadata s' = newMetadata s
    end.
Proof.
  cbv zeta.
  apply (same_content_is_reported_unchanged host
           {[ easylist_txt := calculateHash easylist_body ]}
           {[ easylist_txt := easylist_metadata "2026-11-02T12:00:00.000Z" ]}
           easylist_txt easylist_url 200 (js "OK") easylist_headers easylist_body
           (loaded host (disk_checked_at "2026-11-02T12:00:00.000Z"))).
  - intros om c lc t Hm Hlc Hp. rewrite lookup_singleton_eq in Hm. injection Hm as <-.
    injection Hlc as <- <-. vm_compute in Hp. injection Hp as <-.
    vm_compute. discriminate.
  - reflexivity.
  - apply lookup_singleton_eq.
  - intros om stored t0 Hm Hs Hp. rewrite lookup_singleton_eq in Hm. injection Hm as <-.
    injection Hs as <-. vm_compute in Hp. injection Hp as <-.
    split; [left; reflexivity|]. split.
    + intros hv th Hg Hph. vm_compute in Hg. injection Hg as <-.
      vm_compute in Hph. injection Hph as <-. vm_compute. discriminate.
    + intros v tc Hl Hpc. vm_compute in Hl. injection Hl as <-.
      vm_compute in Hpc. injection Hpc as <-. vm_compute. discriminate.
  - intros om e e' Hm He He' _ _. rewrite lookup_singleton_eq in Hm. injection Hm as <-.
    injection He as <-. vm_compute in He'. by injection He' as <-.
Defined.

(** C2 as stated, with a timestamp that is absent, fails: a response that
    carries no timestamp, neither in a header nor in its body, and no ETag,
    and whose content has the stored hash, is recorded as updated, since the
    clock serves as its effective time and is after the stored time. *)
Lemma same_content_without_timestamp_is_reported_changed :
  let s' := snd (checkForUpdates accented_host (boot accented_disk)) in
  (default ∅ (hashes_json accented_disk)) !! easylist_txt
    = Some (calculateHash accented_body) /\
  fetch accented_host easylist_url = Response true 200 (js "OK") (fun _ => None)
                                       accented_body /\
  match_line "! Last modified: " accented_body = None /\
  map ev_filename (updatedLists s') = [easylist_txt] /\
  map ev_changeReason (updatedLists s') = [js "timestamp newer"] /\
  Log (LogUpdated easylist_txt (js "timestamp newer")) ∈ trace s'.
Proof.
  cbv zeta. do 5 (split; [vm_compute; reflexivity|]). compute_done.
Qed.

(** C3. Under a [Last-Modified] header that parses, a body whose
    [Last modified] line does not parse gives an Invalid Date as the effective
    time, not the time of the header; [toISOString] then throws on it, so the
    first check of such a list ends in the [catch] and records nothing. *)
Theorem unparsable_content_date_hides_header_time :
  let header := js "Tue, 03 Nov 2026 03:00:00 GMT" in
  let s := boot empty_disk in
  let s' := snd (checkForUpdates undated_host (boot empty_disk)) in
  easylist_headers (js "last-modified") = Some header /\
  parse_date undated_host header = Some 1793674800000 /\
  match_line "! Last modified: " undated_body = Some (js "soon") /\
  parse_date undated_host (js "soon") = None /\
  parseLastModified undated_host (Some header) undated_body s = (Returned None, s) /\
  updatedLists s' = [] /\ list_files (disk s') = ∅ /\
  Log (LogErrorProcessing easylist_txt InvalidTimeValue) ∈ trace s'.
Proof.
  cbv zeta. repeat split; try (vm_compute; reflexivity). compute_done.
Qed.

(** C4. A resource whose recorded [lastChecked] is less than ninety minutes
    before the clock is skipped: its iteration only logs and reads the clock
    once, and a cycle during which this holds fetches nothing for it and
    leaves its entries, in memory and on disk, as they were loaded. *)
Theorem throttled_resource_is_skipped (h : Host) (d : Disk) (filename url : jsstring)
    (om : Metadata) (lc : jsstring) (t : Z) :
  (filename, url) ∈ EASYLIST_URLS ->
  (default ∅ (metadata_json d)) !! filename = Some om ->
  md_lastChecked om = Some lc -> lc <> [] ->
  parse_date h lc = Some t ->
  (forall currentHashes s,
     clock h (ticks s) - t < 90 * 60000 ->
     checkOne h currentHashes (default ∅ (metadata_json d)) (filename, url) s =
     (Returned tt,
      mkState (disk s) (S (ticks s))
        (trace s ++ [Log (LogFetching filename);
                     Log (LogThrottled filename (Some (clock h (ticks s) - t)))])
        (newHashes s) (newMetadata s) (updatedLists s))) /\
  ((forall n, clock h n - t < 90 * 60000) ->
   let s' := snd (checkForUpdates h (boot d)) in
   (Fetch url ∉ trace s') /\
   newHashes s' !! filename = (default ∅ (hashes_json d)) !! filename /\
   newMetadata s' !! filename = Some om /\
   (default ∅ (hashes_json (disk s'))) !! filename = (default ∅ (hashes_json d)) !! filename /\
   (default ∅ (metadata_json (disk s'))) !! filename = Some om).
Proof.
  intros Hin Hm Hlc Hne Hp. split.
  - intros currentHashes s Hlt.
    by rewrite (checkOne_throttled h currentHashes _ filename url om lc t s).
  - intros Hlt. cbv zeta.
    destruct (checkForUpdates_cycle h d) as (s1 & o & s' & R & R1 & L & S).
    rewrite R. cbn [snd].
    destruct (EASYLIST_URLS_split filename url Hin) as (pre & post & E & Hf & Hu).
    destruct (for_each_throttled h (default ∅ (hashes_json d)) (default ∅ (metadata_json d))
                pre post filename url om lc t (loaded h d) Hf Hu Hm Hlc Hne Hp Hlt)
      as (s1' & R1' & _ & (evs & T & Hevs) & A & B).
    rewrite <- E, R1 in R1'. injection R1' as <-.
    destruct L as (_ & LH & LM & _ & _ & _).
    destruct S as (SH & SM & _ & _ & (evs' & T' & Hevs' & _) & DH & DM & _).
    cbn [loaded newHashes newMetadata disk] in A, B, LH, LM.
    repeat split.
    + rewrite T', T, !not_elem_of_app. repeat split; [apply loaded_trace_no_fetch | done..].
    + by rewrite SH.
    + by rewrite SM, B.
    + destruct DH as [-> | [_ ->]]; [by rewrite LH | by cbn [default from_option id]].
    + destruct DM as [-> | ->]; [by rewrite LM | cbn [default from_option id]; by rewrite B].
Qed.

Lemma throttled_resource_is_skipped_witness :
  let d := disk_checked_at "2026-11-03T03:00:00.000Z" in
  let s' := snd (checkForUpdates host (boot d)) in
  (Fetch easylist_url ∉ trace s') /\
  newHashes s' !! easylist_txt = (default ∅ (hashes_json d)) !! easylist_txt /\
  newMetadata s' !! easylist_txt = Some (easylist_metadata "2026-11-03T03:00:00.000Z") /\
  (default ∅ (hashes_json (disk s'))) !! easylist_txt
    = (default ∅ (hashes_json d)) !! easylist_txt /\
  (default ∅ (metadata_json (disk s'))) !! easylist_txt
    = Some (easylist_metadata "2026-11-03T03:00:00.000Z").
Proof.
  cbv zeta.
  apply (throttled_resource_is_skipped host (disk_checked_at "2026-11-03T03:00:00.000Z")
           easylist_txt easylist_url (easylist_metadata "2026-11-03T03:00:00.000Z")
           (js "2026-11-03T03:00:00.000Z") 1793674800000).
  - compute_done.
  - vm_compute. reflexivity.
  - reflexivity.
  - discriminate.
  - vm_compute. reflexivity.
  - intros n. vm_compute. reflexivity.
Defined.

(** C5. A cycle that completes wrote [hashes.json] exactly when it recorded
    an update, that is, when a list file was written with success, and wrote
    [metadata.json] in both cases.  A list file is written only after its
    change was detected and announced; a detected change leads to the write
    of [hashes.json] unless its iteration ended in the [catch], on an Invalid
    Date or on the failed write of the list file.  In particular a tracked
    list that is due, is fetched with success, differs from the stored hash,
    carries a [Last modified] line that parses and can be written makes the
    cycle write [hashes.json], with the hash of the new content. *)
Theorem state_documents_written_back (h : Host) (d : Disk) (r : CheckResult) (s' : State) :
  checkForUpdates h (boot d) = (Returned r, s') ->
  (WriteFile HashesFile ∈ trace s' <->
   exists g, WriteFile (ListFile g) ∈ trace s' /\ writable h (ListFile g) = true) /\
  (forall g, WriteFile (ListFile g) ∈ trace s' ->
     exists reason, Log (LogUpdated g reason) ∈ trace s') /\
  (forall g reason, Log (LogUpdated g reason) ∈ trace s' ->
     WriteFile HashesFile ∈ trace s' \/
     Log (LogErrorProcessing g InvalidTimeValue) ∈ trace s' \/
     writable h (ListFile g) = false /\
     Log (LogErrorProcessing g (WriteFailed (ListFile g))) ∈ trace s') /\
  (forall filename url status statusText get content v tc,
     (filename, url) ∈ EASYLIST_URLS ->
     (forall om c lc t n,
        (default ∅ (metadata_json d)) !! filename = Some om ->
        md_lastChecked om = Some (c :: lc) -> parse_date h (c :: lc) = Some t ->
        90 * 60000 <= clock h n - t) ->
     fetch h url = Response true status statusText get content ->
     (default ∅ (hashes_json d)) !! filename <> Some (calculateHash content) ->
     match_line "! Last modified: " content = Some v -> parse_date h v = Some tc ->
     writable h (ListFile filename) = true ->
     WriteFile HashesFile ∈ trace s' /\
     (default ∅ (hashes_json (disk s'))) !! filename = Some (calculateHash content)) /\
  (WriteFile HashesFile ∈ trace s' <-> updatedLists s' <> []) /\
  (hasUpdates r = true <-> updatedLists s' <> []) /\
  res_updatedLists r = updatedLists s' /\
  WriteFile MetadataFile ∈ trace s' /\
  metadata_json (disk s') = Some (newMetadata s') /\
  (updatedLists s' <> [] -> hashes_json (disk s') = Some (newHashes s')) /\
  (updatedLists s' = [] -> hashes_json (disk s') = hashes_json d).
Proof.
  destruct (checkForUpdates_accounted h d) as (s1 & evs & R1 & T1 & Fl & A & ->).
  destruct (checkForUpdates_tour h d) as (s1' & R1' & (_ & LH & _) & _).
  rewrite R1 in R1'. injection R1' as <-. cbn [loaded disk] in LH.
  assert (NoHash : WriteFile HashesFile ∉ trace s1).
  { rewrite T1, not_elem_of_app. split.
    - unfold loaded. cbn [trace].
      destruct (mkdir_fails h), (hashes_json d); cbn [app];
        rewrite ?not_elem_of_cons; repeat split; try discriminate; apply not_elem_of_nil.
    - intros Hin. eapply Forall_forall in Fl; [|exact Hin].
      by destruct Fl as (f & [=] & _). }
  assert (Rec : forall filename url status statusText get content v tc,
     (filename, url) ∈ EASYLIST_URLS ->
     (forall om c lc t n,
        (default ∅ (metadata_json d)) !! filename = Some om ->
        md_lastChecked om = Some (c :: lc) -> parse_date h (c :: lc) = Some t ->
        90 * 60000 <= clock h n - t) ->
     fetch h url = Response true status statusText get content ->
     (default ∅ (hashes_json d)) !! filename <> Some (calculateHash content) ->
     match_line "! Last modified: " content = Some v -> parse_date h v = Some tc ->
     writable h (ListFile filename) = true ->
     updatedLists s1 <> [] /\ newHashes s1 !! filename = Some (calculateHash content)).
  { intros filename url status statusText get content v tc Hin Hold F Hh L P W.
    destruct (for_each_records h _ _ EASYLIST_URLS filename url status statusText get
                content v tc (loaded h d) Hin (proj1 EASYLIST_URLS_NoDup) Hold F Hh L P W)
      as (s1' & new & R1' & U & Hnew & H1).
    rewrite R1 in R1'. injection R1' as <-. split; [|exact H1].
    rewrite U. cbn [loaded updatedLists app]. intros ->. by apply elem_of_nil in Hnew. }
  rewrite saveAndReport_run.
  destruct s1 as [d1 n1 tr1 hs1 ms1 ul1]. simpl_state.
  destruct ul1 as [|ev ul1];
    repeat match goal with
           | |- context [if writable h ?p then _ else _] => destruct (writable h p)
           end;
    cbv zeta; intros [= <- <-]; cbn [hasUpdates res_updatedLists]; simpl_state.
  - pose proof (Accounted_frame h (trace (loaded h d)) evs
                  [Log LogAllUpToDate; WriteFile MetadataFile] [] (loaded_silent h d)
                  ltac:(by repeat constructor) A) as (A1 & A2 & A3).
    rewrite app_assoc, <- T1 in A1, A2, A3. cbn [map] in A1, A3.
    assert (NoHash' : WriteFile HashesFile ∉
                        tr1 ++ [Log LogAllUpToDate; WriteFile MetadataFile]).
    { rewrite not_elem_of_app, !not_elem_of_cons.
      repeat split; try done. apply not_elem_of_nil. }
    split; [|split; [|split; [|split]]].
    + split; [done|]. intros (g & Hg). apply A1 in Hg. by apply elem_of_nil in Hg.
    + exact A2.
    + intros g reason Hin. destruct (A3 g reason Hin) as [H | H]; [|by right].
      by apply elem_of_nil in H.
    + intros filename url status statusText get content v tc Hin Hold F Hh L P W.
      by destruct (Rec filename url status statusText get content v tc Hin Hold F Hh L P W)
        as [? _].
    + repeat split; try done.
      rewrite elem_of_app, !elem_of_cons. auto.
  - pose proof (Accounted_frame h (trace (loaded h d)) evs
                  [WriteFile HashesFile; WriteFile MetadataFile;
                   Log (LogUpdatedCount (length (ev :: ul1))); WriteFile SummaryFile]
                  (ev :: ul1) (loaded_silent h d) ltac:(by repeat constructor) A)
      as (A1 & A2 & A3).
    rewrite app_assoc, <- T1 in A1, A2, A3.
    assert (Yes : forall tl, WriteFile HashesFile ∈ tr1 ++ WriteFile HashesFile :: tl).
    { intros tl. rewrite elem_of_app, elem_of_cons. auto. }
    split; [|split; [|split; [|split]]].
    + split; [|intros _; apply Yes]. intros _. exists (ev_filename ev).
      apply A1. cbn [map]. apply elem_of_cons. by left.
    + exact A2.
    + intros g reason Hin. left. apply Yes.
    + intros filename url status statusText get content v tc Hin Hold F Hh L P W.
      split; [apply Yes|]. cbn [default from_option id].
      by destruct (Rec filename url status statusText get content v tc Hin Hold F Hh L P W)
        as [_ ?].
    + repeat split; try done.
      rewrite elem_of_app, !elem_of_cons. auto.
Qed.

Lemma state_documents_written_back_witness :
  let s' := snd (checkForUpdates host (boot empty_disk)) in
  (WriteFile HashesFile ∈ trace s' <->
   exists g, WriteFile (ListFile g) ∈ trace s' /\ writable host (ListFile g) = true) /\
  (WriteFile HashesFile ∈ trace s') /\
  (default ∅ (hashes_json (disk s'))) !! easylist_txt = Some (calculateHash easylist_body) /\
  WriteFile MetadataFile ∈ trace s'.
Proof.
  cbv zeta.
  pose proof (state_documents_written_back host empty_disk
                (match fst (checkForUpdates host (boot empty_disk)) with
                 | Returned r => r
                 | Thrown _ => mkCheckResult false [] None
                 end)
                (snd (checkForUpdates host (boot empty_disk)))
                ltac:(vm_compute; reflexivity))
    as (A & _ & _ & B & _ & _ & _ & D & _).
  assert (In : (easylist_txt, easylist_url) ∈ EASYLIST_URLS) by compute_done.
  assert (P : parse_date host (js "03 Nov 2026 05:00 UTC") = Some 1793682000000)
    by (vm_compute; reflexivity).
  assert (L : match_line "! Last modified: " easylist_body
              = Some (js "03 Nov 2026 05:00 UTC")) by (vm_compute; reflexivity).
  destruct (B easylist_txt easylist_url 200 (js "OK") easylist_headers easylist_body
              (js "03 Nov 2026 05:00 UTC") 1793682000000 In
              ltac:(intros om c lc t n Hm; discriminate Hm) eq_refl
              ltac:(discriminate) L P eq_refl) as [B1 B2].
  split; [exact A|]. split; [exact B1|]. split; [exact B2 | exact D].
Defined.

(** C5 as stated, with "detected as changed" in place of "recorded", fails:
    on a host where the list file cannot be written the change of
    [easylist.txt] is detected and announced, the cycle completes, and
    [hashes.json] is not written. *)
Lemma detected_change_without_hash_record :
  let o := checkForUpdates readonly_lists_host (boot empty_disk) in
  fst o = Returned (mkCheckResult false [] None) /\
  Log (LogUpdated easylist_txt (js "content hash changed")) ∈ trace (snd o) /\
  (WriteFile HashesFile ∉ trace (snd o)) /\
  hashes_json (disk (snd o)) = None /\
  WriteFile MetadataFile ∈ trace (snd o).
Proof.
  cbv zeta. split; [vm_compute; reflexivity|]. split; [compute_done|].
  split; [compute_done|]. split; [vm_compute; reflexivity | compute_done].
Qed.

(** C6. When the iteration for a resource that has a metadata entry detects
    no change, the new entry is the old one with [lastChecked] replaced by
    the ISO form of a reading of the clock taken during the iteration; the
    hash map and the list of updates are as before. *)
Theorem unchanged_entry_only_gets_lastChecked (h : Host)
    (currentHashes : gmap jsstring jsstring) (filename url : jsstring) (om : Metadata)
    (status : Z) (statusText : jsstring) (get : jsstring -> option jsstring)
    (content : jsstring) (lastModified : Date) (s s1 : State) :
  fetch h url = Response true status statusText get content ->
  parseLastModified h (get (js "last-modified")) content (say [Fetch url] s)
    = (Returned lastModified, s1) ->
  (fst (detectChange h (currentHashes !! filename) (calculateHash content) (Some om)
          lastModified (get (js "etag")))
   || negb (truthy (currentHashes !! filename))) = false ->
  exists n s',
    fetchAndCompare h currentHashes (Some om) filename url s = (Returned tt, s') /\
    (ticks s <= n < ticks s')%nat /\
    newMetadata s' =
      <[filename := mkMetadata (md_lastModified om) (md_etag om) (md_version om)
                      (Some (iso_string (clock h n))) (md_size om)]> (newMetadata s) /\
    newHashes s' = newHashes s /\ updatedLists s' = updatedLists s /\ disk s' = disk s.
Proof.
  intros F P D. unfold fetchAndCompare.
  unfold mbind at 1, M_bind at 1. rewrite (fetchList_ok h url s _ _ _ _ F).
  cbn [headers_of hd_lastModified hd_etag].
  unfold mbind at 1, M_bind at 1. rewrite P.
  destruct (parseLastModified_run h (get (js "last-modified")) content (say [Fetch url] s))
    as (lm' & k & P' & Hk).
  rewrite P in P'. injection P' as <- ->.
  destruct (detectChange _ _ _ _ _ _) as [hasChanged changeReason]. cbn [fst] in D.
  rewrite D.
  destruct (recordCheck_some h filename om (advance k (say [Fetch url] s)))
    as (k' & age & R & Hk').
  unfold mbind at 1, M_bind at 1. rewrite R. unfold emit. simpl_state.
  exists (k' + (k + ticks s))%nat. eexists. split; [reflexivity|].
  simpl_state. repeat split; lia.
Qed.

Lemma unchanged_entry_only_gets_lastChecked_witness :
  exists n s',
    fetchAndCompare host {[ easylist_txt := calculateHash easylist_body ]}
      (Some (easylist_metadata "2026-11-02T12:00:00.000Z")) easylist_txt easylist_url
      (boot (disk_checked_at "2026-11-02T12:00:00.000Z")) = (Returned tt, s') /\
    (0 <= n < ticks s')%nat /\
    newMetadata s' =
      <[easylist_txt := mkMetadata (Some (js "2026-11-03T05:00:00.000Z")) (Some (js "W/abc"))
                          (Some (js "202611030410"))
                          (Some (iso_string (clock host n))) 115]> ∅ /\
    newHashes s' = ∅ /\ updatedLists s' = [] /\
    disk s' = disk_checked_at "2026-11-02T12:00:00.000Z".
Proof.
  apply (unchanged_entry_only_gets_lastChecked host
           {[ easylist_txt := calculateHash easylist_body ]} easylist_txt easylist_url
           (easylist_metadata "2026-11-02T12:00:00.000Z") 200 (js "OK") easylist_headers
           easylist_body (Some 1793682000000)
           (boot (disk_checked_at "2026-11-02T12:00:00.000Z"))
           (say [Fetch easylist_url] (boot (disk_checked_at "2026-11-02T12:00:00.000Z")))).
  - reflexivity.
  - vm_compute. reflexivity.
  - vm_compute. reflexivity.
Defined.

(** C7. A failed fetch for one resource is caught inside its iteration.  The
    iteration was either throttled, and then made no request, or it made the
    request and the failure is logged by [fetchList] and by the [catch]; in
    both cases the disk and the three local variables are as before and the
    loop goes on with the remaining resources.  The exit code is 0 or 1; it
    is 1 exactly when [checkForUpdates] throws, which it does only on a
    failed write of one of the three state files, or when the cycle completes
    inside GitHub Actions and [@actions/core] fails.  So with state files that
    can be written and, inside GitHub Actions, a working [@actions/core], the
    exit code is 0 whatever the fetches do. *)
Theorem fetch_failure_is_contained (h : Host) (d : Disk)
    (currentHashes : gmap jsstring jsstring) (currentMetadata : gmap jsstring Metadata)
    (filename url : jsstring) (e : JsError) (rest : list (jsstring * jsstring))
    (s : State) :
  fetch_error (fetch h url) = Some e ->
  (exists s' evs,
     checkOne h currentHashes currentMetadata (filename, url) s = (Returned tt, s') /\
     disk s' = disk s /\ newHashes s' = newHashes s /\
     newMetadata s' = newMetadata s /\ updatedLists s' = updatedLists s /\
     trace s' = trace s ++ evs /\
     ((exists om c lc t,
         currentMetadata !! filename = Some om /\ md_lastChecked om = Some (c :: lc) /\
         parse_date h (c :: lc) = Some t /\ clock h (ticks s) - t < 90 * 60000 /\
         evs = [Log (LogFetching filename);
                Log (LogThrottled filename (Some (clock h (ticks s) - t)))]) \/
      evs = [Log (LogFetching filename); Fetch url; Log (LogFailedToFetch url e);
             Log (LogErrorProcessing filename e)]) /\
     for_each ((filename, url) :: rest) (checkOne h currentHashes currentMetadata) s
       = for_each rest (checkOne h currentHashes currentMetadata) s') /\
  (exists code s',
     main h (boot d) = (Returned code, s') /\
     (code = 0 \/ code = 1) /\
     (code = 1 <->
      (exists p s1, checkForUpdates h (boot d) = (Thrown (WriteFailed p), s1) /\
                    writable h p = false /\
                    (p = HashesFile \/ p = MetadataFile \/ p = SummaryFile)) \/
      (exists r s1, checkForUpdates h (boot d) = (Returned r, s1)) /\
      GITHUB_ACTIONS h = true /\ actions_core_fails h = true) /\
     (writable h HashesFile = true -> writable h MetadataFile = true ->
      writable h SummaryFile = true ->
      GITHUB_ACTIONS h = false \/ actions_core_fails h = false ->
      code = 0)).
Proof.
  intros F. split.
  - destruct (checkOne_step h currentHashes currentMetadata filename url s)
      as (s' & R & St).
    exists s'.
    destruct St as [since T -> | e' T Fe ->
      | st stt get' content' sx lm e' evs T F' Tx Px B Ca D H M U Tr Fev Ou Sl Ex In Ti
      | st stt get' content' sx lm evs T F' Tx Px B D H M U Tr Fev Ou Sl Ex Ti
      | st stt get' content' sx t n age evs T F' Tx Px B W' Hn D H M U Tr Fev Ou Sl Ex];
      try (rewrite F' in F; discriminate F).
    + eexists. split; [exact R|]. simpl_state. do 5 (split; [reflexivity|]). split.
      * left. pose proof T as T'.
        apply throttled_spec in T' as (om & c & lc & t & Hm & Hlc & Hp & Hlt).
        exists om, c, lc, t. do 4 (split; [done|]).
        rewrite checkOne_enter, T in R. injection R as R.
        apply app_inv_head in R. injection R as <-.
        rewrite Hm, Hlc. cbn [default from_option id]. by rewrite Hp.
      * cbn [for_each]. unfold mbind, M_bind. by rewrite R.
    + rewrite F in Fe. injection Fe as <-.
      eexists. split; [exact R|]. simpl_state. do 5 (split; [reflexivity|]).
      split; [by right|]. cbn [for_each]. unfold mbind, M_bind. by rewrite R.
  - rewrite main_unfold.
    destruct (checkForUpdates_cycle h d) as (s1 & o & s2 & R' & _ & _ & S).
    rewrite R'. destruct o as [r|err].
    + destruct (GITHUB_ACTIONS h) eqn:G, (actions_core_fails h) eqn:C; cbn [andb];
        eexists _, _; (split; [reflexivity|]).
      * split; [by right|]. split.
        -- split; [intros _; right; split; [by exists r, s2 | done] | done].
        -- intros _ _ _ [[=] | [=]].
      * split; [by left|]. split; [|done].
        split; [done|]. intros [(p & s3 & [=] & _) | (_ & _ & [=])].
      * split; [by left|]. split; [|done].
        split; [done|]. intros [(p & s3 & [=] & _) | (_ & [=] & _)].
      * split; [by left|]. split; [|done].
        split; [done|]. intros [(p & s3 & [=] & _) | (_ & [=] & _)].
    + destruct S as (_ & _ & _ & _ & _ & _ & _ & (p & -> & W & Hp)).
      eexists _, _. split; [reflexivity|]. split; [by right|]. split.
      * split; [|done]. intros _. left. by exists p, s2.
      * intros W1 W2 W3 _. destruct Hp as [-> | [-> | ->]]; congruence.
Qed.

Lemma fetch_failure_is_contained_witness :
  let s := loaded host empty_disk in
  let e := FetchRejected (js "fetch failed") in
  (exists s' evs,
     checkOne host ∅ ∅ (easyprivacy_txt, easyprivacy_url) s = (Returned tt, s') /\
     disk s' = disk s /\ newHashes s' = newHashes s /\
     newMetadata s' = newMetadata s /\ updatedLists s' = updatedLists s /\
     trace s' = trace s ++ evs /\
     ((exists om c lc t,
         (∅ : gmap jsstring Metadata) !! easyprivacy_txt = Some om /\
         md_lastChecked om = Some (c :: lc) /\
         parse_date host (c :: lc) = Some t /\ clock host (ticks s) - t < 90 * 60000 /\
         evs = [Log (LogFetching easyprivacy_txt);
                Log (LogThrottled easyprivacy_txt (Some (clock host (ticks s) - t)))]) \/
      evs = [Log (LogFetching easyprivacy_txt); Fetch easyprivacy_url;
             Log (LogFailedToFetch easyprivacy_url e);
             Log (LogErrorProcessing easyprivacy_txt e)]) /\
     for_each [(easyprivacy_txt, easyprivacy_url)] (checkOne host ∅ ∅) s
       = for_each [] (checkOne host ∅ ∅) s') /\
  (exists code s',
     main host (boot empty_disk) = (Returned code, s') /\
     (code = 0 \/ code = 1) /\
     (code = 1 <->
      (exists p s1, checkForUpdates host (boot empty_disk) = (Thrown (WriteFailed p), s1) /\
                    writable host p = false /\
                    (p = HashesFile \/ p = MetadataFile \/ p = SummaryFile)) \/
      (exists r s1, checkForUpdates host (boot empty_disk) = (Returned r, s1)) /\
      GITHUB_ACTIONS host = true /\ actions_core_fails host = true) /\
     (writable host HashesFile = true -> writable host MetadataFile = true ->
      writable host SummaryFile = true ->
      GITHUB_ACTIONS host = false \/ actions_core_fails host = false ->
      code = 0)).
Proof.
  cbv zeta.
  apply (fetch_failure_is_contained host empty_disk ∅ ∅ easyprivacy_txt easyprivacy_url
           (FetchRejected (js "fetch failed")) [] (loaded host empty_disk)).
  vm_compute. reflexivity.
Defined.

(** C7 as stated, with exit code 0 for every cycle that completes, fails
    inside GitHub Actions when [@actions/core] cannot be loaded: the fetch of
    [easyprivacy.txt] fails and is caught, every state file is written, the
    cycle returns, and the exit code is 1. *)
Lemma completed_cycle_exits_1_without_actions_core :
  let o := checkForUpdates coreless_host (boot empty_disk) in
  fetch_error (fetch coreless_host easyprivacy_url) = Some (FetchRejected (js "fetch failed")) /\
  (exists r, fst o = Returned r /\ hasUpdates r = true) /\
  (forall p, writable coreless_host p = true) /\
  fst (main coreless_host (boot empty_disk)) = Returned 1 /\
  Log (LogScriptFailed ActionsCoreFailed) ∈ trace (snd (main coreless_host (boot empty_disk))).
Proof.
  cbv zeta. split; [vm_compute; reflexivity|].
  split; [eexists; split; vm_compute; reflexivity|].
  split; [reflexivity|]. split; [vm_compute; reflexivity | compute_done].
Qed.

(** C8. The commit message for one updated list, with and without a
    version, and for any other number of lists. *)
Theorem generateCommitMessage_format :
  (forall e v, ev_version e = Some v -> v <> [] ->
     generateCommitMessage [e] = js "Update " ++ ev_filename e ++ js " to v" ++ v) /\
  (forall e, ev_version e = None ->
     generateCommitMessage [e] = js "Update " ++ ev_filename e) /\
  (forall l, length l <> 1%nat ->
     generateCommitMessage l =
     js "Update " ++ decimal (length l) ++ js " EasyList files" ++ [10; 10] ++
     join [10]
       (map (fun e => js "- " ++ ev_filename e ++
                      match ev_version e with
                      | Some (c :: v) => js " (v" ++ (c :: v) ++ js ")"
                      | _ => []
                      end) l)) /\
  generateCommitMessage
    [mkUpdateEvent (js "a.txt") [] [] (Some (js "1.2")) [] None None 0 [] None None]
  = js "Update a.txt to v1.2" /\
  generateCommitMessage
    [mkUpdateEvent (js "a.txt") [] [] None [] None None 0 [] None None;
     mkUpdateEvent (js "b.txt") [] [] (Some (js "7")) [] None None 0 [] None None]
  = js "Update 2 EasyList files" ++ [10; 10] ++ js "- a.txt" ++ [10] ++ js "- b.txt (v7)".
Proof.
  repeat split.
  - intros e v Hv Hne. unfold generateCommitMessage. rewrite Hv.
    destruct v; [done | reflexivity].
  - intros e Hv. unfold generateCommitMessage. rewrite Hv. cbn [truthy].
    by rewrite app_nil_r.
  - intros l Hl. unfold generateCommitMessage.
    destruct l as [|e [|e' l]]; [| by cbn in Hl |].
    + reflexivity.
    + do 5 f_equal. apply map_ext. intros x. do 2 f_equal.
      by destruct (ev_version x) as [[|]|].
Qed.

Lemma generateCommitMessage_format_witness :
  generateCommitMessage
    [mkUpdateEvent (js "a.txt") [] [] (Some (js "1.2")) [] None None 0 [] None None]
  = js "Update a.txt to v1.2" /\
  generateCommitMessage
    [mkUpdateEvent (js "a.txt") [] [] None [] None None 0 [] None None]
  = js "Update a.txt" /\
  generateCommitMessage [] = js "Update 0 EasyList files" ++ [10; 10].
Proof.
  destruct generateCommitMessage_format as (one & bare & many & _).
  split; [|split].
  - exact (one (mkUpdateEvent (js "a.txt") [] [] (Some (js "1.2")) [] None None 0 []
                  None None) (js "1.2") eq_refl ltac:(discriminate)).
  - exact (bare (mkUpdateEvent (js "a.txt") [] [] None [] None None 0 [] None None)
             eq_refl).
  - exact (many [] ltac:(discriminate)).
Defined.

(** C9. Whenever an iteration records an update, the [size] of the update
    event and of the new metadata entry is the [length] of the fetched
    content, its number of UTF-16 code units; for content within ASCII that
    is also the number of bytes of its UTF-8 form, which is what the list
    file holds. *)
Theorem recorded_size_is_content_length (h : Host)
    (currentHashes : gmap jsstring jsstring) (currentMetadata : gmap jsstring Metadata)
    (filename url : jsstring) (s s' : State) (ev : UpdateEvent) :
  checkOne h currentHashes currentMetadata (filename, url) s = (Returned tt, s') ->
  updatedLists s' = updatedLists s ++ [ev] ->
  exists status statusText get content md,
    fetch h url = Response true status statusText get content /\
    ev_filename ev = filename /\
    ev_size ev = length content /\
    newMetadata s' !! filename = Some md /\ md_size md = length content /\
    list_files (disk s') !! filename = Some content /\
    (Forall (fun c => c < 128) content -> length (utf8 content) = length content).
Proof.
  intros R U.
  destruct (checkOne_effect h currentHashes currentMetadata filename url s)
    as (s'' & R' & _ & E).
  rewrite R in R'. injection R' as <-.
  destruct E as [_ _ _ Hu | om n _ _ _ _ _ Hu
                | st stt get content ev' md F Hf _ _ Hs Hms Hl _ Hm Hu].
  1,2: rewrite Hu in U; apply (f_equal length) in U; rewrite length_app in U;
       cbn in U; lia.
  rewrite Hu in U. apply app_inj_tail in U as [_ <-].
  exists st, stt, get, content, md. repeat split; try done.
  - rewrite Hm. apply lookup_insert_eq.
  - rewrite Hl. apply lookup_insert_eq.
  - apply utf8_ascii_length.
Qed.

Lemma recorded_size_is_content_length_witness :
  exists status statusText get content md,
    fetch host easylist_url = Response true status statusText get content /\
    ev_filename
      (mkUpdateEvent easylist_txt easylist_url (calculateHash easylist_body)
         (Some (js "202611030410")) (js "2026-11-03T05:00:00.000Z")
         (Some (js "Tue, 03 Nov 2026 03:00:00 GMT")) (Some (js "W/abc")) 115
         (js "content hash changed") (Some (js "4 days")) (Some (-3000000)))
      = easylist_txt /\
    115%nat = length content /\
    newMetadata (snd (checkOne host ∅ ∅ (easylist_txt, easylist_url)
                        (loaded host empty_disk))) !! easylist_txt = Some md /\
    md_size md = length content /\
    list_files (disk (snd (checkOne host ∅ ∅ (easylist_txt, easylist_url)
                             (loaded host empty_disk)))) !! easylist_txt = Some content /\
    (Forall (fun c => c < 128) content -> length (utf8 content) = length content).
Proof.
  apply (recorded_size_is_content_length host ∅ ∅ easylist_txt easylist_url
           (loaded host empty_disk)
           (snd (checkOne host ∅ ∅ (easylist_txt, easylist_url) (loaded host empty_disk)))
           (mkUpdateEvent easylist_txt easylist_url (calculateHash easylist_body)
              (Some (js "202611030410")) (js "2026-11-03T05:00:00.000Z")
              (Some (js "Tue, 03 Nov 2026 03:00:00 GMT")) (Some (js "W/abc")) 115
              (js "content hash changed") (Some (js "4 days")) (Some (-3000000)))).
  - vm_compute. reflexivity.
  - vm_compute. reflexivity.
Defined.

(** C9 with [size] read as a number of bytes fails on content outside ASCII:
    a body of the one character U+00E9 is recorded with size 1 and is two
    bytes long. *)
Lemma recorded_size_is_not_the_byte_count :
  let s' := snd (checkForUpdates accented_host (boot empty_disk)) in
  map ev_size (updatedLists s') = [1%nat] /\
  md_size <$> (newMetadata s' !! easylist_txt) = Some 1%nat /\
  list_files (disk s') !! easylist_txt = Some accented_body /\
  utf8 accented_body = [195; 169] /\
  ~ Forall (fun ev => ev_size ev = length (utf8 accented_body)) (updatedLists s').
Proof.
  cbv zeta. repeat split; try (vm_compute; reflexivity).
  intros H.
  assert (E : map ev_size (updatedLists (snd (checkForUpdates accented_host (boot empty_disk))))
              = [1%nat]) by (vm_compute; reflexivity).
  destruct (updatedLists _) as [|ev [|]]; try discriminate E.
  apply Forall_cons_1 in H as [H _]. injection E as E. rewrite E in H. discriminate H.
Qed.

(** C10. The hash map starts as the loaded hash record, and the entry of a
    resource that the cycle does not report as updated is, after the cycle,
    what it was before, in memory and on disk. *)
Theorem unreported_hash_entries_are_kept (h : Host) (d : Disk) (filename : jsstring) :
  let s' := snd (checkForUpdates h (boot d)) in
  filename ∉ map ev_filename (updatedLists s') ->
  newHashes (loaded h d) = default ∅ (hashes_json d) /\
  newHashes s' !! filename = (default ∅ (hashes_json d)) !! filename /\
  (default ∅ (hashes_json (disk s'))) !! filename = (default ∅ (hashes_json d)) !! filename.
Proof.
  cbv zeta. destruct (checkForUpdates_cycle h d) as (s1 & o & s' & R & R1 & L & S).
  rewrite R. cbn [snd]. intros Hf.
  destruct L as (_ & LH & _ & _ & (new & U & _ & K) & _).
  destruct S as (SH & _ & SU & _ & _ & DH & _).
  rewrite SU, U in Hf. cbn [loaded updatedLists app] in Hf.
  specialize (K filename Hf). cbn [loaded newHashes] in K.
  split; [reflexivity|]. split.
  - by rewrite SH.
  - destruct DH as [-> | [_ ->]]; [by rewrite LH | done].
Qed.

Lemma unreported_hash_entries_are_kept_witness :
  let d := disk_checked_at "2026-11-02T12:00:00.000Z" in
  let s' := snd (checkForUpdates host (boot d)) in
  newHashes (loaded host d) = default ∅ (hashes_json d) /\
  newHashes s' !! easylist_txt = (default ∅ (hashes_json d)) !! easylist_txt /\
  (default ∅ (hashes_json (disk s'))) !! easylist_txt
    = (default ∅ (hashes_json d)) !! easylist_txt.
Proof.
  cbv zeta.
  apply (unreported_hash_entries_are_kept host
           (disk_checked_at "2026-11-02T12:00:00.000Z") easylist_txt).
  compute_done.
Defined.

(** ** Further properties of the code *)

(** *** Lines and header fields *)

Lemma lines_nonempty (s : jsstring) : lines s <> [].
Proof.
  induction s as [|c s IH]; cbn [lines]; [done|].
  destruct (line_terminator c); [done|]. by destruct (lines s).
Qed.

Lemma lines_app_terminator (a b : jsstring) (lt : Z) :
  line_terminator lt = true -> lines (a ++ lt :: b) = lines a ++ lines b.
Proof.
  intros Hlt. induction a as [|c a IH]; cbn [app lines].
  - by rewrite Hlt.
  - rewrite IH. destruct (line_terminator c); [reflexivity|].
    pose proof (lines_nonempty a). by destruct (lines a) as [|l ls].
Qed.

Lemma first_capture_app (p : jsstring) (ls ls' : list jsstring) :
  first_capture p (ls ++ ls') =
  match first_capture p ls with
  | Some v => Some v
  | None => first_capture p ls'
  end.
Proof.
  induction ls as [|l ls IH]; [reflexivity|]. cbn [app first_capture].
  destruct (strip_prefix p l) as [[|c v]|]; try exact IH. reflexivity.
Qed.

Lemma match_line_app (p : string) (a b : jsstring) (lt : Z) :
  line_terminator lt = true ->
  match_line p (a ++ lt :: b) =
  match match_line p a with
  | Some v => Some v
  | None => match_line p b
  end.
Proof.
  intros Hlt. unfold match_line. by rewrite lines_app_terminator, first_capture_app.
Qed.

Lemma lines_no_terminator (s : jsstring) :
  Forall (Forall (fun c => line_terminator c = false)) (lines s).
Proof.
  induction s as [|c s IH]; cbn [lines]; [by repeat constructor|].
  destruct (line_terminator c) eqn:Hc; [by constructor|].
  destruct (lines s) as [|l ls]; [by repeat constructor|].
  apply Forall_cons in IH as [Hl Hls]. by repeat constructor.
Qed.

Lemma lines_one (s : jsstring) :
  Forall (fun c => line_terminator c = false) s -> lines s = [s].
Proof.
  induction 1 as [|c s Hc _ IH]; [reflexivity|]. cbn [lines]. by rewrite Hc, IH.
Qed.

Lemma strip_prefix_suffix (p l r : jsstring) :
  strip_prefix p l = Some r -> exists q, l = q ++ r.
Proof.
  revert l. induction p as [|a p IH]; intros l; cbn [strip_prefix].
  - intros [= ->]. by exists [].
  - destruct l as [|b l]; [done|]. destruct (a =? b); [|done].
    intros E. destruct (IH l E) as [q ->]. by exists (b :: q).
Qed.

Lemma strip_prefix_app (p v : jsstring) : strip_prefix p (p ++ v) = Some v.
Proof. induction p as [|a p IH]; [reflexivity|]. cbn. by rewrite Z.eqb_refl. Qed.

Lemma match_line_value (p : string) (content v : jsstring) :
  match_line p content = Some v ->
  v <> [] /\ Forall (fun c => line_terminator c = false) v.
Proof.
  unfold match_line. pose proof (lines_no_terminator content) as H.
  induction H as [|l ls Hl _ IH]; cbn [first_capture]; [done|].
  destruct (strip_prefix (js p) l) as [[|c r]|] eqn:E; try exact IH.
  intros [= <-]. split; [done|].
  destruct (strip_prefix_suffix _ _ _ E) as [q ->]. by apply Forall_app in Hl as [_ ?].
Qed.

(** X1. [extractVersion] reads the header line by line and the first line
    that carries a field wins: the fields of two texts joined by a line
    terminator are those of the first text, and those of the second where the
    first has none. *)
Theorem extractVersion_first_line_wins (a b : jsstring) (lt : Z) :
  line_terminator lt = true ->
  let first {A} (x y : option A) := match x with Some v => Some v | None => y end in
  extractVersion (a ++ lt :: b) =
  mkVersionInfo
    (first (vi_version (extractVersion a)) (vi_version (extractVersion b)))
    (first (vi_lastModified (extractVersion a)) (vi_lastModified (extractVersion b)))
    (first (vi_expires (extractVersion a)) (vi_expires (extractVersion b))).
Proof.
  intros Hlt. cbv zeta. unfold extractVersion. cbn [vi_version vi_lastModified vi_expires].
  by rewrite !match_line_app.
Qed.

Lemma extractVersion_first_line_wins_witness :
  extractVersion (js "! Version: 1" ++ 10 :: js "! Version: 2" ++ 10 :: js "! Expires: 4 days")
  = mkVersionInfo (Some (js "1")) None (Some (js "4 days")).
Proof.
  rewrite (extractVersion_first_line_wins (js "! Version: 1")
             (js "! Version: 2" ++ 10 :: js "! Expires: 4 days") 10 eq_refl).
  vm_compute. reflexivity.
Defined.

(** X2. A field that [extractVersion] finds is never the empty string and
    holds no line terminator, so it is truthy and fits on one line. *)
Theorem extractVersion_fields_are_one_line (content v : jsstring) :
  vi_version (extractVersion content) = Some v \/
  vi_lastModified (extractVersion content) = Some v \/
  vi_expires (extractVersion content) = Some v ->
  v <> [] /\ Forall (fun c => line_terminator c = false) v /\ truthy (Some v) = true.
Proof.
  intros H.
  assert (E : exists p, match_line p content = Some v).
  { destruct H as [H | [H | H]];
      [exists "! Version: "%string | exists "! Last modified: "%string
      | exists "! Expires: "%string]; exact H. }
  destruct E as [p E]. destruct (match_line_value p content v E) as [Hne Hv].
  repeat split; try done. by destruct v.
Qed.

Lemma extractVersion_fields_are_one_line_witness :
  js "202611030410" <> [] /\
  Forall (fun c => line_terminator c = false) (js "202611030410") /\
  truthy (Some (js "202611030410")) = true.
Proof.
  apply (extractVersion_fields_are_one_line Sample.easylist_body (js "202611030410")).
  left. vm_compute. reflexivity.
Defined.

(** X3. A header written as three lines is read back: [extractVersion] on
    "! Version: v", "! Last modified: m", "! Expires: e" followed by anything
    gives [v], [m] and [e], for values that are not empty and hold no line
    terminator. *)
Theorem extractVersion_reads_back_header (v m e rest : jsstring) :
  v <> [] -> m <> [] -> e <> [] ->
  Forall (fun c => line_terminator c = false) (v ++ m ++ e) ->
  extractVersion (js "! Version: " ++ v ++ 10 ::
                  js "! Last modified: " ++ m ++ 10 ::
                  js "! Expires: " ++ e ++ 10 :: rest)
  = mkVersionInfo (Some v) (Some m) (Some e).
Proof.
  intros Hv Hm He H. apply Forall_app in H as [Fv H]. apply Forall_app in H as [Fm Fe].
  assert (One : forall (p : string) (l : jsstring),
            Forall (fun c => line_terminator c = false) l ->
            match_line p l = match strip_prefix (js p) l with
                             | Some (c :: r) => Some (c :: r)
                             | _ => None
                             end).
  { intros p l Fl. unfold match_line. rewrite lines_one by done.
    cbn [first_capture]. by destruct (strip_prefix _ _) as [[|]|]. }
  assert (Fp : Forall (fun c => line_terminator c = false)
                 (js "! Version: " ++ js "! Last modified: " ++ js "! Expires: "))
    by compute_done.
  apply Forall_app in Fp as [Fp1 Fp]. apply Forall_app in Fp as [Fp2 Fp3].
  unfold extractVersion.
  rewrite !(app_assoc (js _) _ (10 :: _)).
  rewrite !(match_line_app _ (js "! Version: " ++ v)) by reflexivity.
  rewrite !(match_line_app _ (js "! Last modified: " ++ m)) by reflexivity.
  rewrite !(match_line_app _ (js "! Expires: " ++ e)) by reflexivity.
  rewrite !(One _ (js "! Version: " ++ v)) by (by apply Forall_app).
  rewrite !(One _ (js "! Last modified: " ++ m)) by (by apply Forall_app).
  rewrite !(One _ (js "! Expires: " ++ e)) by (by apply Forall_app).
  rewrite !strip_prefix_app.
  destruct v as [|cv v]; [done|]. destruct m as [|cm m]; [done|].
  destruct e as [|ce e]; [done|]. reflexivity.
Qed.

Lemma extractVersion_reads_back_header_witness :
  extractVersion (js "! Version: " ++ js "7" ++ 10 ::
                  js "! Last modified: " ++ js "03 Nov 2026 05:00 UTC" ++ 10 ::
                  js "! Expires: " ++ js "4 days" ++ 10 :: js "||ads.example^")
  = mkVersionInfo (Some (js "7")) (Some (js "03 Nov 2026 05:00 UTC")) (Some (js "4 days")).
Proof.
  apply (extractVersion_reads_back_header (js "7") (js "03 Nov 2026 05:00 UTC")
           (js "4 days") (js "||ads.example^")); try discriminate.
  compute_done.
Defined.

(** *** Hashes, sizes and the change detection *)

Lemma hex_digit_range (d : Z) :
  0 <= d < 16 -> 48 <= hex_digit d <= 57 \/ 97 <= hex_digit d <= 102.
Proof. intros Hd. unfold hex_digit. destruct (Z.ltb_spec d 10); lia. Qed.

Lemma hex_word_digits (x : Z) :
  Forall (fun c => 48 <= c <= 57 \/ 97 <= c <= 102) (hex_word x).
Proof.
  unfold hex_word.
  repeat (apply Forall_cons_2; [apply hex_digit_range; apply Z.mod_pos_bound; lia|]).
  constructor.
Qed.

(** X4. Whatever the content, [calculateHash] gives sixty-four characters
    that are digits or lower-case letters from a to f: never an empty or
    falsy string, so that a stored hash always passes the test [!oldHash]. *)
Theorem calculateHash_is_lowercase_hex (content : jsstring) :
  length (calculateHash content) = 64%nat /\
  Forall (fun c => 48 <= c <= 57 \/ 97 <= c <= 102) (calculateHash content) /\
  truthy (Some (calculateHash content)) = true.
Proof.
  split; [apply calculateHash_length|]. split; [|apply calculateHash_truthy].
  unfold calculateHash, sha256_hex, hex.
  repeat (apply Forall_app_2; [apply hex_word_digits|]). apply hex_word_digits.
Qed.

Lemma utf8_code_point_length (c : Z) :
  (1 <= length (utf8_code_point c) <= 4)%nat /\
  (c < 65536 -> (length (utf8_code_point c) <= 3)%nat).
Proof.
  unfold utf8_code_point.
  destruct (Z.ltb_spec c 128); [cbn; lia|]. destruct (Z.ltb_spec c 2048); [cbn; lia|].
  destruct (Z.ltb_spec c 65536); cbn; lia.
Qed.

Lemma utf8_length_bounds_upto (n : nat) (s : jsstring) :
  (length s <= n)%nat -> Forall (fun c => c < 65536) s ->
  (length s <= length (utf8 s) <= 3 * length s)%nat.
Proof.
  revert s. induction n as [|n IH]; intros s Hn Hs.
  { destruct s; cbn [length utf8] in *; lia. }
  destruct s as [|c s]; [cbn [length utf8]; lia|].
  apply Forall_cons in Hs as [Hc Hs]. cbn [length] in Hn.
  assert (Tail : (length s <= length (utf8 s) <= 3 * length s)%nat)
    by (apply IH; [lia | done]).
  assert (P3 : length (utf8_code_point 65533) = 3%nat) by reflexivity.
  destruct (utf8_code_point_length c) as [C1 C2]. specialize (C2 Hc).
  cbn [utf8]. destruct (high_surrogate c) eqn:Hh.
  - destruct s as [|d s]; [rewrite P3; cbn [length]; lia|].
    apply Forall_cons in Hs as [Hd Hs].
    destruct (low_surrogate d) eqn:Hl.
    + assert (Tail2 : (length s <= length (utf8 s) <= 3 * length s)%nat)
        by (apply IH; [cbn [length] in Hn; lia | done]).
      assert (Four : length (utf8_code_point
                               (65536 + (c - 55296) * 1024 + (d - 56320))) = 4%nat).
      { unfold high_surrogate, low_surrogate in Hh, Hl.
        apply andb_true_iff in Hh as [Hh _]. apply andb_true_iff in Hl as [Hl _].
        apply Z.leb_le in Hh, Hl. unfold utf8_code_point.
        destruct (Z.ltb_spec (65536 + (c - 55296) * 1024 + (d - 56320)) 128); [lia|].
        destruct (Z.ltb_spec (65536 + (c - 55296) * 1024 + (d - 56320)) 2048); [lia|].
        destruct (Z.ltb_spec (65536 + (c - 55296) * 1024 + (d - 56320)) 65536); [lia|].
        reflexivity. }
      rewrite length_app, Four. cbn [length]. lia.
    + rewrite length_app, P3. cbn [length] in *. lia.
  - destruct (low_surrogate c); rewrite length_app, ?P3; cbn [length]; lia.
Qed.

(** X5. The [size] that an iteration records, in the update event and in
    the metadata entry, is the number of UTF-16 code units of the content it
    stored, and the list file holds the UTF-8 form of that content: the file
    written is at least [size] and at most three times [size] bytes long. *)
Theorem recorded_size_bounds_the_file (h : Host)
    (currentHashes : gmap jsstring jsstring) (currentMetadata : gmap jsstring Metadata)
    (filename url : jsstring) (s s' : State) (ev : UpdateEvent) :
  checkOne h currentHashes currentMetadata (filename, url) s = (Returned tt, s') ->
  updatedLists s' = updatedLists s ++ [ev] ->
  exists content md,
    list_files (disk s') !! filename = Some content /\
    newMetadata s' !! filename = Some md /\
    md_size md = ev_size ev /\ ev_size ev = length content /\
    (Forall (fun c => c < 65536) content ->
     (ev_size ev <= length (utf8 content) <= 3 * ev_size ev)%nat).
Proof.
  intros R U.
  destruct (checkOne_step h currentHashes currentMetadata filename url s) as (s'' & R' & St).
  rewrite R in R'. injection R' as <-.
  destruct (Step_updates _ _ _ _ _ _ _ St)
    as [(U' & _) | (ev' & content & U' & Hf & Rec & _ & _ & Hl)].
  { rewrite U' in U. apply (f_equal length) in U. rewrite length_app in U.
    cbn [length] in U. lia. }
  rewrite U' in U. apply app_inj_tail in U as [_ ->].
  destruct Rec as (_ & content' & md & Hl' & _ & Hs & Hm & _ & _ & _ & Hms & _).
  rewrite Hf in Hl', Hm. exists content', md.
  split; [exact Hl'|]. split; [exact Hm|]. split; [congruence|]. split; [exact Hs|].
  intros Hc. rewrite Hs. by apply (utf8_length_bounds_upto (length content')).
Qed.

Lemma recorded_size_bounds_the_file_witness :
  let s := loaded accented_host empty_disk in
  let s' := snd (checkOne accented_host ∅ ∅ (easylist_txt, easylist_url) s) in
  exists content md,
    list_files (disk s') !! easylist_txt = Some content /\
    newMetadata s' !! easylist_txt = Some md /\
    md_size md = 1%nat /\ 1%nat = length content /\
    (Forall (fun c => c < 65536) content ->
     (1 <= length (utf8 content) <= 3 * 1)%nat).
Proof.
  cbv zeta.
  apply (recorded_size_bounds_the_file accented_host ∅ ∅ easylist_txt easylist_url
           (loaded accented_host empty_disk)
           (snd (checkOne accented_host ∅ ∅ (easylist_txt, easylist_url)
                   (loaded accented_host empty_disk)))
           (mkUpdateEvent easylist_txt easylist_url (calculateHash accented_body) None
              (iso_string T0) None None 1 (js "content hash changed") None (Some 0))).
  - vm_compute. reflexivity.
  - vm_compute. reflexivity.
Defined.

(** X6. The flag and the reason of the change detection agree: [hasChanged]
    is true exactly when [changeReason] is not empty, the reason is one of
    the seven ways of joining the three fragments in their fixed order, and
    a hash that differs from the stored one always counts as a change. *)
Theorem detectChange_reason_matches_flag (h : Host) (oldHash : option jsstring)
    (newHash : jsstring) (oldMetadata : option Metadata) (lastModified : Date)
    (etag : option jsstring) :
  let r := detectChange h oldHash newHash oldMetadata lastModified etag in
  (fst r = true <-> snd r <> []) /\
  (fst r = false -> oldHash = Some newHash) /\
  snd r ∈ [[]; js "content hash changed"; js "timestamp newer"; js "ETag changed";
           js "content hash changed and timestamp newer";
           js "content hash changed and ETag changed";
           js "timestamp newer and ETag changed";
           js "content hash changed and timestamp newer and ETag changed"].
Proof.
  cbv zeta. unfold detectChange.
  destruct (bool_decide (oldHash = Some newHash)) eqn:Hh;
    [apply bool_decide_eq_true_1 in Hh | clear Hh];
    (destruct oldMetadata as [[[[|c s]|] [[|c' s']|] ve lc sz]|];
       cbn [md_lastModified md_etag]);
    destruct etag as [[|c'' s'']|];
    repeat first
      [ match goal with
        | |- context [if date_gt ?a ?b then _ else _] => destruct (date_gt a b)
        | |- context [if bool_decide ?P then _ else _] => destruct (bool_decide P)
        end
      | progress cbn [fst snd] ];
    (split; [split; [done || discriminate | done] |]);
    (split; [done || discriminate |]);
    compute_done.
Qed.

(** *** The effective time *)

(** X7. [parseLastModified] never throws and changes nothing; it reads the
    clock exactly when there is neither a truthy header nor a
    [Last modified] line.  Its result is an Invalid Date exactly when the
    line is there and does not parse, or the line is missing and the header
    is there and does not parse: a header that parses never makes up for a
    line that does not. *)
Theorem parseLastModified_invalid_exactly (h : Host) (header : option jsstring)
    (content : jsstring) (s : State) :
  let line := match_line "! Last modified: " content in
  exists lm,
    parseLastModified h header content s =
      (Returned lm,
       if truthy header || bool_decide (is_Some line) then s else advance 1 s) /\
    (truthy header || bool_decide (is_Some line) = false ->
     lm = Some (clock h (ticks s))) /\
    (lm = None <->
     match line with
     | Some v => parse_date h v = None
     | None => exists c hv, header = Some (c :: hv) /\ parse_date h (c :: hv) = None
     end).
Proof.
  cbv zeta. unfold parseLastModified. destruct s as [d n tr hs ms ul].
  destruct header as [[|c hv]|]; cbn [truthy orb];
    destruct (match_line "! Last modified: " content) as [v|];
    cbn [bool_decide decide_rel is_Some_dec orb]; run.
  all: eexists; split; [reflexivity|]; split; [try done|].
  - done.
  - split; [done | by intros (? & ? & ? & ?)].
  - destruct (parse_date h (c :: hv)) as [t|] eqn:Eh, (parse_date h v) as [t'|];
      cbn [date_gt]; try destruct (t' <? t);
      (split; [done || discriminate | done || discriminate]).
  - split; [intros E; by exists c, hv | ].
    intros (? & ? & E & ?). injection E as -> ->. done.
  - done.
  - split; [done | by intros (? & ? & ? & ?)].
Qed.

(** *** One iteration of the loop *)

(** X8. An iteration asks for its URL once, or not at all; it does not ask
    exactly when the entry of the file has a truthy [lastChecked] that parses
    to a time less than ninety minutes before the clock.  At ninety minutes
    the list is fetched again, and so it is under a [lastChecked] that does
    not parse. *)
Theorem checkOne_fetches_unless_checked_recently (h : Host)
    (currentHashes : gmap jsstring jsstring) (currentMetadata : gmap jsstring Metadata)
    (filename url : jsstring) (s : State) :
  exists s' evs,
    checkOne h currentHashes currentMetadata (filename, url) s = (Returned tt, s') /\
    trace s' = trace s ++ evs /\
    (fetched evs = [] \/ fetched evs = [url]) /\
    (fetched evs = [] <->
     exists om c lc t,
       currentMetadata !! filename = Some om /\ md_lastChecked om = Some (c :: lc) /\
       parse_date h (c :: lc) = Some t /\ clock h (ticks s) - t < 90 * 60000).
Proof.
  destruct (checkOne_step h currentHashes currentMetadata filename url s) as (s' & R & St).
  destruct (Step_trace _ _ _ _ _ _ _ St) as (evs & Tr & _ & Fe).
  exists s', evs. split; [exact R|]. split; [exact Tr|].
  rewrite <- throttled_spec.
  destruct Fe as [[-> T] | [-> T]]; (split; [auto|]); rewrite T; split; done.
Qed.

Lemma parseLastModified_unparsable_line (h : Host) (header : option jsstring)
    (content v : jsstring) (s : State) :
  match_line "! Last modified: " content = Some v -> parse_date h v = None ->
  fst (parseLastModified h header content s) = Returned None.
Proof.
  intros L P. unfold parseLastModified. rewrite L, P.
  destruct header as [[|c hv]|]; try reflexivity.
  by destruct (parse_date h (c :: hv)).
Qed.

(** X9. A list whose [Last modified] line does not parse is never stored,
    whatever its headers: the iteration leaves the disk, the hash map and the
    list of updates as they were.  On a first sight of the file, with no hash
    and no metadata entry, the iteration ends in the [catch] on the Invalid
    Date, and since no [lastChecked] is recorded either, every later cycle
    fetches the list again. *)
Theorem unparsable_date_is_never_recorded (h : Host)
    (currentHashes : gmap jsstring jsstring) (currentMetadata : gmap jsstring Metadata)
    (filename url : jsstring) (status : Z) (statusText : jsstring)
    (get : jsstring -> option jsstring) (content v : jsstring) (s : State) :
  fetch h url = Response true status statusText get content ->
  match_line "! Last modified: " content = Some v ->
  parse_date h v = None ->
  exists s' evs,
    checkOne h currentHashes currentMetadata (filename, url) s = (Returned tt, s') /\
    trace s' = trace s ++ evs /\
    disk s' = disk s /\ newHashes s' = newHashes s /\ updatedLists s' = updatedLists s /\
    (currentHashes !! filename = None -> currentMetadata !! filename = None ->
     newMetadata s' = newMetadata s /\ fetched evs = [url] /\
     Log (LogErrorProcessing filename InvalidTimeValue) ∈ evs).
Proof.
  intros F L P.
  destruct (checkOne_step h currentHashes currentMetadata filename url s) as (s' & R & St).
  exists s'.
  destruct St as [since T -> | e T Fe ->
    | st stt get' content' sx lm e evs T F' Tx Px B Ca D H M U Tr Fev Ou Sl Ex In Ti
    | st stt get' content' sx lm evs T F' Tx Px B D H M U Tr Fev Ou Sl Ex Ti
    | st stt get' content' sx t n age evs T F' Tx Px B W Hn D H M U Tr Fev Ou Sl Ex].
  - eexists. split; [exact R|]. split; [reflexivity|]. do 3 (split; [reflexivity|]).
    intros _ Hm. unfold throttled in T. by rewrite Hm in T.
  - by rewrite F in Fe.
  - exists evs. split; [exact R|]. do 4 (split; [done|]).
    intros _ _. split; [done|]. split; [done|].
    rewrite F in F'. injection F' as <- <- <- <-.
    rewrite (parseLastModified_unparsable_line h _ content v sx L P) in Px.
    injection Px as <-. destruct Ca as [[_ ->] | [[? [=]] _]]. exact In.
  - exists evs. split; [exact R|]. do 4 (split; [done|]).
    intros Hh _. rewrite Hh in B. cbn [truthy negb] in B. by rewrite orb_true_r in B.
  - rewrite F in F'. injection F' as <- <- <- <-.
    rewrite (parseLastModified_unparsable_line h _ content v sx L P) in Px. discriminate Px.
Qed.

Lemma unparsable_date_is_never_recorded_witness :
  exists s' evs,
    checkOne undated_host ∅ ∅ (easylist_txt, easylist_url) (loaded undated_host empty_disk)
      = (Returned tt, s') /\
    trace s' = trace (loaded undated_host empty_disk) ++ evs /\
    disk s' = empty_disk /\ newHashes s' = ∅ /\ updatedLists s' = [] /\
    ((∅ : gmap jsstring jsstring) !! easylist_txt = None ->
     (∅ : gmap jsstring Metadata) !! easylist_txt = None ->
     newMetadata s' = ∅ /\ fetched evs = [easylist_url] /\
     Log (LogErrorProcessing easylist_txt InvalidTimeValue) ∈ evs).
Proof.
  apply (unparsable_date_is_never_recorded undated_host ∅ ∅ easylist_txt easylist_url
           200 (js "OK") easylist_headers undated_body (js "soon")
           (loaded undated_host empty_disk)).
  - reflexivity.
  - vm_compute. reflexivity.
  - vm_compute. reflexivity.
Defined.

(** X10. An update is pushed, and its hash kept, only after its list file has
    been written: when the file cannot be written the iteration records
    nothing, and the metadata entry is untouched or only gets a new
    [lastChecked]. *)
Theorem unwritable_list_file_is_never_recorded (h : Host)
    (currentHashes : gmap jsstring jsstring) (currentMetadata : gmap jsstring Metadata)
    (filename url : jsstring) (s : State) :
  writable h (ListFile filename) = false ->
  exists s',
    checkOne h currentHashes currentMetadata (filename, url) s = (Returned tt, s') /\
    updatedLists s' = updatedLists s /\ newHashes s' = newHashes s /\
    (newMetadata s' = newMetadata s \/
     exists om n,
       currentMetadata !! filename = Some om /\
       newMetadata s' =
         <[filename := with_lastChecked om (iso_string (clock h n))]> (newMetadata s)).
Proof.
  intros W.
  destruct (checkOne_step h currentHashes currentMetadata filename url s) as (s' & R & St).
  exists s'. split; [exact R|].
  destruct St as [since T -> | e T Fe ->
    | st stt get' content' sx lm e evs T F' Tx Px B Ca D H M U Tr Fev Ou Sl Ex In Ti
    | st stt get' content' sx lm evs T F' Tx Px B D H M U Tr Fev Ou Sl Ex Ti
    | st stt get' content' sx t n age evs T F' Tx Px B W' Hn D H M U Tr Fev Ou Sl Ex].
  - by repeat split; try left.
  - by repeat split; try left.
  - split; [done|]. split; [done|]. by left.
  - split; [done|]. split; [done|].
    destruct (currentMetadata !! filename) as [om|]; [|by left].
    destruct M as (n & _ & M). right. by exists om, n.
  - congruence.
Qed.

Lemma unwritable_list_file_is_never_recorded_witness :
  exists s',
    checkOne readonly_lists_host ∅ ∅ (easylist_txt, easylist_url)
      (loaded readonly_lists_host empty_disk) = (Returned tt, s') /\
    updatedLists s' = [] /\ newHashes s' = ∅ /\
    (newMetadata s' = ∅ \/
     exists om n,
       (∅ : gmap jsstring Metadata) !! easylist_txt = Some om /\
       newMetadata s' =
         <[easylist_txt := with_lastChecked om (iso_string (clock readonly_lists_host n))]> ∅).
Proof.
  apply (unwritable_list_file_is_never_recorded readonly_lists_host ∅ ∅ easylist_txt
           easylist_url (loaded readonly_lists_host empty_disk)).
  reflexivity.
Defined.

(** X11. What the monitor is for: when the file was not checked in the last
    ninety minutes (here: it has no metadata entry), the fetch succeeds, the
    body differs from the stored hash, its [Last modified] line parses and
    the list file can be written, the iteration stores the body, keeps its
    hash and appends one update event for it: the event carries the hash and
    the length of the body, the version and expiry lines of the body and the
    two headers of the response, its reason begins with the words content
    hash changed, and its time is not before the time of the line. *)
Theorem changed_content_is_recorded (h : Host)
    (currentHashes : gmap jsstring jsstring) (currentMetadata : gmap jsstring Metadata)
    (filename url : jsstring) (status : Z) (statusText : jsstring)
    (get : jsstring -> option jsstring) (content v : jsstring) (tc : Z) (s : State) :
  currentMetadata !! filename = None ->
  fetch h url = Response true status statusText get content ->
  currentHashes !! filename <> Some (calculateHash content) ->
  match_line "! Last modified: " content = Some v ->
  parse_date h v = Some tc ->
  writable h (ListFile filename) = true ->
  exists s' ev t rest,
    checkOne h currentHashes currentMetadata (filename, url) s = (Returned tt, s') /\
    updatedLists s' = updatedLists s ++ [ev] /\
    ev_filename ev = filename /\ ev_url ev = url /\
    ev_hash ev = calculateHash content /\ ev_size ev = length content /\
    ev_version ev = match_line "! Version: " content /\
    ev_expires ev = match_line "! Expires: " content /\
    ev_serverLastModified ev = get (js "last-modified") /\ ev_etag ev = get (js "etag") /\
    ev_lastModified ev = iso_string t /\ tc <= t /\
    ev_changeReason ev = js "content hash changed" ++ rest /\
    list_files (disk s') = <[filename := content]> (list_files (disk s)) /\
    newHashes s' = <[filename := calculateHash content]> (newHashes s) /\
    (exists md, newMetadata s' = <[filename := md]> (newMetadata s) /\
                md_lastModified md = Some (iso_string t) /\
                md_version md = match_line "! Version: " content /\
                is_Some (md_lastChecked md)).
Proof.
  intros Hm F Hh L P W.
  destruct (checkOne_step h currentHashes currentMetadata filename url s) as (s' & R & St).
  assert (Pl : forall sx, exists t, tc <= t /\
            fst (parseLastModified h (get (js "last-modified")) content sx)
              = Returned (Some t)).
  { intros sx. unfold parseLastModified. rewrite L, P.
    destruct (get (js "last-modified")) as [[|c hv]|];
      try (exists tc; split; [lia | reflexivity]).
    destruct (parse_date h (c :: hv)) as [th|]; cbn [date_gt];
      [|exists tc; split; [lia | reflexivity]].
    destruct (Z.ltb_spec tc th); [exists th | exists tc]; (split; [lia | reflexivity]). }
  destruct St as [since T -> | e T Fe ->
    | st stt get' content' sx lm e evs T F' Tx Px B Ca D H M U Tr Fev Ou Sl Ex In Ti
    | st stt get' content' sx lm evs T F' Tx Px B D H M U Tr Fev Ou Sl Ex Ti
    | st stt get' content' sx t n age evs T F' Tx Px B W' Hn D H M U Tr Fev Ou Sl Ex].
  - unfold throttled in T. by rewrite Hm in T.
  - by rewrite F in Fe.
  - rewrite F in F'. injection F' as <- <- <- <-.
    destruct (Pl sx) as (t & _ & Pt). rewrite Pt in Px. injection Px as <-.
    destruct Ca as [[[=] _] | (_ & W' & _)]. congruence.
  - rewrite F in F'. injection F' as <- <- <- <-.
    destruct (detectChange_hash_differs h _ _ (currentMetadata !! filename) lm
                (get (js "etag")) Hh) as (rest & E).
    by rewrite E in B.
  - rewrite F in F'. injection F' as <- <- <- <-.
    destruct (Pl sx) as (t' & Ht & Pt). rewrite Pt in Px. injection Px as <-.
    destruct (detectChange_hash_differs h _ _ (currentMetadata !! filename) (Some t')
                (get (js "etag")) Hh) as (rest & E).
    eexists s', _, t', rest. split; [exact R|]. split; [exact U|].
    cbn [ev_filename ev_url ev_hash ev_size ev_version ev_expires ev_serverLastModified
         ev_etag ev_lastModified ev_changeReason].
    rewrite E. cbn [snd]. do 11 (split; [done|]).
    split; [by rewrite D|]. split; [exact H|].
    eexists. split; [exact M|]. cbn [md_lastModified md_version md_lastChecked]. eauto.
Qed.

Lemma changed_content_is_recorded_witness :
  exists s' ev t rest,
    checkOne host ∅ ∅ (easylist_txt, easylist_url) (loaded host empty_disk)
      = (Returned tt, s') /\
    updatedLists s' = updatedLists (loaded host empty_disk) ++ [ev] /\
    ev_filename ev = easylist_txt /\ ev_url ev = easylist_url /\
    ev_hash ev = calculateHash easylist_body /\ ev_size ev = length easylist_body /\
    ev_version ev = match_line "! Version: " easylist_body /\
    ev_expires ev = match_line "! Expires: " easylist_body /\
    ev_serverLastModified ev = easylist_headers (js "last-modified") /\
    ev_etag ev = easylist_headers (js "etag") /\
    ev_lastModified ev = iso_string t /\ 1793682000000 <= t /\
    ev_changeReason ev = js "content hash changed" ++ rest /\
    list_files (disk s') =
      <[easylist_txt := easylist_body]> (list_files (disk (loaded host empty_disk))) /\
    newHashes s' =
      <[easylist_txt := calculateHash easylist_body]> (newHashes (loaded host empty_disk)) /\
    (exists md, newMetadata s' = <[easylist_txt := md]> (newMetadata (loaded host empty_disk)) /\
                md_lastModified md = Some (iso_string t) /\
                md_version md = match_line "! Version: " easylist_body /\
                is_Some (md_lastChecked md)).
Proof.
  apply (changed_content_is_recorded host ∅ ∅ easylist_txt easylist_url 200 (js "OK")
           easylist_headers easylist_body (js "03 Nov 2026 05:00 UTC") 1793682000000
           (loaded host empty_disk)).
  - reflexivity.
  - reflexivity.
  - discriminate.
  - vm_compute. reflexivity.
  - vm_compute. reflexivity.
  - reflexivity.
Defined.

(** X12. The wait of one second is the last statement of the [try] block:
    when an iteration waits, the wait is its last event and its only wait, it
    follows the one request of the iteration, and no error was caught; an
    iteration that did not fetch or that ended in the [catch] does not wait,
    so that after a failed request the next request follows at once. *)
Theorem delay_follows_only_a_completed_check (h : Host)
    (currentHashes : gmap jsstring jsstring) (currentMetadata : gmap jsstring Metadata)
    (filename url : jsstring) (s : State) :
  exists s' evs,
    checkOne h currentHashes currentMetadata (filename, url) s = (Returned tt, s') /\
    trace s' = trace s ++ evs /\
    ((exists before,
        evs = before ++ [Sleep 1000] /\ sleeps before = [] /\ fetched before = [url] /\
        (forall e, Log (LogErrorProcessing filename e) ∉ before) /\
        fetch_error (fetch h url) = None) \/
     sleeps evs = [] /\
     (fetched evs = [] \/ exists e, Log (LogErrorProcessing filename e) ∈ evs)).
Proof.
  destruct (checkOne_step h currentHashes currentMetadata filename url s) as (s' & R & St).
  exists s'.
  destruct St as [since T -> | e T Fe ->
    | st stt get' content' sx lm e evs T F' Tx Px B Ca D H M U Tr Fev Ou Sl Ex In Ti
    | st stt get' content' sx lm evs T F' Tx Px B D H M U Tr Fev Ou Sl Ex Ti
    | st stt get' content' sx t n age evs T F' Tx Px B W' Hn D H M U Tr Fev Ou Sl Ex].
  - eexists. split; [exact R|]. split; [reflexivity|]. right. split; [reflexivity|].
    by left.
  - eexists. split; [exact R|]. split; [reflexivity|]. right. split; [reflexivity|].
    right. exists e. rewrite !elem_of_cons. auto 10.
  - exists evs. split; [exact R|]. split; [exact Tr|]. right. split; [exact Sl|].
    right. by exists e.
  - exists evs. split; [exact R|]. split; [exact Tr|]. left.
    destruct Ex as (age & ->).
    exists [Log (LogFetching filename); Fetch url; Log (LogUpToDate filename age)].
    split; [reflexivity|]. do 2 (split; [reflexivity|]). split; [|by rewrite F'].
    intros e. rewrite !not_elem_of_cons. repeat split; try discriminate.
    apply not_elem_of_nil.
  - exists evs. split; [exact R|]. split; [exact Tr|]. left.
    destruct Ex as (age0 & ->).
    eexists ([Log (LogFetching filename); Fetch url] ++ detection_lines _ _ _ ++
             record_lines _ _ _ ++ [WriteFile (ListFile filename)]).
    split; [by rewrite <- !app_assoc|]. do 2 (split; [reflexivity|]).
    split; [|by rewrite F'].
    intros e. unfold detection_lines, record_lines. cbn [app].
    rewrite !not_elem_of_cons. repeat split; try discriminate. apply not_elem_of_nil.
Qed.




(** *** A whole cycle *)

Lemma fetched_loaded (h : Host) (d : Disk) : fetched (trace (loaded h d)) = [].
Proof. unfold loaded. cbn [trace]. by destruct (mkdir_fails h), (hashes_json d). Qed.

Lemma outputs_loaded (h : Host) (d : Disk) name : outputs name (trace (loaded h d)) = [].
Proof. unfold loaded. cbn [trace]. by destruct (mkdir_fails h), (hashes_json d). Qed.

(** X14. A run of [main] asks for each tracked URL at most once and in the
    order of [EASYLIST_URLS], and for no other URL: a failed request is not
    tried again, and nothing is fetched before or after the loop. *)
Theorem main_requests_each_list_at_most_once (h : Host) (d : Disk) :
  sublist (fetched (trace (snd (main h (boot d))))) (map snd EASYLIST_URLS).
Proof.
  rewrite main_unfold.
  destruct (checkForUpdates_tour h d) as (s1 & _ & _ & ((evs & Tr & Sub & _) & _) & ->).
  rewrite saveAndReport_run.
  assert (E : fetched (trace s1) = fetched evs)
    by (by rewrite Tr, fetched_app, fetched_loaded).
  destruct s1 as [d1 n1 tr1 hs1 ms1 ul1]. simpl_state.
  destruct ul1 as [|ev ul1];
    repeat match goal with
           | |- context [if writable h ?p then _ else _] => destruct (writable h p)
           end;
    cbv zeta; cbn [hasUpdates]; destruct (GITHUB_ACTIONS h), (actions_core_fails h);
    cbn [andb]; simpl_state;
    rewrite !fetched_app, E; cbn [fetched omap list_omap app]; by rewrite ?app_nil_r.
Qed.

(** X15. The outputs of the workflow.  Outside GitHub Actions no output is
    set.  Inside, a run that exits with 1 sets none; a run that exits with 0
    sets each of the three outputs once: [updated_count] is the number of
    recorded updates, at most the number of tracked lists, [has_updates] is
    ["true"] exactly when that number is not zero, and [commit_message] is
    the generated message then and the empty string otherwise. *)
Theorem main_sets_consistent_outputs (h : Host) (d : Disk) :
  let s' := snd (main h (boot d)) in
  let updated := updatedLists s' in
  if GITHUB_ACTIONS h then
    fst (main h (boot d)) = Returned 1 /\
    (forall name, outputs name (trace s') = []) \/
    fst (main h (boot d)) = Returned 0 /\
    (length updated <= length EASYLIST_URLS)%nat /\
    outputs (js "updated_count") (trace s') = [decimal (length updated)] /\
    outputs (js "has_updates") (trace s') =
      [match updated with [] => js "false" | _ :: _ => js "true" end] /\
    outputs (js "commit_message") (trace s') =
      [match updated with [] => [] | _ :: _ => generateCommitMessage updated end]
  else forall name, outputs name (trace s') = [].
Proof.
  cbv zeta. rewrite main_unfold.
  destruct (checkForUpdates_tour h d)
    as (s1 & _ & _ & ((evs & Tr & _ & Ou) & (new & U & Sub & _) & _) & ->).
  rewrite saveAndReport_run.
  assert (E : forall name, outputs name (trace s1) = [])
    by (intros name; by rewrite Tr, outputs_app, outputs_loaded, Ou).
  assert (Len : (length (updatedLists s1) <= length EASYLIST_URLS)%nat).
  { rewrite U. cbn [loaded updatedLists app].
    apply sublist_length in Sub. by rewrite !length_map in Sub. }
  destruct s1 as [d1 n1 tr1 hs1 ms1 ul1]. simpl_state.
  destruct (GITHUB_ACTIONS h); destruct (actions_core_fails h); cbn [andb];
    destruct ul1 as [|ev ul1];
    repeat match goal with
           | |- context [if writable h ?p then _ else _] => destruct (writable h p)
           end;
    cbv zeta; cbn [hasUpdates res_updatedLists]; simpl_state;
    try (intros name; rewrite !outputs_app, E; reflexivity);
    try (left; split; [reflexivity|];
         intros name; rewrite !outputs_app, E; reflexivity);
    right; (split; [reflexivity|]); (split; [exact Len|]);
    rewrite !outputs_app, !E; (split; [|split]); reflexivity.
Qed.

(** X16. What a cycle reports is what it left on disk: for every update event
    of the result, [hashes.json] holds the event's hash for its file name,
    the list file holds a content with that hash and of the event's size,
    and [metadata.json] holds an entry with the event's time, ETag, version
    and size. *)
Theorem reported_updates_are_stored (h : Host) (d : Disk) (r : CheckResult) (s' : State) :
  checkForUpdates h (boot d) = (Returned r, s') ->
  Forall (fun ev =>
    exists hashes metadata content md,
      hashes_json (disk s') = Some hashes /\
      hashes !! ev_filename ev = Some (ev_hash ev) /\
      list_files (disk s') !! ev_filename ev = Some content /\
      calculateHash content = ev_hash ev /\ length content = ev_size ev /\
      metadata_json (disk s') = Some metadata /\
      metadata !! ev_filename ev = Some md /\
      md_lastModified md = Some (ev_lastModified ev) /\ md_etag md = ev_etag ev /\
      md_version md = ev_version ev /\ md_size md = ev_size ev /\
      is_Some (md_lastChecked md))
    (res_updatedLists r).
Proof.
  destruct (checkForUpdates_tour h d)
    as (s1 & _ & _ & (_ & (new & U & _ & Rec) & _) & ->).
  specialize (Rec (proj1 EASYLIST_URLS_NoDup)).
  cbn [loaded updatedLists app] in U. rewrite <- U in Rec.
  rewrite saveAndReport_run.
  destruct s1 as [d1 n1 tr1 hs1 ms1 ul1]. simpl_state.
  destruct ul1 as [|ev ul1];
    repeat match goal with
           | |- context [if writable h ?p then _ else _] => destruct (writable h p)
           end;
    cbv zeta; intros [= <- <-]; cbn [res_updatedLists]; [constructor|].
  eapply Forall_impl; [exact Rec|].
  intros e (Hh & content & md & Hl & Hc & Hs & Hm & H1 & H2 & H3 & H4 & n & _ & Hlc).
  simpl_state. cbn [disk hashes_json metadata_json list_files] in *.
  exists hs1, ms1, content, md. rewrite Hlc. repeat split; try done; congruence.
Qed.

Lemma reported_updates_are_stored_witness :
  exists r s',
    checkForUpdates host (boot empty_disk) = (Returned r, s') /\
    Forall (fun ev =>
      exists hashes metadata content md,
        hashes_json (disk s') = Some hashes /\
        hashes !! ev_filename ev = Some (ev_hash ev) /\
        list_files (disk s') !! ev_filename ev = Some content /\
        calculateHash content = ev_hash ev /\ length content = ev_size ev /\
        metadata_json (disk s') = Some metadata /\
        metadata !! ev_filename ev = Some md /\
        md_lastModified md = Some (ev_lastModified ev) /\ md_etag md = ev_etag ev /\
        md_version md = ev_version ev /\ md_size md = ev_size ev /\
        is_Some (md_lastChecked md))
      (res_updatedLists r) /\
    length (res_updatedLists r) = 1%nat.
Proof.
  eexists _, _. split; [vm_compute; reflexivity|]. split.
  - apply (reported_updates_are_stored host empty_disk). vm_compute. reflexivity.
  - reflexivity.
Defined.

(** X17. The update events of a result are for tracked file names, each at
    most once and in the order of [EASYLIST_URLS]. *)
Theorem reported_files_are_tracked_once (h : Host) (d : Disk) (r : CheckResult)
    (s' : State) :
  checkForUpdates h (boot d) = (Returned r, s') ->
  sublist (map ev_filename (res_updatedLists r)) (map fst EASYLIST_URLS) /\
  NoDup (map ev_filename (res_updatedLists r)).
Proof.
  destruct (checkForUpdates_tour h d)
    as (s1 & _ & _ & (_ & (new & U & Sub & _) & _) & ->).
  cbn [loaded updatedLists app] in U. rewrite <- U in Sub.
  rewrite saveAndReport_run.
  destruct s1 as [d1 n1 tr1 hs1 ms1 ul1]. simpl_state.
  destruct ul1 as [|ev ul1];
    repeat match goal with
           | |- context [if writable h ?p then _ else _] => destruct (writable h p)
           end;
    cbv zeta; intros [= <- <-]; cbn [res_updatedLists].
  - split; [apply sublist_nil_l | constructor].
  - split; [exact Sub|]. eapply sublist_NoDup; [exact (proj1 EASYLIST_URLS_NoDup) | exact Sub].
Qed.

Lemma reported_files_are_tracked_once_witness :
  exists r s',
    checkForUpdates host (boot empty_disk) = (Returned r, s') /\
    sublist (map ev_filename (res_updatedLists r)) (map fst EASYLIST_URLS) /\
    NoDup (map ev_filename (res_updatedLists r)).
Proof.
  eexists _, _. split; [vm_compute; reflexivity|].
  eapply (reported_files_are_tracked_once host empty_disk). vm_compute. reflexivity.
Defined.

(** X18. [update-summary.json] is written only by a cycle with updates: the
    summary of such a cycle counts and lists the reported events and is what
    the file then holds; a cycle without updates returns no summary and
    leaves the file of an earlier cycle as it was. *)
Theorem summary_is_written_only_with_updates (h : Host) (d : Disk) (r : CheckResult)
    (s' : State) :
  checkForUpdates h (boot d) = (Returned r, s') ->
  match res_summary r with
  | Some sm =>
      res_updatedLists r <> [] /\ sm_lists sm = res_updatedLists r /\
      sm_updated sm = length (res_updatedLists r) /\
      (exists n, sm_timestamp sm = iso_string (clock h n)) /\
      summary_json (disk s') = Some sm /\ WriteFile SummaryFile ∈ trace s'
  | None =>
      res_updatedLists r = [] /\ hasUpdates r = false /\
      summary_json (disk s') = summary_json d /\ WriteFile SummaryFile ∉ trace s'
  end.
Proof.
  destruct (checkForUpdates_tour h d)
    as (s1 & _ & ((evs & Tr & Fa) & _ & _ & Sj & _) & _ & ->).
  rewrite saveAndReport_run. cbn [loaded disk] in Sj.
  assert (No : WriteFile SummaryFile ∉ trace s1).
  { rewrite Tr, not_elem_of_app. split.
    - unfold loaded. cbn [trace].
      destruct (mkdir_fails h), (hashes_json d); cbn [app];
        rewrite ?not_elem_of_cons; repeat split; try discriminate; apply not_elem_of_nil.
    - intros Hin. eapply Forall_forall in Fa; [|exact Hin].
      by destruct Fa as (f & [=] & _). }
  destruct s1 as [d1 n1 tr1 hs1 ms1 ul1]. simpl_state.
  destruct ul1 as [|ev ul1];
    repeat match goal with
           | |- context [if writable h ?p then _ else _] => destruct (writable h p)
           end;
    cbv zeta; intros [= <- <-];
    cbn [res_summary res_updatedLists hasUpdates sm_lists sm_updated sm_timestamp];
    simpl_state.
  - do 3 (split; [done|]). rewrite not_elem_of_app, !not_elem_of_cons.
    repeat split; try done. apply not_elem_of_nil.
  - do 3 (split; [done|]). split; [by eexists|]. split; [done|].
    rewrite elem_of_app, !elem_of_cons. auto 10.
Qed.

Lemma summary_is_written_only_with_updates_witness :
  exists r s',
    checkForUpdates host (boot (disk_checked_at "2026-11-03T03:00:00.000Z"))
      = (Returned r, s') /\
    match res_summary r with
    | Some sm =>
        res_updatedLists r <> [] /\ sm_lists sm = res_updatedLists r /\
        sm_updated sm = length (res_updatedLists r) /\
        (exists n, sm_timestamp sm = iso_string (clock host n)) /\
        summary_json (disk s') = Some sm /\ WriteFile SummaryFile ∈ trace s'
    | None =>
        res_updatedLists r = [] /\ hasUpdates r = false /\
        summary_json (disk s') =
          summary_json (disk_checked_at "2026-11-03T03:00:00.000Z") /\
        WriteFile SummaryFile ∉ trace s'
    end.
Proof.
  eexists _, _. split; [vm_compute; reflexivity|].
  apply (summary_is_written_only_with_updates host
           (disk_checked_at "2026-11-03T03:00:00.000Z")).
  vm_compute. reflexivity.
Defined.

(** X19. A cycle changes no list file but those of the updates it recorded:
    the file of any other name, tracked or not, holds after the cycle what it
    held before, whether the cycle returns or throws.  (A write that fails is
    taken to leave its file as it was; every write that succeeds is followed
    by the push of its update event.) *)
Theorem unreported_list_files_are_kept (h : Host) (d : Disk) (filename : jsstring) :
  let s' := snd (checkForUpdates h (boot d)) in
  filename ∉ map ev_filename (updatedLists s') ->
  list_files (disk s') !! filename = list_files d !! filename.
Proof.
  cbv zeta.
  destruct (checkForUpdates_tour h d) as (s1 & _ & _ & (_ & _ & _ & Keep & _) & ->).
  cbn [loaded updatedLists length drop disk] in Keep.
  rewrite saveAndReport_run.
  destruct s1 as [d1 n1 tr1 hs1 ms1 ul1]. simpl_state.
  destruct ul1 as [|ev ul1];
    repeat match goal with
           | |- context [if writable h ?p then _ else _] => destruct (writable h p)
           end;
    cbv zeta; simpl_state; exact (Keep filename).
Qed.

Lemma unreported_list_files_are_kept_witness :
  let d := disk_checked_at "2026-11-02T12:00:00.000Z" in
  let s' := snd (checkForUpdates host (boot d)) in
  list_files (disk s') !! easylist_txt = list_files d !! easylist_txt.
Proof.
  cbv zeta.
  apply (unreported_list_files_are_kept host
           (disk_checked_at "2026-11-02T12:00:00.000Z") easylist_txt).
  compute_done.
Defined.

(** *** Metadata entries across a cycle *)

Section Entries.
Variable h : Host.
Variable currentHashes : gmap jsstring jsstring.
Variable currentMetadata : gmap jsstring Metadata.

Lemma Step_entries filename url s s' g :
  Step h currentHashes currentMetadata filename url s s' ->
  g ∉ map ev_filename (drop (length (updatedLists s)) (updatedLists s')) ->
  newMetadata s' !! g = newMetadata s !! g \/
  exists om n,
    currentMetadata !! g = Some om /\
    newMetadata s' !! g = Some (with_lastChecked om (iso_string (clock h n))).
Proof.
  intros [since T -> | e T Fe ->
    | st stt get' content' sx lm e evs T F' Tx Px B Ca D H M U Tr Fev Ou Sl Ex In Ti
    | st stt get' content' sx lm evs T F' Tx Px B D H M U Tr Fev Ou Sl Ex Ti
    | st stt get' content' sx t n age evs T F' Tx Px B W' Hn D H M U Tr Fev Ou Sl Ex] Hg.
  - by left.
  - by left.
  - left. by rewrite M.
  - destruct (currentMetadata !! filename) as [om|] eqn:Hm; [|left; by rewrite M].
    destruct M as (n & _ & ->).
    destruct (decide (g = filename)) as [->|Hne].
    + right. exists om, n. by rewrite lookup_insert_eq.
    + left. by rewrite lookup_insert_ne.
  - rewrite U, drop_app_length in Hg. cbn [map ev_filename] in Hg.
    apply not_elem_of_cons in Hg as [Hne _].
    left. rewrite M. by rewrite lookup_insert_ne.
Qed.

Lemma for_each_entries l s s' g :
  for_each l (checkOne h currentHashes currentMetadata) s = (Returned tt, s') ->
  g ∉ map ev_filename (drop (length (updatedLists s)) (updatedLists s')) ->
  newMetadata s' !! g = newMetadata s !! g \/
  exists om n,
    currentMetadata !! g = Some om /\
    newMetadata s' !! g = Some (with_lastChecked om (iso_string (clock h n))).
Proof.
  revert s. induction l as [|[filename url] l IH]; intros s R Hg.
  - injection R as <-. by left.
  - destruct (checkOne_step h currentHashes currentMetadata filename url s)
      as (s1 & R1 & St).
    cbn [for_each] in R. unfold mbind, M_bind in R. rewrite R1 in R.
    destruct (for_each_tour h currentHashes currentMetadata l s1)
      as (s2 & R2 & _ & (_ & (new2 & U2 & _) & _)).
    rewrite R2 in R. injection R as <-.
    assert (U1 : exists new1, updatedLists s1 = updatedLists s ++ new1).
    { destruct (Step_updates _ _ _ _ _ _ _ St) as [(-> & _) | (ev & _ & -> & _)];
        [exists []; by rewrite app_nil_r | by exists [ev]]. }
    destruct U1 as (new1 & U1).
    rewrite U2, U1, <- app_assoc, drop_app_length, fmap_app, not_elem_of_app in Hg.
    destruct Hg as [Hg1 Hg2].
    destruct (IH s1 R2) as [E | Hr]; [by rewrite U2, drop_app_length | | by right].
    rewrite E. apply (Step_entries filename url s s1 g St).
    by rewrite U1, drop_app_length.
Qed.

End Entries.

(** X20. A cycle that completes leaves in [metadata.json], for every file name
    it does not report as updated, the entry it loaded, or that entry with
    only [lastChecked] replaced by a reading of the clock: the stored time,
    ETag, version and size of an unreported list are never changed or
    lost. *)
Theorem unreported_metadata_only_gets_lastChecked (h : Host) (d : Disk) (r : CheckResult)
    (s' : State) (filename : jsstring) :
  checkForUpdates h (boot d) = (Returned r, s') ->
  filename ∉ map ev_filename (res_updatedLists r) ->
  let old := (default ∅ (metadata_json d)) !! filename in
  let new := (default ∅ (metadata_json (disk s'))) !! filename in
  new = old \/
  exists om n, old = Some om /\ new = Some (with_lastChecked om (iso_string (clock h n))).
Proof.
  cbv zeta.
  destruct (checkForUpdates_tour h d) as (s1 & R1 & _ & _ & ->).
  pose proof (for_each_entries h _ _ _ _ _ filename R1) as Ent.
  cbn [loaded updatedLists newMetadata length drop] in Ent.
  rewrite saveAndReport_run.
  destruct s1 as [d1 n1 tr1 hs1 ms1 ul1]. simpl_state.
  destruct ul1 as [|ev ul1];
    repeat match goal with
           | |- context [if writable h ?p then _ else _] => destruct (writable h p)
           end;
    cbv zeta; intros [= <- <-]; cbn [res_updatedLists]; simpl_state;
    cbn [default from_option id]; intros Hf.
  - apply Ent. cbn [map]. apply not_elem_of_nil.
  - by apply Ent.
Qed.

Lemma unreported_metadata_only_gets_lastChecked_witness :
  let d := disk_checked_at "2026-11-02T12:00:00.000Z" in
  exists r s',
    checkForUpdates host (boot d) = (Returned r, s') /\
    ((default ∅ (metadata_json (disk s'))) !! easylist_txt
       = (default ∅ (metadata_json d)) !! easylist_txt \/
     exists om n,
       (default ∅ (metadata_json d)) !! easylist_txt = Some om /\
       (default ∅ (metadata_json (disk s'))) !! easylist_txt
         = Some (with_lastChecked om (iso_string (clock host n)))).
Proof.
  cbv zeta. eexists _, _. split; [vm_compute; reflexivity|].
  eapply (unreported_metadata_only_gets_lastChecked host
            (disk_checked_at "2026-11-02T12:00:00.000Z")).
  - vm_compute. reflexivity.
  - compute_done.
Defined.

(** *** Two cycles in a row *)

Lemma iso_string_nonempty (t : Z) : iso_string t <> [].
Proof.
  unfold iso_string. destruct (civil (t / 86400000)) as [[y m] d].
  intros E. apply (f_equal length) in E. rewrite !length_app in E.
  cbn [length] in E. lia.
Qed.

(** X21. The throttle across runs: a list that a completed cycle reported as
    updated is not asked for by the next cycle, run on the disk the first one
    left, as long as the clock of the second run stays less than ninety
    minutes after the readings of the first and [Date] reads back the ISO
    strings that [toISOString] wrote. *)
Theorem recorded_list_is_throttled_next_cycle (h h2 : Host) (d : Disk) (r : CheckResult)
    (s1 : State) (ev : UpdateEvent) (url : jsstring) :
  checkForUpdates h (boot d) = (Returned r, s1) ->
  ev ∈ res_updatedLists r ->
  (ev_filename ev, url) ∈ EASYLIST_URLS ->
  (forall n, parse_date h2 (iso_string (clock h n)) = Some (clock h n)) ->
  (forall n m, clock h2 m - clock h n < 90 * 60000) ->
  let s2 := snd (checkForUpdates h2 (boot (disk s1))) in
  (Fetch url ∉ trace s2) /\
  (default ∅ (hashes_json (disk s2))) !! ev_filename ev = Some (ev_hash ev).
Proof.
  intros R Hev Hin Hparse Hclock. cbv zeta.
  (* the first cycle *)
  destruct (checkForUpdates_tour h d)
    as (sl & _ & _ & (_ & (new & U & _ & Rec) & _) & E).
  specialize (Rec (proj1 EASYLIST_URLS_NoDup)).
  cbn [loaded updatedLists app] in U. rewrite <- U in Rec.
  rewrite E, saveAndReport_run in R.
  assert (D1 : res_updatedLists r = updatedLists sl /\
               (res_updatedLists r <> [] ->
                hashes_json (disk s1) = Some (newHashes sl) /\
                metadata_json (disk s1) = Some (newMetadata sl))).
  { destruct sl as [d1 n1 tr1 hs1 ms1 ul1]. simpl_state.
    destruct ul1 as [|ev1 ul1];
      repeat match type of R with
             | context [if writable h ?p then _ else _] => destruct (writable h p)
             end;
      cbv zeta in R; revert R; intros [= <- <-]; cbn [res_updatedLists]; simpl_state;
      by split. }
  destruct D1 as [Ul Dj]. destruct Dj as [Hj Mj].
  { intros N. rewrite N in Hev. by apply elem_of_nil in Hev. }
  rewrite Ul in Hev. eapply Forall_forall in Rec; [|exact Hev].
  destruct Rec as (Hh & content & md & _ & _ & _ & Hm & _ & _ & _ & _ & n & _ & Hlc).
  (* the second cycle *)
  destruct (checkForUpdates_cycle h2 (disk s1)) as (s1' & o & s' & R2 & R1 & L & S).
  rewrite R2. cbn [snd].
  destruct (EASYLIST_URLS_split (ev_filename ev) url Hin) as (pre & post & El & Hf & Hu).
  destruct (for_each_throttled h2 (default ∅ (hashes_json (disk s1)))
              (default ∅ (metadata_json (disk s1))) pre post (ev_filename ev) url md
              (iso_string (clock h n)) (clock h n) (loaded h2 (disk s1)) Hf Hu)
    as (s1'' & R1' & (_ & _ & _ & _ & (new2 & U2 & _ & K2) & _) & (evs & T & Hevs) & A & _).
  { by rewrite Mj. }
  { exact Hlc. }
  { apply iso_string_nonempty. }
  { apply Hparse. }
  { intros m. apply Hclock. }
  rewrite <- El, R1 in R1'. injection R1' as <-.
  destruct L as (_ & LH & _ & _ & _ & _).
  destruct S as (SH & _ & SU & SL & (evs' & T' & Hevs' & _) & DH & _).
  cbn [loaded newHashes disk] in A, LH. rewrite Hj in A, LH. cbn [default from_option id] in A.
  split.
  - rewrite T', T, !not_elem_of_app. repeat split; [apply loaded_trace_no_fetch | done..].
  - destruct DH as [-> | [_ ->]]; cbn [default from_option id].
    + rewrite LH. cbn [default from_option id]. exact Hh.
    + by rewrite A.
Qed.

Lemma recorded_list_is_throttled_next_cycle_witness :
  let s1 := snd (checkForUpdates host (boot empty_disk)) in
  let s2 := snd (checkForUpdates later_host (boot (disk s1))) in
  (Fetch easylist_url ∉ trace s2) /\
  (default ∅ (hashes_json (disk s2))) !! easylist_txt = Some (calculateHash easylist_body).
Proof.
  cbv zeta.
  eapply (recorded_list_is_throttled_next_cycle host later_host empty_disk _
            (snd (checkForUpdates host (boot empty_disk)))
            (mkUpdateEvent easylist_txt easylist_url (calculateHash easylist_body)
               (Some (js "202611030410")) (js "2026-11-03T05:00:00.000Z")
               (Some (js "Tue, 03 Nov 2026 03:00:00 GMT")) (Some (js "W/abc")) 115
               (js "content hash changed") (Some (js "4 days")) (Some (-3000000)))
            easylist_url).
  - vm_compute. reflexivity.
  - vm_compute. apply elem_of_cons. by left.
  - compute_done.
  - intros n. vm_compute. reflexivity.
  - intros n m. vm_compute. reflexivity.
Defined.

(** *** Failed writes of the state files *)

(** X22. The writes of a cycle are not undone: when the cycle has updates and
    stops on the write of [metadata.json], the list files of the updates and
    [hashes.json] with their hashes are already on disk, and
    [update-summary.json] is never written. *)
Theorem failed_metadata_write_keeps_earlier_writes (h : Host) (d : Disk) (s' : State) :
  checkForUpdates h (boot d) = (Thrown (WriteFailed MetadataFile), s') ->
  updatedLists s' <> [] ->
  hashes_json (disk s') = Some (newHashes s') /\
  Forall (fun ev =>
            newHashes s' !! ev_filename ev = Some (ev_hash ev) /\
            exists content,
              list_files (disk s') !! ev_filename ev = Some content /\
              calculateHash content = ev_hash ev)
         (updatedLists s') /\
  (WriteFile HashesFile ∈ trace s') /\ (WriteFile SummaryFile ∉ trace s') /\
  summary_json (disk s') = summary_json d.
Proof.
  destruct (checkForUpdates_tour h d)
    as (s1 & _ & ((evs & Tr & Fa) & _ & _ & Sj & _) & (_ & (new & U & _ & Rec) & _) & ->).
  specialize (Rec (proj1 EASYLIST_URLS_NoDup)).
  cbn [loaded updatedLists app] in U. rewrite <- U in Rec.
  rewrite saveAndReport_run. cbn [loaded disk] in Sj.
  assert (No : WriteFile SummaryFile ∉ trace s1).
  { rewrite Tr, not_elem_of_app. split.
    - unfold loaded. cbn [trace].
      destruct (mkdir_fails h), (hashes_json d); cbn [app];
        rewrite ?not_elem_of_cons; repeat split; try discriminate; apply not_elem_of_nil.
    - intros Hin. eapply Forall_forall in Fa; [|exact Hin].
      by destruct Fa as (f & [=] & _). }
  destruct s1 as [d1 n1 tr1 hs1 ms1 ul1]. simpl_state.
  destruct ul1 as [|ev ul1];
    repeat match goal with
           | |- context [if writable h ?p then _ else _] => destruct (writable h p)
           end;
    cbv zeta; intros [= <-]; simpl_state; intros Hne; try done.
  split; [done|]. split.
  - eapply Forall_impl; [exact Rec|].
    intros e (Hh & content & md & Hl & Hc & _). simpl_state.
    split; [done|]. by exists content.
  - split; [rewrite elem_of_app, !elem_of_cons; auto|]. split; [|done].
    rewrite not_elem_of_app, !not_elem_of_cons.
    repeat split; try done. apply not_elem_of_nil.
Qed.

Lemma failed_metadata_write_keeps_earlier_writes_witness :
  let s' := snd (checkForUpdates metadata_readonly_host (boot empty_disk)) in
  hashes_json (disk s') = Some (newHashes s') /\
  Forall (fun ev =>
            newHashes s' !! ev_filename ev = Some (ev_hash ev) /\
            exists content,
              list_files (disk s') !! ev_filename ev = Some content /\
              calculateHash content = ev_hash ev)
         (updatedLists s') /\
  (WriteFile HashesFile ∈ trace s') /\ (WriteFile SummaryFile ∉ trace s') /\
  summary_json (disk s') = summary_json empty_disk.
Proof.
  cbv zeta.
  apply (failed_metadata_write_keeps_earlier_writes metadata_readonly_host empty_disk).
  - vm_compute. reflexivity.
  - assert (E : length (updatedLists
                          (snd (checkForUpdates metadata_readonly_host (boot empty_disk))))
                = 1%nat) by (vm_compute; reflexivity).
    intros N. rewrite N in E. discriminate E.
Defined.
